(** * tensorlight: the Ms. Pac-Man and UCF-101 batch samplers

    A shallow embedding of [tensorlight/datasets/ms_pacman.py] and
    [tensorlight/datasets/ucf101.py]: the motion filter
    [enough_l2_movement] (both copies), the crop / flip transform, the
    bounded retry loop and the circular index window of [get_batch].

    Conventions of the embedding:
    - Python integers are [Z]; a [uint8] pixel is a [Z] in [0, 255].
    - the [float64] arithmetic of the motion filter is IEEE 754 binary64
      (Rocq's primitive floats), operation by operation, and [np.sum] adds
      in the order of numpy's pairwise summation.
    - the quotients by [np.float32(255)] that [get_batch] returns are exact
      rationals ([Q]).
    - an [H x W x C] image is a nested list, rows first.
    - exceptions are the [Raise] results of [result].
    - the two global random generators ([random] and [numpy.random]) are
      two streams of raw draws, consumed in program order. *)

From Stdlib Require Import Floats.
From Stdlib Require Uint63.
From Stdlib Require Import ZArith QArith Lia Lqa String.
From stdpp Require Import base list option.

Open Scope Z_scope.

(** ** The Python run time *)

Inductive exn : Set :=
  | ValueError | IndexError | AssertionError | ZeroDivisionError
  | UnboundLocalError | IOError.

Inductive result (A : Type) : Type :=
  | Ok (a : A)
  | Raise (e : exn).
Arguments Ok {A} a.
Arguments Raise {A} e.

(** The state of the two global generators: the draws still to come. *)
Record rng : Type := Rng { py_random : nat -> Z; np_random : nat -> Z }.

(** Computations that draw random numbers and may raise. *)
Definition M (A : Type) : Type := rng -> result (A * rng).

#[global] Instance M_ret : MRet M := fun A a g => Ok (a, g).

#[global] Instance M_bind : MBind M := fun A B f m g =>
  match m g with
  | Ok (a, g') => f a g'
  | Raise e => Raise e
  end.

#[global] Instance result_ret : MRet result := fun A a => Ok a.

#[global] Instance result_bind : MBind result := fun A B f r =>
  match r with
  | Ok a => f a
  | Raise e => Raise e
  end.

Definition raise {A} (e : exn) : M A := fun _ => Raise e.

Definition lift {A} (r : result A) : M A := fun g =>
  match r with
  | Ok a => Ok (a, g)
  | Raise e => Raise e
  end.

(** [[f(x) for x in l]] and the body of a [for] loop that collects. *)
Fixpoint forM {T : Type -> Type} `{!MBind T, !MRet T} {A B}
    (f : A -> T B) (l : list A) : T (list B) :=
  match l with
  | [] => mret []
  | x :: l' => y ← f x; ys ← forM f l'; mret (y :: ys)
  end.

Definition py_next : M Z := fun g =>
  Ok (py_random g 0%nat, Rng (fun k => py_random g (S k)) (np_random g)).

Definition np_next : M Z := fun g =>
  Ok (np_random g 0%nat, Rng (py_random g) (fun k => np_random g (S k))).

(** [random.randint(a, b)]: an integer of [a..b], [ValueError] on an
    empty range. *)
Definition randint (a b : Z) : M Z :=
  if b <? a then raise ValueError
  else r ← py_next; mret (a + r mod (b - a + 1)).

(** [random.random()]: a multiple of [2^-53] in [0, 1). *)
Definition random : M Q :=
  r ← py_next; mret (Qmake (r mod 2 ^ 53) (2 ^ 53)).

(** [np.random.choice(a, size)] for an integer population [a]. *)
Definition np_random_choice (a size : Z) : M (list Z) :=
  if a <=? 0 then raise ValueError
  else if size <? 0 then raise ValueError
  else forM (fun _ => r ← np_next; mret (r mod a)) (seqZ 0 size).

(** [xrange(a, b)] *)
Definition xrange (a b : Z) : list Z := seqZ a (b - a).

(** [l[i]] *)
Definition py_index {A} (l : list A) (i : Z) : result A :=
  let n := Z.of_nat (length l) in
  let j := if i <? 0 then i + n else i in
  if (j <? 0) || (n <=? j) then Raise IndexError
  else match l !! Z.to_nat j with
       | Some x => Ok x
       | None => Raise IndexError
       end.

(** [l[a:b]]: bounds are clipped, a negative bound counts from the end. *)
Definition clip_bound (n i : Z) : Z :=
  if i <? 0 then Z.max 0 (i + n) else Z.min i n.

Definition py_slice {A} (a b : Z) (l : list A) : list A :=
  let n := Z.of_nat (length l) in
  let a' := clip_bound n a in
  let b' := clip_bound n b in
  take (Z.to_nat (b' - a')) (drop (Z.to_nat a') l).

(** [l[a:]] and [l[:b]] *)
Definition py_slice_from {A} (a : Z) (l : list A) : list A :=
  drop (Z.to_nat (clip_bound (Z.of_nat (length l)) a)) l.

Definition py_slice_to {A} (b : Z) (l : list A) : list A :=
  take (Z.to_nat (clip_bound (Z.of_nat (length l)) b)) l.

(** ** Images *)

(** A [uint8] image [H x W x C], and a sequence of them. *)
Abbreviation image := (list (list (list Z))).

(** The same with rational entries. *)
Abbreviation qimage := (list (list (list Q))).

(** [image[oy:oy+ch, ox:ox+cw, :]] *)
Definition crop (ch cw oy ox : Z) (f : image) : image :=
  py_slice ox (ox + cw) <$> py_slice oy (oy + ch) f.

(** [image[:, ::-1, :]] *)
Definition flip_lr (f : image) : image := reverse <$> f.

(** [x / c] on an image *)
Definition div_frame (c : Q) (f : image) : qimage :=
  (fun row : list (list Z) =>
     (fun px : list Z => (fun v : Z => (inject_Z v / c)%Q) <$> px) <$> row)
  <$> f.

(** ** Arrays *)

(** A [uint8] array [B x T x H x W x C], its division by [np.float32(255)],
    and the shape of its rows. *)
Abbreviation batch := (list (list image)).
Abbreviation qbatch := (list (list qimage)).
Abbreviation shape := (Z * Z * Z * Z)%type.

Definition dim0 (s : shape) : Z := let '(a, _, _, _) := s in a.
Definition dim3 (s : shape) : Z := let '(_, _, _, d) := s in d.

Definition div_batch (c : Q) (b : batch) : qbatch :=
  (fun row : list image => div_frame c <$> row) <$> b.

(** [np.empty([b] + s, dtype=np.uint8)]: the bytes are whatever the
    allocator left, zero stands for them; a negative dimension raises. *)
Definition np_empty (b : Z) (s : shape) : result batch :=
  let '(t, h, w, c) := s in
  if (b <? 0) || (t <? 0) || (h <? 0) || (w <? 0) || (c <? 0)
  then Raise ValueError
  else Ok (replicate (Z.to_nat b) (replicate (Z.to_nat t)
         (replicate (Z.to_nat h) (replicate (Z.to_nat w)
           (replicate (Z.to_nat c) 0))))).

(** [k] consecutive pieces of [size] elements. *)
Fixpoint chunks {A} (k size : nat) (l : list A) : list (list A) :=
  match k with
  | O => []
  | S k' => take size l :: chunks k' size (drop size l)
  end.

(** [np.reshape(flat, [t, h, w, c])], row-major. *)
Definition np_reshape (flat : list Z) (s : shape) : result (list image) :=
  let '(t, h, w, c) := s in
  if (t <? 0) || (h <? 0) || (w <? 0) || (c <? 0) then Raise ValueError
  else if negb (Z.of_nat (length flat) =? t * h * w * c) then Raise ValueError
  else
    let '(t, h, w, c) := (Z.to_nat t, Z.to_nat h, Z.to_nat w, Z.to_nat c) in
    Ok ((fun fr : list Z =>
           (fun row : list Z => chunks w c row) <$> chunks h (w * c) fr)
        <$> chunks t (h * w * c) flat).

(** The shape of a rectangular [T x H x W x C] array, read off its first
    entries. *)
Definition shape_of (x : list image) : list nat :=
  let f := x !!! 0%nat in
  let r := f !!! 0%nat in
  let p := r !!! 0%nat in
  [length x; length f; length r; length p].

(** [np.stack(arrays)] *)
Definition np_stack (arrays : list (list image)) : result batch :=
  match arrays with
  | [] => Raise ValueError
  | x :: rest =>
      if forallb (fun y => bool_decide (shape_of y = shape_of x)) rest
      then Ok arrays
      else Raise ValueError
  end.

(** [a % b] on integers *)
Definition py_mod (a b : Z) : result Z :=
  if b =? 0 then Raise ZeroDivisionError else Ok (a mod b).

(** [np.random.shuffle(x)]: swap [x[i]] with a drawn [x[j]], [j <= i], for
    [i] from the last index down to [1]. *)
Fixpoint shuffle_loop (todo : list Z) (x : list Z) : M (list Z) :=
  match todo with
  | [] => mret x
  | i :: todo' =>
      r ← np_next;
      let j := r mod (i + 1) in
      let xi := x !!! Z.to_nat i in
      let xj := x !!! Z.to_nat j in
      shuffle_loop todo' (<[Z.to_nat j := xi]> (<[Z.to_nat i := xj]> x))
  end.

Definition np_random_shuffle (x : list Z) : M (list Z) :=
  shuffle_loop (reverse (xrange 1 (Z.of_nat (length x)))) x.

(** ** The motion filter *)

Definition MAX_TRIES : Z := 100.
Definition MIN_L2_DIFF_PER_FRAME : float := 25%float.

(** A [float64] image. *)
Abbreviation fimage := (list (list (list float))).

#[global] Instance float_inhabited : Inhabited float := populate 0%float.

(** The [float64] of a Python or [uint8] integer (below [2^63] in absolute
    value; exact below [2^53]). *)
Definition float_of_Z (v : Z) : float :=
  if v <? 0 then PrimFloat.opp (PrimFloat.of_uint63 (Uint63.of_Z (- v)))
  else PrimFloat.of_uint63 (Uint63.of_Z v).

(** [frames / c] for an integer image and a Python float: every entry is
    converted to [float64] and divided. *)
Definition np_true_divide (c : float) (f : image) : fimage :=
  (fun row : list (list Z) =>
     (fun px : list Z => (fun v : Z => (float_of_Z v / c)%float) <$> px)
     <$> row)
  <$> f.

(** [np.square(a - b)] *)
Definition np_square_sub (a b : fimage) : fimage :=
  zip_with (zip_with (zip_with
    (fun x y : float => let d := (x - y)%float in (d * d)%float))) a b.

(** numpy's [pairwise_sum] over a contiguous run of [float64]: a plain
    loop below 8 entries; eight interleaved partial sums, added as a tree,
    and the remainder one by one up to [PW_BLOCKSIZE] entries; the sums of
    two parts above, the first part a multiple of 8 long. *)
Definition PW_BLOCKSIZE : nat := 128.

Definition sum_loop (res : float) (a : list float) : float :=
  foldl PrimFloat.add res a.

Definition sum_unrolled (a : list float) : float :=
  let n := length a in
  let blocks := chunks (n / 8)%nat 8 a in
  let r := foldl (zip_with PrimFloat.add) (blocks !!! 0%nat)
             (drop 1 blocks) in
  let res :=
    (((r !!! 0%nat + r !!! 1%nat) + (r !!! 2%nat + r !!! 3%nat))
     + ((r !!! 4%nat + r !!! 5%nat) + (r !!! 6%nat + r !!! 7%nat)))%float in
  sum_loop res (drop (n - n mod 8)%nat a).

(** The recursion halves the run, so as many steps as the run is long
    are enough ([pairwise_sum_fuel_enough] below). *)
Fixpoint pairwise_sum_fuel (fuel : nat) (a : list float) : float :=
  let n := length a in
  if (n <? 8)%nat then sum_loop 0 a
  else if (n <=? PW_BLOCKSIZE)%nat then sum_unrolled a
  else match fuel with
       | O => 0%float
       | S fuel' =>
           let n2 := (n / 2)%nat in
           let n2 := (n2 - n2 mod 8)%nat in
           (pairwise_sum_fuel fuel' (take n2 a)
            + pairwise_sum_fuel fuel' (drop n2 a))%float
       end.

Definition pairwise_sum (a : list float) : float :=
  pairwise_sum_fuel (length a) a.

(** [np.sum(a)] of a contiguous [float64] image: the reduction starts from
    [0] and adds the pairwise sum of all entries, one run in memory
    order. *)
Definition np_sum (a : fimage) : float :=
  (0 + pairwise_sum (concat (concat a)))%float.

Module MsPacmanFilter.

(** The body of [for i in reversed(xrange(n - 1))] of ms_pacman.py, with
    the running [diff]. *)
Fixpoint l2_loop (frames_scaled : list fimage) (n : Z) (todo : list Z)
    (diff : float) : bool :=
  match todo with
  | [] => false
  | i :: todo' =>
      let diff := (diff + np_sum (np_square_sub
                     (frames_scaled !!! Z.to_nat i)
                     (frames_scaled !!! Z.to_nat (i + 1))))%float in
      let threshold_test :=
        if (MIN_L2_DIFF_PER_FRAME * float_of_Z n <=? diff)%float then true
        else l2_loop frames_scaled n todo' diff in
      if i =? n - 2
      then if (diff =? 0)%float then false else threshold_test
      else threshold_test
  end.

Definition enough_l2_movement (frames : list image) : bool :=
  let frames_scaled := np_true_divide 127.5%float <$> frames in
  let n := Z.of_nat (length frames_scaled) in
  l2_loop frames_scaled n (reverse (xrange 0 (n - 1))) 0%float.

End MsPacmanFilter.

Module UCF101Filter.

(** The same loop in ucf101.py: no test of the last pair. *)
Fixpoint l2_loop (frames_scaled : list fimage) (n : Z) (todo : list Z)
    (diff : float) : bool :=
  match todo with
  | [] => false
  | i :: todo' =>
      let diff := (diff + np_sum (np_square_sub
                     (frames_scaled !!! Z.to_nat i)
                     (frames_scaled !!! Z.to_nat (i + 1))))%float in
      if (MIN_L2_DIFF_PER_FRAME * float_of_Z n <=? diff)%float then true
      else l2_loop frames_scaled n todo' diff
  end.

Definition enough_l2_movement (frames : list image) : bool :=
  let frames_scaled := np_true_divide 127.5%float <$> frames in
  let n := Z.of_nat (length frames_scaled) in
  l2_loop frames_scaled n (reverse (xrange 0 (n - 1))) 0%float.

End UCF101Filter.

(** ** ms_pacman.py *)

Module MsPacman.

Import MsPacmanFilter.

Definition FRAME_HEIGHT : Z := 210.
Definition FRAME_WIDTH : Z := 160.
Definition FRAME_CHANNELS : Z := 3.

(** the y-pixel where the HUD at the bottom starts *)
Definition HUD_Y : Z := 172.

(** The fields [__init__] sets, and those of [base.AbstractDataset]. *)
Record Dataset : Type := {
  _data : list (string * Z * list string);
  _crop_size : option (Z * Z);
  _repetitions_per_epoche : Z;
  _skip_less_movement : bool;
  _random_flip : bool;
  _true_dataset_size : Z;
  _input_seq_length : Z;
  _target_seq_length : Z;
  size : Z;
  input_shape : shape;
  target_shape : shape;
  _row : Z;
  _indices : list Z
}.

(** Modelled from the spec: the sample cursor a new dataset gets from
    tensorlight's [base.AbstractDataset], whose constructor (called with
    [data_dir, dataset_size, input_shape, target_shape]) is not among the
    sources: row [0] and the identity permutation of the true size. *)
Definition initial_cursor (true_dataset_size : Z) : Z * list Z :=
  (0, xrange 0 true_dataset_size).

(** [__init__].  [folders] is the sorted list of numbered folders of the
    sub-directory, cut to [index_range], each with its sorted [*.png] file
    names; the base class keeps the size and the two shapes. *)
Definition __init__ (folders : list (string * list string))
    (input_seq_length target_seq_length : Z) (crop_size : option (Z * Z))
    (repetitions_per_epoche : Z) (skip_less_movement random_flip : bool)
    : Dataset :=
  let data :=
    (fun '(nfp, filenames) =>
       (nfp, Z.of_nat (length filenames), filenames)) <$> folders in
  let true_dataset_size := Z.of_nat (length data) in
  let dataset_size := true_dataset_size * repetitions_per_epoche in
  let '(input_shape, target_shape) :=
    match crop_size with
    | None =>
        ((input_seq_length, FRAME_HEIGHT, FRAME_WIDTH, FRAME_CHANNELS),
         (target_seq_length, FRAME_HEIGHT, FRAME_WIDTH, FRAME_CHANNELS))
    | Some (crop_h, crop_w) =>
        ((input_seq_length, crop_h, crop_w, FRAME_CHANNELS),
         (target_seq_length, crop_h, crop_w, FRAME_CHANNELS))
    end in
  {| _data := data;
     _crop_size := crop_size;
     _repetitions_per_epoche := repetitions_per_epoche;
     _skip_less_movement := skip_less_movement;
     _random_flip := random_flip;
     _true_dataset_size := true_dataset_size;
     _input_seq_length := input_seq_length;
     _target_seq_length := target_seq_length;
     size := dataset_size;
     input_shape := input_shape;
     target_shape := target_shape;
     _row := (initial_cursor true_dataset_size).1;
     _indices := (initial_cursor true_dataset_size).2 |}.

(** One pass of the body of [for retry in range(MAX_TRIES)], as a record
    of what it did: the offsets it drew, the flip flag it wrote with, the
    row [batch_inputs[batch]] it left, the verdict of [enough_l2_movement]
    when it was called, and whether the pass reached [break]. *)
Record Attempt : Type := {
  att_retry : Z;
  att_offset_y : Z;
  att_offset_x : Z;
  att_do_flip : bool;
  att_inputs : list image;
  att_motion : option bool;
  att_accepted : bool
}.

Section Sampler.
(** [light.utils.image.read] and [os.path.join] *)
Variable image_read : string -> result image.
Variable path_join : string -> string -> string.

Variable self : Dataset.

(** Lines 193-201: the offsets of one retry and the flip flag after the
    HUD test. *)
Definition draw_offsets (do_flip : bool) : M (Z * Z * bool) :=
  match _crop_size self with
  | None => mret (0, 0, do_flip)
  | Some (crop_h, crop_w) =>
      offset_x ← randint 0 (FRAME_WIDTH - crop_w);
      offset_y ← randint 0 (FRAME_HEIGHT - crop_h);
      mret (offset_y, offset_x,
            if offset_y + crop_h >? HUD_Y then false else do_flip)
  end.

(** The crop and the flip both loops apply to a frame before they store
    it. *)
Definition transform (offset_y offset_x : Z) (do_flip : bool)
    (frame : image) : image :=
  let frame :=
    match _crop_size self with
    | None => frame
    | Some (crop_h, crop_w) => crop crop_h crop_w offset_y offset_x frame
    end in
  if do_flip then flip_lr frame else frame.

(** Lines 204-213: the row [batch_inputs[batch]] after the writes. *)
Definition process_inputs (offset_y offset_x : Z) (do_flip : bool)
    (input_frames : list image) : result (list image) :=
  forM (fun i =>
          frame ← py_index input_frames i;
          mret (transform offset_y offset_x do_flip frame))
       (xrange 0 (_input_seq_length self)).

(** Lines 223-235: the row [batch_targets[batch]]. *)
Definition process_targets (current_seq : string * Z * list string)
    (start_idx total_seq_len offset_y offset_x : Z) (do_flip : bool)
    : result (list image) :=
  forM (fun fidx =>
          let current_path := current_seq.1.1 in
          current_filename ← py_index current_seq.2 fidx;
          let frame_path := path_join current_path current_filename in
          frame ← image_read frame_path;
          mret (transform offset_y offset_x do_flip frame))
       (xrange (start_idx + _input_seq_length self)
               (start_idx + total_seq_len)).

(** Lines 192-238.  [row] is [batch_inputs[batch]]; the result carries the
    row of targets when a pass reached [break]. *)
Fixpoint retry_loop (current_seq : string * Z * list string)
    (start_idx total_seq_len : Z) (input_frames : list image)
    (retries : list Z) (do_flip : bool) (row : list image)
    (trace : list Attempt)
    : M (list Attempt * list image * option (list image)) :=
  match retries with
  | [] => mret (trace, row, None)
  | retry :: retries' =>
      '(offset_y, offset_x, do_flip) ← draw_offsets do_flip;
      row ← lift (process_inputs offset_y offset_x do_flip input_frames);
      let attempt motion accepted :=
        {| att_retry := retry; att_offset_y := offset_y;
           att_offset_x := offset_x; att_do_flip := do_flip;
           att_inputs := row; att_motion := motion;
           att_accepted := accepted |} in
      let accept motion :=
        targets ← lift (process_targets current_seq start_idx total_seq_len
                          offset_y offset_x do_flip);
        mret (trace ++ [attempt motion true], row, Some targets) in
      if bool_decide (_crop_size self <> None)
         && _skip_less_movement self
         && negb (retry =? MAX_TRIES - 1)
      then
        let moving := enough_l2_movement row in
        if negb moving
        then retry_loop current_seq start_idx total_seq_len input_frames
               retries' do_flip row (trace ++ [attempt (Some moving) false])
        else accept (Some moving)
      else accept None
  end.

(** Lines 163-238: the body of [for batch in xrange(batch_size)]. *)
Definition sample_item (seq_indices : list Z) (total_seq_len batch : Z)
    (row : list image)
    : M (list Attempt * list image * option (list image)) :=
  seq_index ← lift (py_index seq_indices batch);
  current_seq ← lift (py_index (_data self) seq_index);
  start_idx ← randint 0 (current_seq.1.2 - total_seq_len);
  do_flip ← (if _random_flip self
             then r ← random; mret (negb (Qle_bool r (1 # 2)))
             else mret false);
  input_frames ← lift (forM (fun fidx =>
      filename ← py_index current_seq.2 fidx;
      image_read (path_join current_seq.1.1 filename))
    (xrange start_idx (start_idx + _input_seq_length self)));
  retry_loop current_seq start_idx total_seq_len input_frames
    (xrange 0 MAX_TRIES) do_flip row [].

Fixpoint batch_loop (seq_indices : list Z) (total_seq_len : Z)
    (batches : list Z) (batch_inputs batch_targets : batch)
    (traces : list (list Attempt))
    : M (batch * batch * list (list Attempt)) :=
  match batches with
  | [] => mret (batch_inputs, batch_targets, traces)
  | batch :: batches' =>
      '(trace, row, targets) ←
        sample_item seq_indices total_seq_len batch
          (batch_inputs !!! Z.to_nat batch);
      let batch_inputs := <[Z.to_nat batch := row]> batch_inputs in
      let batch_targets :=
        match targets with
        | Some targets => <[Z.to_nat batch := targets]> batch_targets
        | None => batch_targets
        end in
      batch_loop seq_indices total_seq_len batches'
        batch_inputs batch_targets (traces ++ [trace])
  end.

(** [get_batch], with the attempts of every item. *)
Definition get_batch_traced (batch_size : Z)
    : M (qbatch * qbatch * list (list Attempt)) :=
  let total_seq_len := _input_seq_length self + _target_seq_length self in
  seq_indices ← np_random_choice (_true_dataset_size self) batch_size;
  let '(input_batch_shape, target_batch_shape) :=
    match _crop_size self with
    | None => (input_shape self, target_shape self)
    | Some (crop_h, crop_w) =>
        ((dim0 (input_shape self), crop_h, crop_w,
          dim3 (input_shape self)),
         (dim0 (target_shape self), crop_h, crop_w,
          dim3 (target_shape self)))
    end in
  batch_inputs ← lift (np_empty batch_size input_batch_shape);
  batch_targets ← lift (np_empty batch_size target_batch_shape);
  '(batch_inputs, batch_targets, traces) ←
    batch_loop seq_indices total_seq_len (xrange 0 batch_size)
      batch_inputs batch_targets [];
  mret (div_batch 255 batch_inputs, div_batch 255 batch_targets, traces).

(** [get_batch]: the two arrays, and the object as the call leaves it. *)
Definition get_batch (batch_size : Z) : M (qbatch * qbatch * Dataset) :=
  '(batch_inputs, batch_targets, _) ← get_batch_traced batch_size;
  mret (batch_inputs, batch_targets, self).

(** [reset]: [pass]. *)
Definition reset : M (unit * Dataset) := mret (tt, self).
End Sampler.

End MsPacman.

(** ** ucf101.py, the evaluation datasets *)

Module UCF101.

Import UCF101Filter.

Definition FRAME_HEIGHT : Z := 240.
Definition FRAME_WIDTH : Z := 320.
Definition FRAME_CHANNELS : Z := 3.

Record Dataset : Type := {
  _serialized_sequence_length : Z;
  _double_with_flipped : bool;
  _crop_size : option (Z * Z);
  _skip_less_movement : bool;
  _data_img_size : Z * Z * Z;
  _file_name_list : list string;
  real_dataset_size : Z;
  _indices : list Z;
  _row : Z;
  size : Z;
  input_shape : shape;
  target_shape : shape
}.

Definition set_cursor (self : Dataset) (row : Z) (indices : list Z)
    : Dataset :=
  {| _serialized_sequence_length := _serialized_sequence_length self;
     _double_with_flipped := _double_with_flipped self;
     _crop_size := _crop_size self;
     _skip_less_movement := _skip_less_movement self;
     _data_img_size := _data_img_size self;
     _file_name_list := _file_name_list self;
     real_dataset_size := real_dataset_size self;
     _indices := indices;
     _row := row;
     size := size self;
     input_shape := input_shape self;
     target_shape := target_shape self |}.

(** [int(x)] for a rational [x]: towards zero. *)
Definition int (x : Q) : Z := Z.quot (Qnum x) (Z.pos (Qden x)).

(** [__init__]; [dataset_size] and [seq_files] are what
    [light.utils.data.preprocess_videos] returned. *)
Definition __init__ (dataset_size : Z) (seq_files : list string)
    (input_seq_length target_seq_length : Z) (image_scale_factor : Q)
    (gray_scale : bool) (serialized_sequence_length : Z)
    (double_with_flipped : bool) (crop_size : option (Z * Z))
    (repetitions_per_epoche : Z) (skip_less_movement : bool)
    : result Dataset :=
  let image_size :=
    (int (inject_Z FRAME_HEIGHT * image_scale_factor),
     int (inject_Z FRAME_WIDTH * image_scale_factor),
     if gray_scale then 1 else FRAME_CHANNELS) in
  let crop_fits :=
    match crop_size with
    | None => true
    | Some (crop_h, crop_w) =>
        (image_size.1.1 >? crop_h) && (image_size.1.2 >? crop_w)
    end in
  if negb crop_fits then Raise AssertionError
  else
    let real_dataset_size := dataset_size in
    let dataset_size :=
      if double_with_flipped then dataset_size * 2 else dataset_size in
    let dataset_size := dataset_size * repetitions_per_epoche in
    let '(input_shape, target_shape) :=
      match crop_size with
      | None =>
          ((input_seq_length, image_size.1.1, image_size.1.2, image_size.2),
           (target_seq_length, image_size.1.1, image_size.1.2, image_size.2))
      | Some (crop_h, crop_w) =>
          ((input_seq_length, crop_h, crop_w, image_size.2),
           (target_seq_length, crop_h, crop_w, image_size.2))
      end in
    Ok {| _serialized_sequence_length := serialized_sequence_length;
          _double_with_flipped := double_with_flipped;
          _crop_size := crop_size;
          _skip_less_movement := skip_less_movement;
          _data_img_size := image_size;
          _file_name_list := seq_files;
          real_dataset_size := real_dataset_size;
          _indices := xrange 0 real_dataset_size;
          _row := 0;
          size := dataset_size;
          input_shape := input_shape;
          target_shape := target_shape |}.

(** [reset] *)
Definition reset (self : Dataset) : M Dataset :=
  indices ← np_random_shuffle (_indices self);
  mret (set_cursor self 0 indices).

(** Lines 399-404: the window of the permutation. *)
Definition ind_range (indices : list Z) (start end_ : Z) : list Z :=
  if start >? end_
  then py_slice_from start indices ++ py_slice_to end_ indices
  else py_slice start end_ indices.

(** Lines 451-452: whether the item of this virtual row is flipped. *)
Definition flip_decision (data_size virtual_row : Z) : bool :=
  (virtual_row <? data_size) && (virtual_row mod 2 =? 0)
  || (virtual_row >=? data_size) && (virtual_row mod 2 =? 1).

(** Lines 391-407 of [get_batch]: the reset at the end of the inflated
    size, the window of indices and the assertion on its length. *)
Definition select_indices (self : Dataset) (batch_size : Z)
    : M (Dataset * list Z) :=
  let fake_size := size self in
  let data_size := real_dataset_size self in
  self ← (if _row self + batch_size >=? fake_size
          then reset self else mret self);
  start ← lift (py_mod (_row self) data_size);
  end_ ← lift (py_mod (start + batch_size) data_size);
  let ind_range := ind_range (_indices self) start end_ in
  if negb (Z.of_nat (length ind_range) =? batch_size)
  then raise AssertionError
  else mret (self, ind_range).

Section Sampler.
(** [light.utils.image.read_as_binary(f, dtype=np.uint8)] *)
Variable read_as_binary : string -> result (list Z).

(** Lines 430-446.  [crop_] is the variable [crop]: unbound before the
    first pass. *)
Fixpoint crop_loop (self : Dataset) (crop_h crop_w inputs_length : Z)
    (current : list image) (retries : list Z)
    (crop_ : option (list image)) : M (list image) :=
  match retries with
  | [] =>
      match crop_ with
      | Some c => mret c
      | None => raise UnboundLocalError
      end
  | retry :: retries' =>
      offset_x ← randint 0 ((_data_img_size self).1.2 - crop_w);
      offset_y ← randint 0 ((_data_img_size self).1.1 - crop_h);
      let c := crop crop_h crop_w offset_y offset_x <$> current in
      if _skip_less_movement self
      then
        let current_inputs := py_slice_to inputs_length c in
        if negb (enough_l2_movement current_inputs)
        then crop_loop self crop_h crop_w inputs_length current retries'
               (Some c)
        else mret c
      else mret c
  end.

(** Lines 417-456: the body of [for i, f in enumerate(file_names)]. *)
Definition load_item (self : Dataset) (i : Z) (f : string)
    : M (list image * list image) :=
  let virtual_row := _row self + i in
  let data_size := real_dataset_size self in
  flat ← lift (read_as_binary f);
  let '(h, w, c) := _data_img_size self in
  current ← lift (np_reshape flat (_serialized_sequence_length self, h, w, c));
  let inputs_length := dim0 (input_shape self) in
  let targets_length := dim0 (target_shape self) in
  let total_length := inputs_length + targets_length in
  start_t ← randint 0 (_serialized_sequence_length self - total_length);
  let current := py_slice start_t (start_t + total_length) current in
  current ←
    match _crop_size self with
    | None => mret current
    | Some (crop_h, crop_w) =>
        crop_loop self crop_h crop_w inputs_length current
          (xrange 0 MAX_TRIES) None
    end;
  let current :=
    if _double_with_flipped self
    then if flip_decision data_size virtual_row
         then flip_lr <$> current
         else current
    else current in
  mret (py_slice 0 inputs_length current,
        py_slice inputs_length (inputs_length + total_length) current).

(** [get_batch]: the two arrays, and the object as the call leaves it. *)
Definition get_batch (self : Dataset) (batch_size : Z)
    : M (qbatch * qbatch * Dataset) :=
  '(self, ind_range) ← select_indices self batch_size;
  file_names ← lift (forM (py_index (_file_name_list self)) ind_range);
  items ← forM (fun '(i, f) => load_item self i f)
             (zip (xrange 0 (Z.of_nat (length file_names))) file_names);
  input_sequence ← lift (np_stack items.*1);
  target_sequence ← lift (np_stack items.*2);
  let inputs := div_batch 255 input_sequence in
  let targets := div_batch 255 target_sequence in
  mret (inputs, targets,
        set_cursor self (_row self + batch_size) (_indices self)).
End Sampler.

End UCF101.

(** ** ms_pacman.py, the three datasets *)

Module MsPacmanSplits.

Definition SUBDIR_TRAIN : string := "Train".
Definition SUBDIR_TEST : string := "Test".

Section FileSystem.
(** [os.path.isfile] of the archive, and [get_subdirpaths] of a
    sub-directory of the extracted archive after its [sort()], each folder
    with its sorted [*.png] file names. *)
Variable archive_found : bool.
Variable get_subdirpaths : string -> list (string * list string).

(** Lines 90-141: [MsPacmanBaseDataset.__init__] from the check of the
    archive on; [index_range] is inclusive on both ends. *)
Definition MsPacmanBaseDataset (subdir : string)
    (index_range : option (Z * Z))
    (input_seq_length target_seq_length : Z) (crop_size : option (Z * Z))
    (repetitions_per_epoche : Z) (skip_less_movement random_flip : bool)
    : result MsPacman.Dataset :=
  if negb archive_found then Raise ValueError
  else
    let numbered_folder_paths := get_subdirpaths subdir in
    let numbered_folder_paths :=
      match index_range with
      | Some index_range =>
          py_slice index_range.1 (index_range.2 + 1) numbered_folder_paths
      | None => numbered_folder_paths
      end in
    Ok (MsPacman.__init__ numbered_folder_paths input_seq_length
          target_seq_length crop_size repetitions_per_epoche
          skip_less_movement random_flip).

Definition MsPacmanTrainDataset :=
  MsPacmanBaseDataset SUBDIR_TRAIN (Some (0, 465)).

Definition MsPacmanValidDataset :=
  MsPacmanBaseDataset SUBDIR_TRAIN (Some (466, 516)).

Definition MsPacmanTestDataset :=
  MsPacmanBaseDataset SUBDIR_TEST None.
End FileSystem.

End MsPacmanSplits.

(** ** ucf101.py, reading the split lists *)

Module UCF101Splits.

Definition UCF101_TRAINLIST : string := "trainlist03.txt".
Definition UCF101_TESTLIST : string := "testlist03.txt".

(** [c.isspace()] for a character of a [str]: space, tab, line feed,
    vertical tab, form feed and carriage return. *)
Definition isspace (c : Ascii.ascii) : bool :=
  let n := Ascii.nat_of_ascii c in
  Nat.eqb n 32 || (Nat.leb 9 n && Nat.leb n 13).

(** [s.split()]: the maximal runs of characters that are not white space;
    [word] is the run being read. *)
Fixpoint split_loop (s : string) (word : option string) : list string :=
  match s with
  | EmptyString =>
      match word with
      | Some w => [w]
      | None => []
      end
  | String c s' =>
      if isspace c
      then match word with
           | Some w => w :: split_loop s' None
           | None => split_loop s' None
           end
      else split_loop s'
             (Some (default EmptyString word ++ String c EmptyString)%string)
  end.

Definition py_split (s : string) : list string := split_loop s None.

(** The body of [for i, line in enumerate(f)] of [_read_eval_splits]. *)
Fixpoint read_eval_loop (lines : list (Z * string))
    (valid_files test_files : list string)
    : result (list string * list string) :=
  match lines with
  | [] => Ok (valid_files, test_files)
  | (i, line) :: lines' =>
      if i mod 3 =? 0
      then
        file ← py_index (py_split line) 0;
        read_eval_loop lines' (valid_files ++ [file]) test_files
      else
        file ← py_index (py_split line) 0;
        read_eval_loop lines' valid_files (test_files ++ [file])
  end.

Section FileSystem.
(** [os.path.join], and the lines of a text file ([IOError] when it
    cannot be opened). *)
Variable path_join : string -> string -> string.
Variable read_lines : string -> result (list string).

(** [_read_train_splits] *)
Definition _read_train_splits (dir_path : string) : result (list string) :=
  lines ← read_lines (path_join dir_path UCF101_TRAINLIST);
  forM (fun line => py_index (py_split line) 0) lines.

(** [_read_eval_splits]: the validation files and the test files. *)
Definition _read_eval_splits (dir_path : string)
    : result (list string * list string) :=
  lines ← read_lines (path_join dir_path UCF101_TESTLIST);
  read_eval_loop (zip (xrange 0 (Z.of_nat (length lines))) lines) [] [].
End FileSystem.

End UCF101Splits.

(** *** The filter as the specification words it *)

(** Squared L2 difference of the pair [(i, i + 1)] of the scaled frames. *)
Definition pair_diff (frames : list image) (i : Z) : float :=
  let fs := np_true_divide 127.5%float <$> frames in
  np_sum (np_square_sub (fs !!! Z.to_nat i) (fs !!! Z.to_nat (i + 1))).

(** The differences of the pairs [pairs], added to [diff] one after the
    other. *)
Definition accumulate (frames : list image) (diff : float) (pairs : list Z)
    : float :=
  foldl (fun d i => (d + pair_diff frames i)%float) diff pairs.

(** The running sum once the backward walk has done the pairs
    [n - 2, ..., j]. *)
Definition sum_from (frames : list image) (j : Z) : float :=
  accumulate frames 0%float
    (reverse (xrange j (Z.of_nat (length frames) - 1))).

Definition threshold (frames : list image) : float :=
  (MIN_L2_DIFF_PER_FRAME * float_of_Z (Z.of_nat (length frames)))%float.

(** The any-point test: some running sum of the backward walk reaches the
    threshold. *)
Definition reaches_threshold (frames : list image) : bool :=
  existsb (fun j => (threshold frames <=? sum_from frames j)%float)
          (xrange 0 (Z.of_nat (length frames) - 1)).

(** Section 4.1: fail when the last pair shows no difference at all, else
    succeed exactly when a running sum reaches the threshold. *)
Definition has_enough_motion (frames : list image) : bool :=
  let n := Z.of_nat (length frames) in
  if n <? 2 then false
  else if (sum_from frames (n - 2) =? 0)%float then false
  else reaches_threshold frames.




(** An entry that is [0.0]. *)
Definition zero (x : float) : Prop := x = 0%float.




(** *** Shapes and value ranges *)

(** [l] has [n] entries and each satisfies [P]. *)
Definition rows {A} (n : Z) (P : A -> Prop) (l : list A) : Prop :=
  Z.of_nat (length l) = n /\ Forall P l.

Definition any {A} (_ : A) : Prop := True.
Definition uint8 (v : Z) : Prop := 0 <= v <= 255.
Definition unit_interval (q : Q) : Prop := (0 <= q <= 1)%Q.

(** An [h x w x c] image with entries in [P], and an array of shape
    [[b] + s] of them. *)
Definition image_of {A} (P : A -> Prop) (h w c : Z)
    : list (list (list A)) -> Prop :=
  rows h (rows w (rows c P)).

Definition array_of {A} (P : A -> Prop) (b : Z) (s : shape)
    : list (list (list (list (list A)))) -> Prop :=
  let '(t, h, w, c) := s in rows b (rows t (image_of P h w c)).

(** *** Sample sequences *)

(** A dark and a bright [1 x 20 x 1] image. *)
Definition still : image := [replicate 20 [0]].
Definition bright : image := [replicate 20 [255]].


(** The parity rule as section 8 words it: in the first pass an odd row is
    flipped, in the second pass an even one. *)
Definition stated_flip (data_size virtual_row : Z) : bool :=
  if virtual_row <? data_size then Z.odd virtual_row
  else Z.even virtual_row.

(** *** What a pass of the retry loop has to satisfy *)

Section Passes.
Variable image_read : string -> result image.
Variable path_join : string -> string -> string.
Variable self : MsPacman.Dataset.

(** The condition of line 216 under which the motion filter is called. *)
Definition motion_gate (retry : Z) : bool :=
  bool_decide (MsPacman._crop_size self <> None)
  && MsPacman._skip_less_movement self
  && negb (retry =? MAX_TRIES - 1).

(** The pass wrote the frames of [input_frames] with its own offsets and
    flag, called the filter exactly under the gate, reached [break]
    exactly when the filter was not called or passed, did not flip when
    its crop shows the HUD, and drew offsets at which the crop fits. *)
Definition pass_ok (input_frames : list image) (a : MsPacman.Attempt)
    : Prop :=
  MsPacman.process_inputs self (MsPacman.att_offset_y a)
    (MsPacman.att_offset_x a) (MsPacman.att_do_flip a) input_frames
    = Ok (MsPacman.att_inputs a)
  /\ MsPacman.att_motion a =
       (if motion_gate (MsPacman.att_retry a)
        then Some (MsPacmanFilter.enough_l2_movement (MsPacman.att_inputs a))
        else None)
  /\ MsPacman.att_accepted a =
       (if motion_gate (MsPacman.att_retry a)
        then MsPacmanFilter.enough_l2_movement (MsPacman.att_inputs a)
        else true)
  /\ (forall crop_h crop_w,
        MsPacman._crop_size self = Some (crop_h, crop_w) ->
        MsPacman.att_offset_y a + crop_h > MsPacman.HUD_Y ->
        MsPacman.att_do_flip a = false)
  /\ (forall crop_h crop_w,
        MsPacman._crop_size self = Some (crop_h, crop_w) ->
        0 <= MsPacman.att_offset_y a <= MsPacman.FRAME_HEIGHT - crop_h /\
        0 <= MsPacman.att_offset_x a <= MsPacman.FRAME_WIDTH - crop_w).

(** The crop of the pass stays above the HUD. *)
Definition hud_clear (a : MsPacman.Attempt) : bool :=
  match MsPacman._crop_size self with
  | None => true
  | Some (crop_h, _) =>
      negb (MsPacman.att_offset_y a + crop_h >? MsPacman.HUD_Y)
  end.

(** The offsets of pass number [i] of a loop entered in state [g] are
    the draws [2 i] and [2 i + 1] of [random]. *)
Definition pass_drawn (g : rng) (i : nat) (a : MsPacman.Attempt) : Prop :=
  match MsPacman._crop_size self with
  | None => MsPacman.att_offset_x a = 0 /\ MsPacman.att_offset_y a = 0
  | Some (crop_h, crop_w) =>
      MsPacman.att_offset_x a =
        0 + py_random g (2 * i)%nat
            mod (MsPacman.FRAME_WIDTH - crop_w - 0 + 1)
      /\ MsPacman.att_offset_y a =
        0 + py_random g (2 * i + 1)%nat
            mod (MsPacman.FRAME_HEIGHT - crop_h - 0 + 1)
  end.

(** Nothing a pass does can raise: the crop fits the frame, the decoded
    input window is complete and the target window can be read. *)
Definition crop_fits : Prop :=
  match MsPacman._crop_size self with
  | None => True
  | Some (crop_h, crop_w) =>
      crop_h <= MsPacman.FRAME_HEIGHT /\ crop_w <= MsPacman.FRAME_WIDTH
  end.

Definition inputs_decoded (input_frames : list image) : Prop :=
  MsPacman._input_seq_length self <= Z.of_nat (length input_frames).

Definition targets_readable (current_seq : string * Z * list string)
    (start_idx total_seq_len : Z) : Prop :=
  Forall (fun fidx => exists filename frame,
            py_index current_seq.2 fidx = Ok filename /\
            image_read (path_join current_seq.1.1 filename) = Ok frame)
         (xrange (start_idx + MsPacman._input_seq_length self)
                 (start_idx + total_seq_len)).
End Passes.

(** *** The sample cursor of a Ms. Pac-Man dataset *)

(** The same dataset with another row cursor and index permutation. *)
Definition with_cursor (self : MsPacman.Dataset) (row : Z)
    (indices : list Z) : MsPacman.Dataset :=
  {| MsPacman._data := MsPacman._data self;
     MsPacman._crop_size := MsPacman._crop_size self;
     MsPacman._repetitions_per_epoche := MsPacman._repetitions_per_epoche self;
     MsPacman._skip_less_movement := MsPacman._skip_less_movement self;
     MsPacman._random_flip := MsPacman._random_flip self;
     MsPacman._true_dataset_size := MsPacman._true_dataset_size self;
     MsPacman._input_seq_length := MsPacman._input_seq_length self;
     MsPacman._target_seq_length := MsPacman._target_seq_length self;
     MsPacman.size := MsPacman.size self;
     MsPacman.input_shape := MsPacman.input_shape self;
     MsPacman.target_shape := MsPacman.target_shape self;
     MsPacman._row := row;
     MsPacman._indices := indices |}.

(** What a call of [get_batch] gives its caller and leaves in the
    generators, without the object. *)
Definition outcome (r : result (qbatch * qbatch * MsPacman.Dataset * rng))
    : result (qbatch * qbatch * rng) :=
  match r with
  | Ok (inputs, targets, _, g) => Ok (inputs, targets, g)
  | Raise e => Raise e
  end.

(** *** The batch contract *)

(** The height and width of the frames a Ms. Pac-Man dataset hands out. *)
Definition pacman_frame_dims (self : MsPacman.Dataset) : Z * Z :=
  match MsPacman._crop_size self with
  | None => (MsPacman.FRAME_HEIGHT, MsPacman.FRAME_WIDTH)
  | Some crop_size => crop_size
  end.

(** The shapes are the ones [__init__] computes from the other fields. *)
Definition pacman_consistent (self : MsPacman.Dataset) : Prop :=
  MsPacman.input_shape self =
    (MsPacman._input_seq_length self, (pacman_frame_dims self).1,
     (pacman_frame_dims self).2, MsPacman.FRAME_CHANNELS) /\
  MsPacman.target_shape self =
    (MsPacman._target_seq_length self, (pacman_frame_dims self).1,
     (pacman_frame_dims self).2, MsPacman.FRAME_CHANNELS).

(** Every stored frame decodes to a [210 x 160 x 3] array of [uint8]. *)
Definition frames_stored (image_read : string -> result image) : Prop :=
  forall path frame, image_read path = Ok frame ->
    image_of uint8 MsPacman.FRAME_HEIGHT MsPacman.FRAME_WIDTH
      MsPacman.FRAME_CHANNELS frame.

(** The same for an evaluation dataset of UCF-101; its shapes are shapes:
    no entry is negative. *)
Definition ucf_frame_dims (self : UCF101.Dataset) : Z * Z :=
  match UCF101._crop_size self with
  | None => ((UCF101._data_img_size self).1.1,
             (UCF101._data_img_size self).1.2)
  | Some crop_size => crop_size
  end.

Definition ucf_consistent (self : UCF101.Dataset) : Prop :=
  exists inputs_length targets_length,
    UCF101.input_shape self =
      (inputs_length, (ucf_frame_dims self).1, (ucf_frame_dims self).2,
       (UCF101._data_img_size self).2) /\
    UCF101.target_shape self =
      (targets_length, (ucf_frame_dims self).1, (ucf_frame_dims self).2,
       (UCF101._data_img_size self).2) /\
    0 <= inputs_length /\ 0 <= targets_length /\
    0 <= (ucf_frame_dims self).1 /\ 0 <= (ucf_frame_dims self).2.

(** Every serialized sequence is a string of bytes. *)
Definition bytes_stored (read_as_binary : string -> result (list Z))
    : Prop :=
  forall f flat, read_as_binary f = Ok flat -> Forall uint8 flat.

(** *** Sample datasets *)

(** Five serialized sequences of four gray [2 x 3] frames, windows of two
    input frames and one target frame, in the middle of an epoch. *)
Definition ucf_sample : UCF101.Dataset :=
  {| UCF101._serialized_sequence_length := 4;
     UCF101._double_with_flipped := true;
     UCF101._crop_size := Some (1, 2);
     UCF101._skip_less_movement := true;
     UCF101._data_img_size := (2, 3, 1);
     UCF101._file_name_list := ["f0"; "f1"; "f2"; "f3"; "f4"]%string;
     UCF101.real_dataset_size := 5;
     UCF101._indices := [3; 0; 4; 1; 2];
     UCF101._row := 3;
     UCF101.size := 20;
     UCF101.input_shape := (2, 1, 2, 1);
     UCF101.target_shape := (1, 1, 2, 1) |}.

(** The bytes of a serialized sequence: [24] values that depend on the
    length of the file name. *)
Definition ucf_sample_file (f : string) : result (list Z) :=
  Ok ((fun k => Z.of_nat (k * k + String.length f) mod 256) <$> seq 0 24).

(** A state of the two generators. *)
Definition sample_rng : rng :=
  Rng (fun k => Z.of_nat k * 37 + 5) (fun k => Z.of_nat k * 11 + 3).

(** Two episodes of a few frames, cropped to [2 x 3], with motion
    gating and random flips; and the same without motion gating. *)
Definition pacman_sample : MsPacman.Dataset :=
  MsPacman.__init__
    [("d0", ["a"; "bb"; "ccc"; "dddd"; "e"; "ff"]);
     ("d1", ["a"; "bb"; "ccc"; "dddd"])]%string
    2 1 (Some (2, 3)) 4 true true.

Definition pacman_sample_ungated : MsPacman.Dataset :=
  MsPacman.__init__
    [("d0", ["a"; "bb"; "ccc"; "dddd"; "e"; "ff"]);
     ("d1", ["a"; "bb"; "ccc"; "dddd"])]%string
    2 1 (Some (2, 3)) 4 false true.

(** Frames of one colour, which depends on the length of the path. *)
Definition plain (v : Z) : image :=
  replicate 210 (replicate 160 (replicate 3 v)).

Definition pacman_sample_read (path : string) : result image :=
  Ok (plain ((Z.of_nat (String.length path) * 10) mod 256)).

Definition pacman_sample_join (a b : string) : string :=
  (a ++ "/" ++ b)%string.

Definition pacman_sample_seq : string * Z * list string :=
  ("d0", 6, ["a"; "bb"; "ccc"; "dddd"; "e"; "ff"])%string.

(** *** The passes of the crop loop of UCF-101 *)

(** The offsets pass number [k] of a crop loop entered in state [g] draws:
    [offset_x] from draw [2 k] and [offset_y] from draw [2 k + 1] of
    [random]; and the crop of the sequence at these offsets. *)
Definition ucf_crop_offsets (self : UCF101.Dataset) (crop_h crop_w : Z)
    (g : rng) (k : nat) : Z * Z :=
  (0 + py_random g (2 * k + 1)%nat
       mod ((UCF101._data_img_size self).1.1 - crop_h - 0 + 1),
   0 + py_random g (2 * k)%nat
       mod ((UCF101._data_img_size self).1.2 - crop_w - 0 + 1)).

Definition ucf_crop_pass (self : UCF101.Dataset) (crop_h crop_w : Z)
    (current : list image) (g : rng) (k : nat) : list image :=
  crop crop_h crop_w (ucf_crop_offsets self crop_h crop_w g k).1
    (ucf_crop_offsets self crop_h crop_w g k).2 <$> current.

(** *** A catalog [get_batch] of Ms. Pac-Man can serve *)

(** An episode of the catalog whose count is the number of its file
    names, which has a window of inputs and targets, and whose frames can
    all be read. *)
Definition episode_stored (image_read : string -> result image)
    (path_join : string -> string -> string) (self : MsPacman.Dataset)
    (seq : string * Z * list string) : Prop :=
  seq.1.2 = Z.of_nat (length seq.2) /\
  MsPacman._input_seq_length self + MsPacman._target_seq_length self
    <= seq.1.2 /\
  Forall (fun filename => exists frame,
            image_read (path_join seq.1.1 filename) = Ok frame) seq.2.

(** *** The alternation of the evaluation list *)

(** Of the entries numbered from [i] on, those whose number is a multiple
    of three, and the others. *)
Fixpoint alternate (i : Z) (files : list string)
    : list string * list string :=
  match files with
  | [] => ([], [])
  | file :: files' =>
      let '(valid, test) := alternate (i + 1) files' in
      if i mod 3 =? 0 then (file :: valid, test) else (valid, file :: test)
  end.

(** * Properties *)

(** ** Ranges *)

Lemma xrange_nil a b : b <= a -> xrange a b = [].
Proof. intros. apply seqZ_nil. lia. Qed.

Lemma xrange_snoc a b : a <= b -> xrange a (b + 1) = xrange a b ++ [b].
Proof.
  intros H. unfold xrange.
  replace (b + 1 - a) with ((b - a) + 1) by lia.
  rewrite seqZ_app by lia.
  replace (a + (b - a)) with b by lia. reflexivity.
Qed.

Lemma xrange_split a j b :
  a <= j <= b -> xrange a b = xrange a j ++ xrange j b.
Proof.
  intros H. unfold xrange.
  replace (b - a) with ((j - a) + (b - j)) by lia.
  rewrite seqZ_app by lia.
  replace (a + (j - a)) with j by lia.
  replace (j - a + (b - j) - (j - a)) with (b - j) by lia.
  reflexivity.
Qed.

Lemma elem_of_xrange a b k : k ∈ xrange a b <-> a <= k < b.
Proof. unfold xrange. rewrite elem_of_seqZ. lia. Qed.

Lemma length_xrange a b : length (xrange a b) = Z.to_nat (b - a).
Proof. apply length_seqZ. Qed.

(** ** Pairwise summation *)

Lemma pairwise_sum_fuel_eq (fuel : nat) (a : list float) :
  pairwise_sum_fuel fuel a =
  if (length a <? 8)%nat then sum_loop 0 a
  else if (length a <=? PW_BLOCKSIZE)%nat then sum_unrolled a
  else match fuel with
       | O => 0%float
       | S fuel' =>
           (pairwise_sum_fuel fuel'
              (take (length a / 2 - (length a / 2) mod 8)%nat a)
            + pairwise_sum_fuel fuel'
                (drop (length a / 2 - (length a / 2) mod 8)%nat a))%float
       end.
Proof. destruct fuel; reflexivity. Qed.

Lemma half_block_bounds (n : nat) :
  (128 < n)%nat ->
  (0 < n / 2 - (n / 2) mod 8 < n)%nat.
Proof.
  intros Hn.
  pose proof (Nat.div_mod_eq n 2) as H1.
  pose proof (Nat.mod_upper_bound n 2 ltac:(lia)) as H2.
  pose proof (Nat.mod_upper_bound (n / 2) 8 ltac:(lia)) as H3.
  revert H1 H2 H3.
  generalize (n / 2)%nat (n mod 2)%nat. intros q r.
  generalize (q mod 8)%nat. intros m. lia.
Qed.

(** The recursion of [pairwise_sum] never runs out of steps. *)
Lemma pairwise_sum_fuel_enough (fuel1 fuel2 : nat) (a : list float) :
  (length a <= fuel1)%nat -> (length a <= fuel2)%nat ->
  pairwise_sum_fuel fuel1 a = pairwise_sum_fuel fuel2 a.
Proof.
  revert fuel2 a. induction fuel1 as [|fuel1 IH]; intros fuel2 a H1 H2.
  - destruct a; [|cbn in H1; lia]. destruct fuel2; reflexivity.
  - rewrite (pairwise_sum_fuel_eq (S fuel1)), (pairwise_sum_fuel_eq fuel2).
    destruct (Nat.ltb_spec (length a) 8); [reflexivity|].
    destruct (Nat.leb_spec (length a) PW_BLOCKSIZE) as [|Hbig];
      [reflexivity|].
    unfold PW_BLOCKSIZE in Hbig.
    destruct fuel2 as [|fuel2]; [lia|].
    pose proof (half_block_bounds (length a) Hbig) as Hb.
    f_equal; apply IH; rewrite ?length_take, ?length_drop; lia.
Qed.

Lemma pairwise_sum_more_fuel (fuel : nat) (a : list float) :
  (length a <= fuel)%nat -> pairwise_sum_fuel fuel a = pairwise_sum a.
Proof.
  intros H. unfold pairwise_sum. apply pairwise_sum_fuel_enough; lia.
Qed.

(** *** Sums of zeros *)

Lemma sum_loop_zero (a : list float) : Forall zero a -> sum_loop 0 a = 0%float.
Proof.
  unfold sum_loop. induction 1 as [|x a Hx _ IH]; [reflexivity|].
  cbn [foldl]. rewrite Hx. exact IH.
Qed.

Lemma lookup_total_zero (a : list float) (j : nat) :
  Forall zero a -> a !!! j = 0%float.
Proof.
  intros Ha. rewrite list_lookup_total_alt.
  destruct (a !! j) as [x|] eqn:E; [|reflexivity].
  exact (Forall_lookup_1 _ _ _ _ Ha E).
Qed.

Lemma zip_add_zero (a b : list float) :
  Forall zero a -> Forall zero b -> Forall zero (zip_with PrimFloat.add a b).
Proof.
  intros Ha. revert b. induction Ha as [|x a Hx _ IH]; intros b Hb.
  - constructor.
  - destruct Hb as [|y b Hy Hb]; [constructor|].
    cbn. constructor; [rewrite Hx, Hy; reflexivity|apply IH, Hb].
Qed.

Lemma chunks_Forall {A} (P : A -> Prop) (k size : nat) (l : list A) :
  Forall P l -> Forall (Forall P) (chunks k size l).
Proof.
  revert l. induction k as [|k IH]; intros l Hl; cbn; constructor.
  - apply Forall_take, Hl.
  - apply IH, Forall_drop, Hl.
Qed.

Lemma sum_unrolled_zero (a : list float) :
  Forall zero a -> sum_unrolled a = 0%float.
Proof.
  intros Ha. unfold sum_unrolled.
  assert (Hblocks := chunks_Forall zero (length a / 8) 8 a Ha).
  set (blocks := chunks (length a / 8) 8 a) in *.
  assert (Hr : Forall zero
            (foldl (zip_with PrimFloat.add) (blocks !!! 0%nat)
               (drop 1 blocks))).
  { assert (H0 : Forall zero (blocks !!! 0%nat)).
    { rewrite list_lookup_total_alt.
      destruct (blocks !! 0%nat) as [b|] eqn:E; [|constructor].
      exact (Forall_lookup_1 _ _ _ _ Hblocks E). }
    assert (Hrest : Forall (Forall zero) (drop 1 blocks))
      by (apply Forall_drop, Hblocks).
    revert H0. generalize (blocks !!! 0%nat).
    induction Hrest as [|b rest Hb _ IH]; intros r Hr0; [exact Hr0|].
    cbn [foldl]. apply IH, zip_add_zero; assumption. }
  rewrite !(lookup_total_zero _ _ Hr).
  change ((0 + 0 + (0 + 0) + (0 + 0 + (0 + 0)))%float) with 0%float.
  apply sum_loop_zero, Forall_drop, Ha.
Qed.

Lemma pairwise_sum_fuel_zero (fuel : nat) (a : list float) :
  Forall zero a -> pairwise_sum_fuel fuel a = 0%float.
Proof.
  revert a. induction fuel as [|fuel IH]; intros a Ha;
    rewrite pairwise_sum_fuel_eq;
    (destruct (length a <? 8)%nat; [apply sum_loop_zero, Ha|]);
    (destruct (length a <=? PW_BLOCKSIZE)%nat;
       [apply sum_unrolled_zero, Ha|]).
  - reflexivity.
  - rewrite !IH by (apply Forall_take, Ha || apply Forall_drop, Ha).
    reflexivity.
Qed.

Lemma Forall_concat_intro {A} (P : A -> Prop) (ls : list (list A)) :
  Forall (Forall P) ls -> Forall P (concat ls).
Proof.
  induction 1 as [|l ls Hl _ IH]; simpl.
  - constructor.
  - apply Forall_app. split; assumption.
Qed.

Lemma Forall_zip_with_same {A B C} (Q : A -> Prop) (P : C -> Prop)
    (g : A -> B) (h : B -> B -> C) (l : list A) :
  (forall x, Q x -> P (h (g x) (g x))) ->
  Forall Q l -> Forall P (zip_with h (g <$> l) (g <$> l)).
Proof.
  intros Hh. induction 1 as [|x l Hx _ IH]; cbn; constructor; auto.
Qed.

Lemma np_sum_zero (a : fimage) :
  Forall (Forall (Forall zero)) a -> np_sum a = 0%float.
Proof.
  intros Ha. unfold np_sum, pairwise_sum.
  rewrite pairwise_sum_fuel_zero; [reflexivity|].
  do 2 apply Forall_concat_intro. exact Ha.
Qed.

(** A scaled [uint8] pixel minus itself, squared, is [0]. *)
Lemma square_sub_self (v : Z) :
  uint8 v ->
  ((float_of_Z v / 127.5 - float_of_Z v / 127.5)
   * (float_of_Z v / 127.5 - float_of_Z v / 127.5))%float = 0%float.
Proof.
  intros [H0 H255].
  assert (Hv : v ∈ seqZ 0 256) by (apply elem_of_seqZ; lia).
  clear H0 H255.
  let l := eval vm_compute in (seqZ 0 256) in
  change (seqZ 0 256) with l in Hv.
  repeat (apply elem_of_cons in Hv as [->|Hv]; [reflexivity|]).
  inversion Hv.
Qed.

Lemma np_square_sub_same (f : image) :
  Forall (Forall (Forall uint8)) f ->
  np_sum (np_square_sub (np_true_divide 127.5 f) (np_true_divide 127.5 f))
  = 0%float.
Proof.
  intros Hf. apply np_sum_zero. unfold np_square_sub, np_true_divide.
  eapply Forall_zip_with_same; [|exact Hf]. intros row Hrow. cbn beta.
  eapply Forall_zip_with_same; [|exact Hrow]. intros px Hpx. cbn beta.
  eapply Forall_zip_with_same; [|exact Hpx]. intros v Hv.
  apply square_sub_self, Hv.
Qed.

Lemma np_square_sub_nil_r (a : fimage) : np_square_sub a [] = [].
Proof. destruct a; reflexivity. Qed.

(** ** The backward walk *)

Section Walk.
Variable frames : list image.

Let fs : list fimage := np_true_divide 127.5%float <$> frames.
Let n : Z := Z.of_nat (length fs).
Let T : float := (MIN_L2_DIFF_PER_FRAME * float_of_Z n)%float.

(** The walk over the pairs [m - 1, ..., 0] succeeds exactly when one of
    its running sums reaches the threshold. *)
Lemma ucf_loop_reaches (m : nat) (d : float) :
  UCF101Filter.l2_loop fs n (reverse (xrange 0 (Z.of_nat m))) d = true <->
  exists j, 0 <= j < Z.of_nat m /\
    (T <=? accumulate frames d (reverse (xrange j (Z.of_nat m))))%float
    = true.
Proof.
  revert d. induction m as [|m IH]; intros d.
  - simpl. split; [discriminate|]. intros (j & Hj & _). lia.
  - replace (Z.of_nat (S m)) with (Z.of_nat m + 1) by lia.
    rewrite xrange_snoc by lia. rewrite reverse_snoc.
    cbn [UCF101Filter.l2_loop].
    fold fs. change (np_sum _) with (pair_diff frames (Z.of_nat m)).
    fold T.
    destruct (T <=? d + pair_diff frames (Z.of_nat m))%float eqn:E.
    + split; [intros _|reflexivity].
      exists (Z.of_nat m). split; [lia|].
      rewrite (xrange_snoc (Z.of_nat m) (Z.of_nat m)) by lia.
      rewrite xrange_nil by lia. exact E.
    + rewrite IH. split.
      * intros (j & Hj & Hle). exists j. split; [lia|].
        rewrite xrange_snoc by lia. rewrite reverse_snoc. exact Hle.
      * intros (j & Hj & Hle).
        destruct (decide (j = Z.of_nat m)) as [->|Hne].
        { rewrite (xrange_snoc (Z.of_nat m) (Z.of_nat m)) in Hle by lia.
          rewrite xrange_nil in Hle by lia.
          change ((T <=? d + pair_diff frames (Z.of_nat m))%float = true)
            in Hle.
          congruence. }
        exists j. split; [lia|].
        rewrite xrange_snoc in Hle by lia. rewrite reverse_snoc in Hle.
        exact Hle.
Qed.

(** Away from the last pair the two copies of the loop agree. *)
Lemma pacman_loop_ucf todo d :
  Forall (fun i => i <> n - 2) todo ->
  MsPacmanFilter.l2_loop fs n todo d = UCF101Filter.l2_loop fs n todo d.
Proof.
  intros H. revert d. induction H as [|i todo Hi _ IH]; intros d.
  - reflexivity.
  - cbn [MsPacmanFilter.l2_loop UCF101Filter.l2_loop].
    destruct (Z.eqb_spec i (n - 2)) as [?|_]; [contradiction|].
    destruct (_ <=? _)%float; [reflexivity|]. apply IH.
Qed.
End Walk.

Lemma reaches_threshold_iff frames :
  reaches_threshold frames = true <->
  exists j, 0 <= j < Z.of_nat (length frames) - 1 /\
    (threshold frames <=? sum_from frames j)%float = true.
Proof.
  unfold reaches_threshold. rewrite existsb_exists. split.
  - intros (j & Hin & Hle). exists j.
    apply list_elem_of_In, elem_of_xrange in Hin. split; [lia|exact Hle].
  - intros (j & Hj & Hle). exists j. split; [|exact Hle].
    apply list_elem_of_In, elem_of_xrange. lia.
Qed.

(** The UCF-101 copy is the any-point test. *)
Lemma ucf_filter_reaches frames :
  UCF101Filter.enough_l2_movement frames = reaches_threshold frames.
Proof.
  apply eq_true_iff_eq. rewrite reaches_threshold_iff.
  unfold UCF101Filter.enough_l2_movement.
  destruct frames as [|f0 frames'] eqn:Ef.
  - simpl. split; [discriminate|]. intros (j & Hj & _). simpl in Hj. lia.
  - rewrite <- Ef. assert (Hn : (1 <= length frames)%nat).
    { rewrite Ef. simpl. lia. }
    clear Ef.
    replace (Z.of_nat (length (np_true_divide 127.5 <$> frames)) - 1)
      with (Z.of_nat (length frames - 1))
      by (rewrite length_fmap; lia).
    rewrite ucf_loop_reaches.
    unfold sum_from, threshold. rewrite length_fmap.
    replace (Z.of_nat (length frames - 1))
      with (Z.of_nat (length frames) - 1) by lia.
    split; intros (j & Hj & Hle); exists j; (split; [lia|exact Hle]).
Qed.

(** The Ms. Pac-Man copy is the filter of section 4.1. *)
Lemma pacman_filter_spec frames :
  MsPacmanFilter.enough_l2_movement frames = has_enough_motion frames.
Proof.
  unfold has_enough_motion.
  destruct (Z.ltb_spec (Z.of_nat (length frames)) 2) as [Hlt|Hge].
  - unfold MsPacmanFilter.enough_l2_movement.
    rewrite xrange_nil by (rewrite length_fmap; lia). reflexivity.
  - rewrite <- ucf_filter_reaches.
    unfold MsPacmanFilter.enough_l2_movement, UCF101Filter.enough_l2_movement.
    unfold sum_from.
    set (fs := np_true_divide 127.5 <$> frames).
    assert (Hn : Z.of_nat (length fs) = Z.of_nat (length frames))
      by (unfold fs; rewrite length_fmap; reflexivity).
    rewrite Hn.
    replace (Z.of_nat (length frames) - 1)
      with ((Z.of_nat (length frames) - 2) + 1) by lia.
    rewrite (xrange_snoc 0) by lia. rewrite reverse_snoc.
    rewrite (xrange_snoc (Z.of_nat (length frames) - 2)) by lia.
    rewrite (xrange_nil (Z.of_nat (length frames) - 2)) by lia.
    cbn [MsPacmanFilter.l2_loop UCF101Filter.l2_loop app reverse].
    rewrite Z.eqb_refl.
    change (np_sum _) with (pair_diff frames (Z.of_nat (length frames) - 2)).
    change (accumulate frames 0 [Z.of_nat (length frames) - 2])
      with (0 + pair_diff frames (Z.of_nat (length frames) - 2))%float.
    destruct (_ =? 0)%float; [reflexivity|].
    destruct (_ <=? _)%float; [reflexivity|].
    rewrite <- Hn. apply pacman_loop_ucf.
    apply Forall_forall. intros i Hi.
    apply list_elem_of_In, elem_of_reverse, elem_of_xrange in Hi.
    fold fs. lia.
Qed.

(** *** Identical frames *)

Lemma lookup_total_replicate_cases {A} `{!Inhabited A} (k i : nat) (x : A) :
  replicate k x !!! i = x \/ replicate k x !!! i = inhabitant.
Proof.
  rewrite list_lookup_total_alt.
  destruct (replicate k x !! i) as [y|] eqn:E; simpl.
  - apply lookup_replicate in E as [-> _]. left. reflexivity.
  - right. reflexivity.
Qed.

Lemma pair_diff_identical (k : nat) (f : image) i :
  Forall (Forall (Forall uint8)) f ->
  pair_diff (replicate k f) i = 0%float.
Proof.
  intros Hf. unfold pair_diff. rewrite fmap_replicate.
  destruct (lookup_total_replicate_cases k (Z.to_nat i)
              (np_true_divide 127.5 f)) as [-> | ->];
    destruct (lookup_total_replicate_cases k (Z.to_nat (i + 1))
                (np_true_divide 127.5 f)) as [-> | ->].
  - apply np_square_sub_same, Hf.
  - rewrite np_square_sub_nil_r. reflexivity.
  - reflexivity.
  - reflexivity.
Qed.

Lemma accumulate_identical (k : nat) (f : image) (pairs : list Z) :
  Forall (Forall (Forall uint8)) f ->
  accumulate (replicate k f) 0 pairs = 0%float.
Proof.
  intros Hf. unfold accumulate.
  induction pairs as [|i pairs IH]; [reflexivity|].
  cbn [foldl]. rewrite (pair_diff_identical k f i Hf). exact IH.
Qed.

Lemma has_enough_motion_identical (k : nat) (f : image) :
  Forall (Forall (Forall uint8)) f ->
  has_enough_motion (replicate k f) = false.
Proof.
  intros Hf. unfold has_enough_motion, sum_from.
  destruct (Z.ltb_spec (Z.of_nat (length (replicate k f))) 2); [reflexivity|].
  rewrite (accumulate_identical k f _ Hf). reflexivity.
Qed.

Lemma reaches_threshold_identical (k : nat) (f : image) :
  Forall (Forall (Forall uint8)) f ->
  (threshold (replicate k f) <=? 0)%float = false ->
  reaches_threshold (replicate k f) = false.
Proof.
  intros Hf HT. unfold reaches_threshold, sum_from.
  induction (xrange 0 (Z.of_nat (length (replicate k f)) - 1))
    as [|j l IH]; [reflexivity|].
  cbn [existsb]. rewrite (accumulate_identical k f _ Hf), HT. exact IH.
Qed.

(** The threshold [25.0 * n] is above [0] for every [n] from 1 to 4096. *)
Lemma threshold_pos_upto (n : nat) :
  (1 <= n <= 4096)%nat ->
  (MIN_L2_DIFF_PER_FRAME * float_of_Z (Z.of_nat n) <=? 0)%float = false.
Proof.
  intros Hn.
  assert (H : forallb (fun n : nat =>
                negb (MIN_L2_DIFF_PER_FRAME * float_of_Z (Z.of_nat n) <=? 0)%float)
              (seq 1 4096) = true) by (vm_compute; reflexivity).
  rewrite forallb_forall in H. apply negb_true_iff, H, in_seq. lia.
Qed.

(** ** The motion filter: the two copies *)

(** C2, as stated, fails for the UCF-101 copy: with no difference between
    the last two frames and a large one before, it accepts where the
    filter of section 4.1 rejects. *)
Lemma ucf_filter_ignores_last_pair :
  UCF101Filter.enough_l2_movement [still; bright; bright] = true /\
  has_enough_motion [still; bright; bright] = false /\
  MsPacmanFilter.enough_l2_movement [still; bright; bright] = false.
Proof. repeat split; vm_compute; reflexivity. Qed.

(** C2, amended: in [float64] arithmetic, the Ms. Pac-Man copy is the
    filter of section 4.1 (scale by 1/127.5, walk the pairs backward,
    reject on a zero last pair, accept as soon as the running sum reaches
    25 n, reject otherwise); the UCF-101 copy is the same walk without the
    zero test; on identical [uint8] frames the Ms. Pac-Man copy always
    rejects, and the UCF-101 copy rejects whenever the threshold [25.0 * n]
    is above [0], which computation confirms for up to 4096 frames. *)
Theorem motion_filter_behaviour :
  (forall frames,
     MsPacmanFilter.enough_l2_movement frames = has_enough_motion frames) /\
  (forall frames,
     UCF101Filter.enough_l2_movement frames = reaches_threshold frames) /\
  (forall (k : nat) (f : image),
     Forall (Forall (Forall uint8)) f ->
     MsPacmanFilter.enough_l2_movement (replicate k f) = false /\
     ((threshold (replicate k f) <=? 0)%float = false ->
      UCF101Filter.enough_l2_movement (replicate k f) = false) /\
     ((k <= 4096)%nat ->
      UCF101Filter.enough_l2_movement (replicate k f) = false)).
Proof.
  split; [exact pacman_filter_spec|].
  split; [exact ucf_filter_reaches|].
  intros k f Hf. split; [|split].
  - rewrite pacman_filter_spec. apply has_enough_motion_identical, Hf.
  - intros HT. rewrite ucf_filter_reaches.
    apply reaches_threshold_identical; assumption.
  - intros Hk. destruct k as [|k]; [reflexivity|].
    rewrite ucf_filter_reaches.
    apply reaches_threshold_identical; [exact Hf|].
    unfold threshold. rewrite length_replicate.
    apply threshold_pos_upto. lia.
Qed.

Lemma motion_filter_behaviour_witness :
  MsPacmanFilter.enough_l2_movement (replicate 3 bright) = false /\
  UCF101Filter.enough_l2_movement (replicate 3 bright) = false.
Proof.
  destruct motion_filter_behaviour as (_ & _ & Hsame).
  destruct (Hsame 3%nat bright) as (Hpac & _ & Hucf).
  - repeat constructor; unfold uint8; lia.
  - split; [exact Hpac|]. apply Hucf. lia.
Defined.




(** ** Computations *)

Lemma bind_M_inv {A B} (m : M A) (f : A -> M B) g r :
  (m ≫= f) g = Ok r -> exists a g1, m g = Ok (a, g1) /\ f a g1 = Ok r.
Proof.
  unfold mbind, M_bind. destruct (m g) as [[a g1]|e]; [|discriminate].
  intros H. exists a, g1. split; [reflexivity|exact H].
Qed.

Lemma bind_result_inv {A B} (r : result A) (f : A -> result B) b :
  r ≫= f = Ok b -> exists a, r = Ok a /\ f a = Ok b.
Proof.
  unfold mbind, result_bind. destruct r as [a|e]; [|discriminate].
  intros H. exists a. split; [reflexivity|exact H].
Qed.

Lemma bind_M_eq {A B} (m : M A) (f : A -> M B) g :
  (m ≫= f) g =
  match m g with Ok (a, g') => f a g' | Raise e => Raise e end.
Proof. reflexivity. Qed.

Lemma bind_M_ok {A B} (m : M A) (f : A -> M B) g a g1 :
  m g = Ok (a, g1) -> (m ≫= f) g = f a g1.
Proof. intros H. rewrite bind_M_eq, H. reflexivity. Qed.

Lemma bind_result_ok {A B} (r : result A) (f : A -> result B) a :
  r = Ok a -> r ≫= f = f a.
Proof. intros ->. reflexivity. Qed.

Lemma ret_M_inv {A} (a : A) g r g' : mret (M:=M) a g = Ok (r, g') -> r = a /\ g' = g.
Proof. unfold mret, M_ret. intros [= -> ->]. split; reflexivity. Qed.

Lemma lift_inv {A} (r : result A) g a g' :
  lift r g = Ok (a, g') -> r = Ok a /\ g' = g.
Proof.
  unfold lift. destruct r; [|discriminate]. intros [= -> ->].
  split; reflexivity.
Qed.

Lemma randint_inv a b g r g' :
  randint a b g = Ok (r, g') ->
  a <= r <= b /\ r = a + py_random g 0%nat mod (b - a + 1) /\
  g' = Rng (fun k => py_random g (S k)) (np_random g).
Proof.
  unfold randint. destruct (Z.ltb_spec b a) as [|Hab]; [discriminate|].
  cbn. intros [= <- <-].
  assert (0 <= py_random g 0%nat mod (b - a + 1) < b - a + 1)
    by (apply Z.mod_pos_bound; lia).
  repeat split; lia.
Qed.

Lemma randint_ok a b g :
  a <= b ->
  randint a b g =
  Ok (a + py_random g 0%nat mod (b - a + 1),
      Rng (fun k => py_random g (S k)) (np_random g)).
Proof.
  intros Hab. unfold randint.
  destruct (Z.ltb_spec b a); [lia|]. reflexivity.
Qed.

(** ** Slices *)

Lemma py_slice_exact {A} (a b : Z) (l : list A) :
  0 <= a <= b -> b <= Z.of_nat (length l) ->
  py_slice a b l = take (Z.to_nat (b - a)) (drop (Z.to_nat a) l).
Proof.
  intros Hab Hb. unfold py_slice, clip_bound.
  destruct (Z.ltb_spec a 0); [lia|]. destruct (Z.ltb_spec b 0); [lia|].
  rewrite !Z.min_l by lia. reflexivity.
Qed.

Lemma py_slice_from_exact {A} (a : Z) (l : list A) :
  0 <= a <= Z.of_nat (length l) ->
  py_slice_from a l = drop (Z.to_nat a) l.
Proof.
  intros Ha. unfold py_slice_from, clip_bound.
  destruct (Z.ltb_spec a 0); [lia|]. rewrite Z.min_l by lia. reflexivity.
Qed.

Lemma py_slice_to_exact {A} (b : Z) (l : list A) :
  0 <= b <= Z.of_nat (length l) ->
  py_slice_to b l = take (Z.to_nat b) l.
Proof.
  intros Hb. unfold py_slice_to, clip_bound.
  destruct (Z.ltb_spec b 0); [lia|]. rewrite Z.min_l by lia. reflexivity.
Qed.

Lemma rows_impl {A} (P Q : A -> Prop) n l :
  (forall x, P x -> Q x) -> rows n P l -> rows n Q l.
Proof.
  intros HPQ [Hn Hl]. split; [exact Hn|].
  eapply Forall_impl; eauto.
Qed.

Lemma rows_window {A} (P : A -> Prop) (n a k : Z) (l : list A) :
  rows n P l -> 0 <= a -> 0 <= k -> a + k <= n ->
  rows k P (take (Z.to_nat k) (drop (Z.to_nat a) l)).
Proof.
  intros [Hn Hl] Ha Hk Hak. split.
  - rewrite length_take, length_drop. lia.
  - apply Forall_take, Forall_drop, Hl.
Qed.

Lemma rows_slice {A} (P : A -> Prop) (n a k : Z) (l : list A) :
  rows n P l -> 0 <= a -> 0 <= k -> a + k <= n ->
  rows k P (py_slice a (a + k) l).
Proof.
  intros Hr Ha Hk Hak. rewrite py_slice_exact by (destruct Hr; lia).
  replace (a + k - a) with k by lia. eapply rows_window; eauto.
Qed.

Lemma rows_fmap {A B} (f : A -> B) (P : A -> Prop) (Q : B -> Prop) n l :
  (forall x, P x -> Q (f x)) -> rows n P l -> rows n Q (f <$> l).
Proof.
  intros Hf [Hn Hl]. split.
  - rewrite length_fmap. exact Hn.
  - apply Forall_fmap. eapply Forall_impl; eauto.
Qed.

Lemma rows_reverse {A} (P : A -> Prop) n (l : list A) :
  rows n P l -> rows n P (reverse l).
Proof.
  intros [Hn Hl]. split.
  - rewrite length_reverse. exact Hn.
  - apply Forall_reverse, Hl.
Qed.

Lemma rows_replicate {A} (P : A -> Prop) (n : Z) (x : A) :
  0 <= n -> P x -> rows n P (replicate (Z.to_nat n) x).
Proof.
  intros Hn Hx. split.
  - rewrite length_replicate. lia.
  - apply Forall_replicate, Hx.
Qed.

(** A crop that fits reads exactly its window. *)
Lemma crop_exact (h w ch cw oy ox : Z) (f : image) :
  rows h (rows w any) f ->
  0 <= oy -> 0 <= ch -> oy + ch <= h ->
  0 <= ox -> 0 <= cw -> ox + cw <= w ->
  crop ch cw oy ox f =
  (fun row => take (Z.to_nat cw) (drop (Z.to_nat ox) row))
    <$> take (Z.to_nat ch) (drop (Z.to_nat oy) f).
Proof.
  intros Hf Hoy Hch Hh Hox Hcw Hw. unfold crop.
  rewrite py_slice_exact by (destruct Hf; lia).
  replace (oy + ch - oy) with ch by lia.
  apply Forall_fmap_ext_1.
  apply Forall_take, Forall_drop. destruct Hf as [_ Hf].
  eapply Forall_impl; [|exact Hf]. intros row [Hrow _]. cbn.
  rewrite py_slice_exact by lia.
  replace (ox + cw - ox) with cw by lia. reflexivity.
Qed.

Lemma crop_image_of (P : Z -> Prop) (h w c ch cw oy ox : Z) (f : image) :
  image_of P h w c f ->
  0 <= oy -> 0 <= ch -> oy + ch <= h ->
  0 <= ox -> 0 <= cw -> ox + cw <= w ->
  image_of P ch cw c (crop ch cw oy ox f).
Proof.
  intros Hf Hoy Hch Hh Hox Hcw Hw. unfold crop, image_of.
  eapply rows_fmap; [|eapply rows_slice; eauto].
  intros row Hrow. cbn in Hrow. eapply rows_slice; eauto.
Qed.

Lemma flip_lr_image_of (P : Z -> Prop) (h w c : Z) (f : image) :
  image_of P h w c f -> image_of P h w c (flip_lr f).
Proof.
  intros Hf. unfold flip_lr, image_of.
  eapply rows_fmap; [|exact Hf]. intros row Hrow.
  apply rows_reverse, Hrow.
Qed.

(** ** The spatial transform *)

(** C9: a crop size strictly smaller than the [H x W] source and offsets
    drawn as the samplers draw them ([offset_x] in [0, W - crop_w], then
    [offset_y] in [0, H - crop_h]) give a window inside the source: the
    draws succeed, the window lies in [0, H) x [0, W), and the crop of
    every frame is exactly that window, never clipped. *)
Theorem crop_window_in_bounds (H W crop_h crop_w : Z)
    (frames : list image) (g : rng) :
  0 <= crop_h < H -> 0 <= crop_w < W ->
  Forall (rows H (rows W any)) frames ->
  exists offset_x g1 offset_y g2,
    randint 0 (W - crop_w) g = Ok (offset_x, g1) /\
    randint 0 (H - crop_h) g1 = Ok (offset_y, g2) /\
    0 <= offset_y /\ offset_y + crop_h <= H /\
    0 <= offset_x /\ offset_x + crop_w <= W /\
    Forall (fun f =>
      crop crop_h crop_w offset_y offset_x f =
        (fun row => take (Z.to_nat crop_w) (drop (Z.to_nat offset_x) row))
          <$> take (Z.to_nat crop_h) (drop (Z.to_nat offset_y) f) /\
      rows crop_h (rows crop_w any) (crop crop_h crop_w offset_y offset_x f))
      frames.
Proof.
  intros Hh Hw Hframes.
  eexists _, _, _, _.
  split; [apply randint_ok; lia|].
  split; [apply randint_ok; lia|].
  set (g1 := Rng _ _).
  assert (Hx := Z.mod_pos_bound (py_random g 0%nat) (W - crop_w - 0 + 1)).
  assert (Hy := Z.mod_pos_bound (py_random g1 0%nat) (H - crop_h - 0 + 1)).
  set (ox := 0 + py_random g 0%nat mod (W - crop_w - 0 + 1)) in *.
  set (oy := 0 + py_random g1 0%nat mod (H - crop_h - 0 + 1)) in *.
  assert (0 <= ox /\ ox + crop_w <= W) as [Hox1 Hox2] by (unfold ox; lia).
  assert (0 <= oy /\ oy + crop_h <= H) as [Hoy1 Hoy2] by (unfold oy; lia).
  repeat (split; [assumption|]).
  eapply Forall_impl; [|exact Hframes]. intros f Hf. cbn. split.
  - eapply crop_exact; eauto; lia.
  - unfold crop. eapply rows_fmap; [|eapply rows_slice; eauto; lia].
    intros row Hrow. cbn in Hrow. eapply rows_slice; eauto; lia.
Qed.

Lemma crop_window_in_bounds_witness :
  exists offset_x g1 offset_y g2,
    randint 0 (3 - 2) (Rng (fun k => Z.of_nat k + 7) (fun _ => 0))
      = Ok (offset_x, g1) /\
    randint 0 (2 - 1) g1 = Ok (offset_y, g2) /\
    0 <= offset_y /\ offset_y + 1 <= 2 /\
    0 <= offset_x /\ offset_x + 2 <= 3 /\
    Forall (fun f =>
      crop 1 2 offset_y offset_x f =
        (fun row => take (Z.to_nat 2) (drop (Z.to_nat offset_x) row))
          <$> take (Z.to_nat 1) (drop (Z.to_nat offset_y) f) /\
      rows 1 (rows 2 any) (crop 1 2 offset_y offset_x f))
      [[[[1]; [2]; [3]]; [[4]; [5]; [6]]]].
Proof.
  apply (crop_window_in_bounds 2 3 1 2); [lia|lia|].
  repeat constructor.
Defined.

(** ** The circular index scheduler *)

Lemma shuffle_loop_ok todo x g :
  exists y g', shuffle_loop todo x g = Ok (y, g') /\ length y = length x.
Proof.
  revert x g. induction todo as [|i todo IH]; intros x g.
  - exists x, g. split; reflexivity.
  - cbn. unfold mbind, M_bind, np_next.
    match goal with |- context [shuffle_loop todo ?x' ?g'] =>
      destruct (IH x' g') as (y & g2 & Hy & Hlen) end.
    exists y, g2. split; [exact Hy|].
    rewrite Hlen, !length_insert. reflexivity.
Qed.

Lemma reset_ok self g :
  exists indices g',
    UCF101.reset self g = Ok (UCF101.set_cursor self 0 indices, g') /\
    length indices = length (UCF101._indices self).
Proof.
  unfold UCF101.reset, np_random_shuffle.
  destruct (shuffle_loop_ok
    (reverse (xrange 1 (Z.of_nat (length (UCF101._indices self)))))
    (UCF101._indices self) g) as (y & g' & Hy & Hlen).
  exists y, g'. split; [|exact Hlen].
  unfold mbind, M_bind. rewrite Hy. reflexivity.
Qed.

Lemma ind_range_exact (indices : list Z) (N r batch_size : Z) :
  0 < N -> Z.of_nat (length indices) = N -> 0 < batch_size < N ->
  let start := r mod N in
  let end_ := (start + batch_size) mod N in
  Z.of_nat (length (UCF101.ind_range indices start end_)) = batch_size /\
  UCF101.ind_range indices start end_ =
    if start >? end_
    then drop (Z.to_nat start) indices ++ take (Z.to_nat end_) indices
    else take (Z.to_nat (end_ - start)) (drop (Z.to_nat start) indices).
Proof.
  intros HN Hlen Hbs start end_.
  assert (Hs : 0 <= start < N) by (apply Z.mod_pos_bound; lia).
  assert (He : end_ = start + batch_size /\ start + batch_size < N \/
               end_ = start + batch_size - N /\ N <= start + batch_size).
  { unfold end_. destruct (Z_lt_dec (start + batch_size) N).
    - left. split; [apply Z.mod_small; lia|lia].
    - right. split; [|lia].
      replace (start + batch_size) with (start + batch_size - N + 1 * N)
        at 1 by lia.
      rewrite Z_mod_plus_full. apply Z.mod_small. lia. }
  unfold UCF101.ind_range.
  destruct (Z.gtb_spec start end_) as [Hgt|Hle].
  - rewrite py_slice_from_exact, py_slice_to_exact by lia.
    split; [|reflexivity].
    rewrite length_app, length_drop, length_take. lia.
  - rewrite py_slice_exact by lia. split; [|reflexivity].
    rewrite length_take, length_drop. lia.
Qed.

(** ** The doubling policy *)

(** C5, as stated, fails at the example of section 8: with [N = 5] the
    item of virtual row [2] is flipped by the code, where the stated rule
    leaves it unflipped. *)
Lemma flip_decision_row_2_of_5 :
  UCF101.flip_decision 5 2 = true /\ stated_flip 5 2 = false.
Proof. split; reflexivity. Qed.

(** C5, amended: the flip decision is a function of the virtual row and
    the true size alone: a virtual row below [N] is flipped when even and
    unflipped when odd, a virtual row from [N] on is flipped when odd and
    unflipped when even; with [N = 5] the rows [2] and [7] are both
    flipped. *)
Theorem flip_decision_parity (N virtual_row : Z) :
  UCF101.flip_decision N virtual_row =
    (if virtual_row <? N then Z.even virtual_row else Z.odd virtual_row)
  /\ UCF101.flip_decision 5 2 = true
  /\ UCF101.flip_decision 5 7 = true.
Proof.
  split; [|split; reflexivity].
  unfold UCF101.flip_decision.
  rewrite Z.geb_leb, Zeven_mod, Zodd_mod.
  destruct (Z.ltb_spec virtual_row N), (Z.leb_spec N virtual_row);
    try lia; cbn; rewrite ?orb_false_r; reflexivity.
Qed.

(** ** The retry loop of Ms. Pac-Man *)

Lemma forM_result_ok {A B} (f : A -> result B) (l : list A) :
  Forall (fun x => exists y, f x = Ok y) l -> exists ys, forM f l = Ok ys.
Proof.
  induction 1 as [|x l (y & Hy) _ (ys & Hys)]; cbn.
  - eexists. reflexivity.
  - exists (y :: ys).
    rewrite (bind_result_ok _ _ _ Hy), (bind_result_ok _ _ _ Hys).
    reflexivity.
Qed.

Lemma forM_result_inv {A B} (f : A -> result B) (l : list A) ys :
  forM f l = Ok ys -> Forall2 (fun x y => f x = Ok y) l ys.
Proof.
  revert ys. induction l as [|x l IH]; intros ys; cbn.
  - intros [= <-]. constructor.
  - intros H. apply bind_result_inv in H as (y & Hy & H).
    apply bind_result_inv in H as (ys' & Hys & H).
    injection H as <-. constructor; auto.
Qed.

Lemma py_index_ok {A} (l : list A) (i : Z) :
  0 <= i < Z.of_nat (length l) -> exists x, py_index l i = Ok x.
Proof.
  intros Hi. unfold py_index.
  destruct (Z.ltb_spec i 0); [lia|].
  destruct (Z.ltb_spec i 0); [lia|].
  destruct (Z.leb_spec (Z.of_nat (length l)) i); [lia|]. cbn.
  destruct (l !! Z.to_nat i) as [x|] eqn:E; [eauto|].
  apply lookup_ge_None in E. lia.
Qed.

Section RetryLoop.
Variable image_read : string -> result image.
Variable path_join : string -> string -> string.
Variable self : MsPacman.Dataset.
Variable current_seq : string * Z * list string.
Variables start_idx total_seq_len : Z.
Variable input_frames : list image.

Let loop := MsPacman.retry_loop image_read path_join self current_seq
              start_idx total_seq_len input_frames.

Lemma draw_offsets_ok do_flip g :
  crop_fits self ->
  exists r g', MsPacman.draw_offsets self do_flip g = Ok (r, g').
Proof.
  unfold crop_fits, MsPacman.draw_offsets.
  destruct (MsPacman._crop_size self) as [[ch cw]|]; intros Hfit.
  - destruct Hfit as [Hh Hw].
    erewrite bind_M_ok by (apply randint_ok; lia).
    erewrite bind_M_ok by (apply randint_ok; lia).
    eexists _, _. reflexivity.
  - eexists _, _. reflexivity.
Qed.

Lemma process_inputs_ok offset_y offset_x do_flip :
  inputs_decoded self input_frames ->
  exists row, MsPacman.process_inputs self offset_y offset_x do_flip
                input_frames = Ok row.
Proof.
  intros Hdec. apply forM_result_ok. apply Forall_forall.
  intros i Hi. apply list_elem_of_In, elem_of_xrange in Hi.
  destruct (py_index_ok input_frames i) as (x & Hx);
    [unfold inputs_decoded in Hdec; lia|].
  rewrite Hx. eexists. reflexivity.
Qed.

Lemma process_targets_ok offset_y offset_x do_flip :
  targets_readable image_read path_join self current_seq start_idx
    total_seq_len ->
  exists targets,
    MsPacman.process_targets image_read path_join self current_seq
      start_idx total_seq_len offset_y offset_x do_flip = Ok targets.
Proof.
  intros Hread. apply forM_result_ok.
  eapply Forall_impl; [|exact Hread].
  intros fidx (fn & fr & Hfn & Hfr). cbn.
  rewrite Hfn. cbn. rewrite Hfr. eexists. reflexivity.
Qed.

Lemma draw_offsets_inv do_flip g offset_y offset_x do_flip' g1 :
  MsPacman.draw_offsets self do_flip g
    = Ok (offset_y, offset_x, do_flip', g1) ->
  match MsPacman._crop_size self with
  | None =>
      offset_x = 0 /\ offset_y = 0 /\ do_flip' = do_flip /\ g1 = g
  | Some (crop_h, crop_w) =>
      offset_x = 0 + py_random g 0%nat
                     mod (MsPacman.FRAME_WIDTH - crop_w - 0 + 1) /\
      offset_y = 0 + py_random g 1%nat
                     mod (MsPacman.FRAME_HEIGHT - crop_h - 0 + 1) /\
      do_flip' = (if offset_y + crop_h >? MsPacman.HUD_Y
                  then false else do_flip) /\
      (forall k, py_random g1 k = py_random g (S (S k))) /\
      0 <= offset_y <= MsPacman.FRAME_HEIGHT - crop_h /\
      0 <= offset_x <= MsPacman.FRAME_WIDTH - crop_w
  end.
Proof.
  unfold MsPacman.draw_offsets.
  destruct (MsPacman._crop_size self) as [[ch cw]|].
  - intros H.
    apply bind_M_inv in H as (ox & g2 & Hx & H).
    apply bind_M_inv in H as (oy & g3 & Hy & H).
    apply ret_M_inv in H as [[= <- <- <-] ->].
    apply randint_inv in Hx as (Hxr & Hx & ->).
    apply randint_inv in Hy as (Hyr & Hy & ->).
    cbn in Hy. repeat split; solve [assumption | reflexivity | lia].
  - intros H. apply ret_M_inv in H as [[= <- <- <-] ->].
    repeat split; reflexivity.
Qed.

Lemma retry_loop_spec retries :
  forall do_flip row trace g trace' row' targets g',
  loop retries do_flip row trace g = Ok (trace', row', targets, g') ->
  exists new,
    trace' = trace ++ new /\
    (forall (i : nat) a, new !! i = Some a ->
       retries !! i = Some (MsPacman.att_retry a) /\
       pass_ok self input_frames a /\
       pass_drawn self g i a /\
       MsPacman.att_do_flip a =
         do_flip && forallb (hud_clear self) (take (S i) new) /\
       (MsPacman.att_accepted a = true <->
        targets <> None /\ S i = length new)) /\
    (targets = None -> length new = length retries) /\
    (forall t, targets = Some t ->
       exists init a, new = init ++ [a] /\
         row' = MsPacman.att_inputs a /\
         MsPacman.process_targets image_read path_join self current_seq
           start_idx total_seq_len (MsPacman.att_offset_y a)
           (MsPacman.att_offset_x a) (MsPacman.att_do_flip a) = Ok t).
Proof.
  induction retries as [|retry retries IH];
    intros do_flip row trace g trace' row' targets g' Hrun.
  - cbn in Hrun. injection Hrun as <- <- <- <-.
    exists []. rewrite app_nil_r. split; [reflexivity|].
    split; [intros i a Hi; discriminate|].
    split; [reflexivity|]. intros t Ht. discriminate.
  - unfold loop in Hrun. cbn [MsPacman.retry_loop] in Hrun.
    apply bind_M_inv in Hrun as ([[oy ox] fl] & g1 & Hdraw & Hrun).
    apply bind_M_inv in Hrun as (written & g2 & Hwr & Hrun).
    apply lift_inv in Hwr as [Hwr ->].
    apply draw_offsets_inv in Hdraw.
    fold (motion_gate self retry) in Hrun.
    (* what the first pass satisfies, whatever it recorded *)
    assert (Hfirst : forall motion accepted,
      motion = (if motion_gate self retry
                then Some (MsPacmanFilter.enough_l2_movement written)
                else None) ->
      accepted = (if motion_gate self retry
                  then MsPacmanFilter.enough_l2_movement written
                  else true) ->
      let a := MsPacman.Build_Attempt retry oy ox fl written motion
                 accepted in
      pass_ok self input_frames a /\ pass_drawn self g 0 a /\
      MsPacman.att_do_flip a = do_flip && hud_clear self a).
    { intros motion accepted Hm Hacc a.
      unfold pass_ok, pass_drawn, hud_clear.
      cbn. rewrite Hwr, Hm, Hacc.
      destruct (MsPacman._crop_size self) as [[ch cw]|].
      - destruct Hdraw as (Hx & Hy & Hfl & _ & Hyr & Hxr).
        repeat split; try assumption.
        + intros ch' cw' [= <- <-] Hhud. rewrite Hfl.
          destruct (Z.gtb_spec (oy + ch) MsPacman.HUD_Y); [reflexivity|lia].
        + injection H as <- <-. lia.
        + injection H as <- <-. lia.
        + injection H as <- <-. lia.
        + injection H as <- <-. lia.
        + rewrite Hfl. destruct (_ >? _); cbn;
            rewrite ?andb_false_r, ?andb_true_r; reflexivity.
      - destruct Hdraw as (Hx & Hy & Hfl & _).
        repeat split; try assumption; try discriminate.
        rewrite Hfl, andb_true_r. reflexivity. }
    assert (Hshift : forall i a, pass_drawn self g1 i a ->
                                 pass_drawn self g (S i) a).
    { intros i a. unfold pass_drawn.
      destruct (MsPacman._crop_size self) as [[ch cw]|]; [|auto].
      destruct Hdraw as (_ & _ & _ & Hg1 & _). intros [Hx Hy].
      rewrite Hg1 in Hx, Hy.
      replace (2 * S i)%nat with (S (S (2 * i))) by lia.
      replace (S (S (2 * i)) + 1)%nat with (S (S (2 * i + 1))) by lia.
      auto. }
    assert (Haccept : forall motion,
      motion = (if motion_gate self retry
                then Some (MsPacmanFilter.enough_l2_movement written)
                else None) ->
      true = (if motion_gate self retry
              then MsPacmanFilter.enough_l2_movement written
              else true) ->
      (lift (MsPacman.process_targets image_read path_join self
               current_seq start_idx total_seq_len oy ox fl)
         ≫= (fun t : list image =>
               mret (trace ++ [MsPacman.Build_Attempt retry oy ox fl
                                 written motion true],
                     written, Some t))) g1
        = Ok (trace', row', targets, g') ->
      exists new,
        trace' = trace ++ new /\
        (forall (i : nat) a, new !! i = Some a ->
           (retry :: retries) !! i = Some (MsPacman.att_retry a) /\
           pass_ok self input_frames a /\
           pass_drawn self g i a /\
           MsPacman.att_do_flip a =
             do_flip && forallb (hud_clear self) (take (S i) new) /\
           (MsPacman.att_accepted a = true <->
            targets <> None /\ S i = length new)) /\
        (targets = None -> length new = length (retry :: retries)) /\
        (forall t, targets = Some t ->
           exists init a, new = init ++ [a] /\
             row' = MsPacman.att_inputs a /\
             MsPacman.process_targets image_read path_join self
               current_seq start_idx total_seq_len
               (MsPacman.att_offset_y a) (MsPacman.att_offset_x a)
               (MsPacman.att_do_flip a) = Ok t)).
    { intros motion Hm Hacc H.
      apply bind_M_inv in H as (t & g2 & Ht & H).
      apply lift_inv in Ht as [Ht ->].
      apply ret_M_inv in H as [[= -> -> ->] ->].
      eexists [_]. split; [reflexivity|].
      destruct (Hfirst motion true Hm Hacc) as (Hok & Hdr & Hfl).
      split; [|split; [discriminate|]].
      - intros [|i] a Hi; [|destruct i; discriminate].
        injection Hi as <-.
        split; [reflexivity|]. split; [exact Hok|].
        split; [exact Hdr|].
        split; [cbn [take forallb]; rewrite andb_true_r; exact Hfl|]. cbn.
        split; [intros _; split; [discriminate|reflexivity]|reflexivity].
      - intros t' [= <-]. exists [], (MsPacman.Build_Attempt retry oy ox
                                        fl written motion true).
        repeat split. exact Ht. }
    destruct (motion_gate self retry) eqn:Egate.
    + destruct (MsPacmanFilter.enough_l2_movement written) eqn:Emove;
        cbn [negb] in Hrun.
      * apply (Haccept _ eq_refl eq_refl Hrun).
      * apply IH in Hrun as (new & -> & Hnew & Hnone & Hsome).
        destruct (Hfirst (Some false) false eq_refl eq_refl)
          as (Hok & Hdr & Hfl).
        eexists (_ :: new). split; [rewrite <- app_assoc; reflexivity|].
        split; [|split].
        -- intros [|i] a Hi.
           ++ injection Hi as <-.
              split; [reflexivity|]. split; [exact Hok|].
              split; [exact Hdr|].
              split; [cbn [take forallb]; rewrite andb_true_r; exact Hfl|].
              cbn. split; [discriminate|].
              intros [Ht Hlen]. exfalso.
              destruct targets as [t|]; [|congruence].
              destruct (Hsome t eq_refl) as (init & a & -> & _).
              rewrite length_app in Hlen. cbn in Hlen. lia.
           ++ cbn in Hi. destruct (Hnew i a Hi)
                as (Hr & Hp & Hd & Hf & Hacc).
              split; [exact Hr|]. split; [exact Hp|].
              split; [apply Hshift, Hd|].
              split; [rewrite Hf; cbn in Hfl; rewrite Hfl;
                      cbn [take forallb]; rewrite andb_assoc; reflexivity|].
              rewrite Hacc. cbn. split; intros [Ht Hlen];
                (split; [assumption|lia]).
        -- intros Ht. cbn. f_equal. auto.
        -- intros t Ht. destruct (Hsome t Ht) as (init & a & -> & Hrest).
           eexists (_ :: init), a. split; [reflexivity|exact Hrest].
    + apply (Haccept _ eq_refl eq_refl Hrun).
Qed.

Lemma retry_loop_total retries :
  crop_fits self -> inputs_decoded self input_frames ->
  targets_readable image_read path_join self current_seq start_idx
    total_seq_len ->
  forall do_flip row trace g,
  exists r g', loop retries do_flip row trace g = Ok (r, g').
Proof.
  intros Hfit Hdec Hread.
  induction retries as [|retry retries IH]; intros do_flip row trace g.
  - eexists _, _. reflexivity.
  - unfold loop. cbn [MsPacman.retry_loop].
    destruct (draw_offsets_ok do_flip g Hfit)
      as ([[oy ox] fl] & g1 & Hdraw).
    rewrite (bind_M_ok _ _ _ _ _ Hdraw). cbn beta iota.
    destruct (process_inputs_ok oy ox fl Hdec) as (written & Hwr).
    rewrite Hwr. rewrite (bind_M_ok _ _ g1 written g1 eq_refl).
    destruct (process_targets_ok oy ox fl Hread) as (t & Ht).
    rewrite Ht.
    destruct (_ && _).
    + destruct (negb _).
      * apply IH.
      * eexists _, _. reflexivity.
    + eexists _, _. reflexivity.
Qed.

(** The loop over [range(MAX_TRIES)] always leaves through [break]. *)
Lemma retry_loop_breaks do_flip row g trace row' targets g' :
  loop (xrange 0 MAX_TRIES) do_flip row [] g
    = Ok (trace, row', targets, g') ->
  (length trace <= 100)%nat /\
  (forall (k : nat) a, trace !! k = Some a ->
     MsPacman.att_retry a = Z.of_nat k /\ (k < 100)%nat) /\
  exists t init a, targets = Some t /\ trace = init ++ [a].
Proof.
  intros Hrun.
  apply retry_loop_spec in Hrun as (new & Htr & Hnew & Hnone & Hsome).
  cbn in Htr. subst new.
  assert (Hidx : forall (k : nat) a, trace !! k = Some a ->
            MsPacman.att_retry a = Z.of_nat k /\ (k < 100)%nat).
  { intros k a Hk. destruct (Hnew k a Hk) as (Hr & _).
    unfold xrange in Hr. apply lookup_seqZ in Hr.
    unfold MAX_TRIES in Hr. lia. }
  assert (Hlen : (length trace <= 100)%nat).
  { destruct (decide (length trace <= 100)%nat) as [|Hgt]; [assumption|].
    destruct (lookup_lt_is_Some_2 trace 100) as (a & Ha); [lia|].
    apply Hidx in Ha. lia. }
  split; [exact Hlen|]. split; [exact Hidx|].
  destruct targets as [t|].
  - destruct (Hsome t eq_refl) as (init & a & -> & _). eauto.
  - exfalso. specialize (Hnone eq_refl).
    rewrite length_xrange in Hnone. unfold MAX_TRIES in Hnone.
    destruct (lookup_lt_is_Some_2 trace 99) as (a & Ha); [cbn in *; lia|].
    destruct (Hnew 99%nat a Ha) as (_ & Hok & _ & _ & Hacc).
    destruct (Hidx _ _ Ha) as [Hretry _].
    destruct Hok as (_ & _ & Haccepted & _).
    rewrite Hretry in Haccepted. unfold motion_gate in Haccepted.
    change (Z.of_nat 99 =? MAX_TRIES - 1) with true in Haccepted.
    rewrite andb_false_r in Haccepted.
    apply Hacc in Haccepted as [Hcontra _]. congruence.
Qed.
End RetryLoop.

(** C3: with cropping and [skip_less_movement], the retry loop makes at
    most 100 passes and returns; pass [k] has retry index [k]; on every
    pass but the last allowed one the window written by that pass is given
    to the motion filter and the pass is accepted exactly when the filter
    passes; pass 99 is accepted without a call of the filter; the loop
    stops at the first accepted pass, with that pass's window and the
    targets read for it. *)
Theorem retry_loop_bounded image_read path_join self current_seq
    start_idx total_seq_len input_frames do_flip row g crop_h crop_w :
  MsPacman._crop_size self = Some (crop_h, crop_w) ->
  MsPacman._skip_less_movement self = true ->
  crop_fits self -> inputs_decoded self input_frames ->
  targets_readable image_read path_join self current_seq start_idx
    total_seq_len ->
  exists trace row' targets g',
    MsPacman.retry_loop image_read path_join self current_seq start_idx
      total_seq_len input_frames (xrange 0 MAX_TRIES) do_flip row [] g
      = Ok (trace, row', Some targets, g') /\
    (1 <= length trace <= 100)%nat /\
    (forall (k : nat) a, trace !! k = Some a ->
       MsPacman.att_retry a = Z.of_nat k /\
       MsPacman.process_inputs self (MsPacman.att_offset_y a)
         (MsPacman.att_offset_x a) (MsPacman.att_do_flip a) input_frames
         = Ok (MsPacman.att_inputs a) /\
       (MsPacman.att_retry a <> MAX_TRIES - 1 ->
          MsPacman.att_motion a =
            Some (MsPacmanFilter.enough_l2_movement (MsPacman.att_inputs a))
          /\ MsPacman.att_accepted a =
               MsPacmanFilter.enough_l2_movement (MsPacman.att_inputs a)) /\
       (MsPacman.att_retry a = MAX_TRIES - 1 ->
          MsPacman.att_motion a = None /\ MsPacman.att_accepted a = true) /\
       (MsPacman.att_accepted a = true <-> S k = length trace)) /\
    (exists init a, trace = init ++ [a] /\ row' = MsPacman.att_inputs a).
Proof.
  intros Hcrop Hskip Hfit Hdec Hread.
  destruct (retry_loop_total image_read path_join self current_seq start_idx
              total_seq_len input_frames (xrange 0 MAX_TRIES) Hfit Hdec Hread
              do_flip row [] g) as ([[trace row'] targets] & g' & Hrun).
  assert (Hb := Hrun). apply retry_loop_breaks in Hb.
  destruct Hb as (Hlen & Hidx & t & init & a & -> & Htrace).
  apply retry_loop_spec in Hrun as Hspec.
  destruct Hspec as (new & Hnew_eq & Hnew & _ & Hsome).
  cbn in Hnew_eq. subst new.
  exists trace, row', t, g'. split; [exact Hrun|].
  split; [rewrite Htrace, length_app in *; cbn in *; lia|].
  split.
  - intros k b Hk. destruct (Hnew k b Hk) as (_ & Hok & _ & _ & Hacc).
    destruct (Hidx k b Hk) as [Hretry _].
    destruct Hok as (Hwritten & Hmotion & Haccepted & _).
    unfold motion_gate in Hmotion, Haccepted.
    rewrite Hcrop, Hskip in Hmotion, Haccepted.
    cbn [bool_decide andb] in Hmotion, Haccepted.
    rewrite bool_decide_true in Hmotion, Haccepted by discriminate.
    cbn [andb] in Hmotion, Haccepted.
    split; [exact Hretry|]. split; [exact Hwritten|].
    split; [|split].
    + intros Hne. apply Z.eqb_neq in Hne.
      rewrite Hne in Hmotion, Haccepted. split; assumption.
    + intros He. apply Z.eqb_eq in He.
      rewrite He in Hmotion, Haccepted. split; assumption.
    + rewrite Hacc. split; [intros [_ H]; exact H|].
      intros H. split; [discriminate|exact H].
  - destruct (Hsome t eq_refl) as (init' & a' & Heq & Hrow & _).
    exists init', a'. split; assumption.
Qed.

Lemma retry_loop_bounded_witness :
  exists trace row' targets g',
    MsPacman.retry_loop pacman_sample_read pacman_sample_join pacman_sample
      pacman_sample_seq 1 3 [plain 40; plain 50] (xrange 0 MAX_TRIES)
      true [] [] sample_rng
      = Ok (trace, row', Some targets, g') /\
    (1 <= length trace <= 100)%nat.
Proof.
  destruct (retry_loop_bounded pacman_sample_read pacman_sample_join
              pacman_sample pacman_sample_seq 1 3 [plain 40; plain 50]
              true [] sample_rng 2 3)
    as (trace & row' & targets & g' & Hrun & Hlen & _).
  - reflexivity.
  - reflexivity.
  - cbn. unfold MsPacman.FRAME_HEIGHT, MsPacman.FRAME_WIDTH. lia.
  - unfold inputs_decoded. cbn. lia.
  - unfold targets_readable. cbn. repeat constructor.
    eexists _, _. split; reflexivity.
  - exists trace, row', targets, g'. split; assumption.
Defined.

Lemma motion_gate_true self retry :
  motion_gate self retry = true <->
  MsPacman._crop_size self <> None /\
  MsPacman._skip_less_movement self = true /\
  retry <> MAX_TRIES - 1.
Proof.
  unfold motion_gate. rewrite !andb_true_iff, bool_decide_eq_true.
  rewrite negb_true_iff, Z.eqb_neq. tauto.
Qed.

(** C7: pass [k] of the retry loop has retry index [k] and writes the
    window that [process_inputs] gives for its offsets and flag; the
    motion filter is called in a pass exactly when [crop_size] is not
    [None], [skip_less_movement] is set and the pass is not the last
    allowed one ([motion_gate]), and then on the window that pass wrote;
    a pass is accepted exactly when the filter was not called or passed,
    and the loop stops at the first accepted pass and returns its window;
    when [skip_less_movement] is off or [crop_size] is [None] the loop
    makes one pass, accepted, with no call of the filter. *)
Theorem motion_test_gate image_read path_join self current_seq
    start_idx total_seq_len input_frames do_flip row g :
  crop_fits self -> inputs_decoded self input_frames ->
  targets_readable image_read path_join self current_seq start_idx
    total_seq_len ->
  exists trace row' targets g',
    MsPacman.retry_loop image_read path_join self current_seq start_idx
      total_seq_len input_frames (xrange 0 MAX_TRIES) do_flip row [] g
      = Ok (trace, row', Some targets, g') /\
    (forall (k : nat) a, trace !! k = Some a ->
       (is_Some (MsPacman.att_motion a) <->
        MsPacman._crop_size self <> None /\
        MsPacman._skip_less_movement self = true /\
        MsPacman.att_retry a <> MAX_TRIES - 1) /\
       (forall verdict, MsPacman.att_motion a = Some verdict ->
          verdict = MsPacmanFilter.enough_l2_movement
                      (MsPacman.att_inputs a)) /\
       MsPacman.att_retry a = Z.of_nat k /\
       MsPacman.process_inputs self (MsPacman.att_offset_y a)
         (MsPacman.att_offset_x a) (MsPacman.att_do_flip a) input_frames
         = Ok (MsPacman.att_inputs a) /\
       MsPacman.att_motion a =
         (if motion_gate self (MsPacman.att_retry a)
          then Some (MsPacmanFilter.enough_l2_movement
                       (MsPacman.att_inputs a))
          else None) /\
       MsPacman.att_accepted a =
         (if motion_gate self (MsPacman.att_retry a)
          then MsPacmanFilter.enough_l2_movement (MsPacman.att_inputs a)
          else true) /\
       (MsPacman.att_accepted a = true <-> S k = length trace)) /\
    (exists init a, trace = init ++ [a] /\ row' = MsPacman.att_inputs a) /\
    (MsPacman._skip_less_movement self = false \/
     MsPacman._crop_size self = None ->
     exists a, trace = [a] /\ MsPacman.att_retry a = 0 /\
       MsPacman.att_motion a = None /\ MsPacman.att_accepted a = true /\
       MsPacman.process_inputs self (MsPacman.att_offset_y a)
         (MsPacman.att_offset_x a) (MsPacman.att_do_flip a) input_frames
         = Ok (MsPacman.att_inputs a) /\
       row' = MsPacman.att_inputs a).
Proof.
  intros Hfit Hdec Hread.
  destruct (retry_loop_total image_read path_join self current_seq start_idx
              total_seq_len input_frames (xrange 0 MAX_TRIES) Hfit Hdec Hread
              do_flip row [] g) as ([[trace row'] targets] & g' & Hrun).
  assert (Hb := Hrun). apply retry_loop_breaks in Hb.
  destruct Hb as (Hlen & Hidx & t & init & last_pass & -> & Htrace).
  apply retry_loop_spec in Hrun as Hspec.
  destruct Hspec as (new & Hnew_eq & Hnew & _ & Hsome).
  cbn in Hnew_eq. subst new.
  destruct (Hsome t eq_refl) as (init' & a' & Heq & Hrow & _).
  exists trace, row', t, g'. split; [exact Hrun|]. split; [|split].
  - intros k a Hk. destruct (Hnew k a Hk) as (_ & Hok & _ & _ & Hacc).
    destruct (Hidx k a Hk) as [Hretry _].
    destruct Hok as (Hwritten & Hmotion & Haccepted & _).
    split; [|split].
    + split.
      * intros [v Hv]. apply motion_gate_true. rewrite Hmotion in Hv.
        destruct (motion_gate self (MsPacman.att_retry a));
          [reflexivity|discriminate].
      * intros Hg. apply motion_gate_true in Hg.
        rewrite Hmotion, Hg. eauto.
    + intros v Hv. rewrite Hmotion in Hv.
      destruct (motion_gate self (MsPacman.att_retry a));
        [injection Hv as <-; reflexivity|discriminate].
    + split; [exact Hretry|]. split; [exact Hwritten|].
      split; [exact Hmotion|]. split; [exact Haccepted|].
      rewrite Hacc. split; [intros [_ H]; exact H|].
      intros H. split; [discriminate|exact H].
  - exists init', a'. split; assumption.
  - intros Hoff.
    assert (Hgate : forall retry, motion_gate self retry = false).
    { intros retry. unfold motion_gate. destruct Hoff as [-> | ->].
      - rewrite andb_false_r. reflexivity.
      - reflexivity. }
    destruct trace as [|a trace]; [destruct init; discriminate|].
    destruct (Hnew 0%nat a eq_refl) as (_ & Hok & _ & _ & Hacc).
    destruct (Hidx 0%nat a eq_refl) as [Hretry _].
    destruct Hok as (Hwritten & Hmotion & Haccepted & _).
    rewrite Hgate in Hmotion, Haccepted.
    apply Hacc in Haccepted as Hone. destruct Hone as [_ Hone].
    cbn in Hone. destruct trace; [|discriminate].
    exists a. split; [reflexivity|]. split; [exact Hretry|].
    split; [exact Hmotion|]. split; [exact Haccepted|].
    split; [exact Hwritten|].
    destruct init' as [|b [|c init']]; cbn in Heq.
    + injection Heq as <-. exact Hrow.
    + discriminate.
    + discriminate.
Qed.

Lemma motion_test_gate_witness :
  exists trace row' targets g' a,
    MsPacman.retry_loop pacman_sample_read pacman_sample_join
      pacman_sample_ungated pacman_sample_seq 1 3 [plain 40; plain 50]
      (xrange 0 MAX_TRIES) true [] [] sample_rng
      = Ok (trace, row', Some targets, g') /\
    trace = [a] /\ MsPacman.att_motion a = None.
Proof.
  destruct (motion_test_gate pacman_sample_read pacman_sample_join
              pacman_sample_ungated pacman_sample_seq 1 3
              [plain 40; plain 50] true [] sample_rng)
    as (trace & row' & targets & g' & Hrun & _ & _ & Hone).
  - cbn. unfold MsPacman.FRAME_HEIGHT, MsPacman.FRAME_WIDTH. lia.
  - unfold inputs_decoded. cbn. lia.
  - unfold targets_readable. cbn. repeat constructor.
    eexists _, _. split; reflexivity.
  - destruct Hone as (a & Ha & _ & Hm & _); [left; reflexivity|].
    exists trace, row', targets, g', a. repeat split; assumption.
Defined.

Lemma process_inputs_unflipped self crop_h crop_w offset_y offset_x
    input_frames written :
  MsPacman._crop_size self = Some (crop_h, crop_w) ->
  MsPacman.process_inputs self offset_y offset_x false input_frames
    = Ok written ->
  Forall2 (fun i w => exists frame,
             py_index input_frames i = Ok frame /\
             w = crop crop_h crop_w offset_y offset_x frame)
          (xrange 0 (MsPacman._input_seq_length self)) written.
Proof.
  intros Hcrop Hwr. apply forM_result_inv in Hwr.
  eapply Forall2_impl; [|exact Hwr]. cbn. intros i w Hw.
  apply bind_result_inv in Hw as (frame & Hframe & Hw).
  injection Hw as <-. exists frame. split; [exact Hframe|].
  unfold MsPacman.transform. rewrite Hcrop. reflexivity.
Qed.

(** C6: with cropping, pass [k] of the retry loop draws its own offsets
    (draws [2 k] and [2 k + 1] of the generator as the loop found it) and
    tests the HUD against them; when [offset_y + crop_h > HUD_Y] the flag
    it writes with is off and every input frame it writes is the plain
    crop of the decoded frame.  The flag of a pass is the one the loop was
    entered with as long as no pass so far has shown the HUD, and off from
    then on; the targets are written with the offsets and the flag of the
    accepted pass. *)
Theorem hud_crop_not_flipped image_read path_join self current_seq
    start_idx total_seq_len input_frames do_flip row g crop_h crop_w :
  MsPacman._crop_size self = Some (crop_h, crop_w) ->
  crop_fits self -> inputs_decoded self input_frames ->
  targets_readable image_read path_join self current_seq start_idx
    total_seq_len ->
  exists trace row' targets g',
    MsPacman.retry_loop image_read path_join self current_seq start_idx
      total_seq_len input_frames (xrange 0 MAX_TRIES) do_flip row [] g
      = Ok (trace, row', Some targets, g') /\
    (forall (k : nat) a, trace !! k = Some a ->
       MsPacman.att_retry a = Z.of_nat k /\
       MsPacman.att_offset_x a =
         0 + py_random g (2 * k)%nat
             mod (MsPacman.FRAME_WIDTH - crop_w - 0 + 1) /\
       MsPacman.att_offset_y a =
         0 + py_random g (2 * k + 1)%nat
             mod (MsPacman.FRAME_HEIGHT - crop_h - 0 + 1) /\
       MsPacman.att_do_flip a =
         do_flip && forallb (hud_clear self) (take (S k) trace) /\
       (MsPacman.att_offset_y a + crop_h > MsPacman.HUD_Y ->
        MsPacman.att_do_flip a = false /\
        Forall2 (fun i w => exists frame,
                   py_index input_frames i = Ok frame /\
                   w = crop crop_h crop_w (MsPacman.att_offset_y a)
                         (MsPacman.att_offset_x a) frame)
                (xrange 0 (MsPacman._input_seq_length self))
                (MsPacman.att_inputs a))) /\
    (exists init a,
       trace = init ++ [a] /\ row' = MsPacman.att_inputs a /\
       MsPacman.process_targets image_read path_join self current_seq
         start_idx total_seq_len (MsPacman.att_offset_y a)
         (MsPacman.att_offset_x a) (MsPacman.att_do_flip a) = Ok targets).
Proof.
  intros Hcrop Hfit Hdec Hread.
  destruct (retry_loop_total image_read path_join self current_seq start_idx
              total_seq_len input_frames (xrange 0 MAX_TRIES) Hfit Hdec Hread
              do_flip row [] g) as ([[trace row'] targets] & g' & Hrun).
  assert (Hb := Hrun). apply retry_loop_breaks in Hb.
  destruct Hb as (Hlen & Hidx & t & init & last_pass & -> & Htrace).
  apply retry_loop_spec in Hrun as Hspec.
  destruct Hspec as (new & Hnew_eq & Hnew & _ & Hsome).
  cbn in Hnew_eq. subst new.
  exists trace, row', t, g'. split; [exact Hrun|].
  split; [|exact (Hsome t eq_refl)].
  intros k a Hk. destruct (Hnew k a Hk) as (_ & Hok & Hdrawn & Hflag & _).
  destruct (Hidx k a Hk) as [Hretry _].
  unfold pass_drawn in Hdrawn. rewrite Hcrop in Hdrawn.
  destruct Hdrawn as [Hx Hy].
  destruct Hok as (Hwritten & _ & _ & Hhud & _).
  repeat (split; [assumption|]).
  intros Hvisible. specialize (Hhud crop_h crop_w Hcrop Hvisible).
  split; [exact Hhud|]. rewrite Hhud in Hwritten.
  eapply process_inputs_unflipped; eauto.
Qed.

Lemma hud_crop_not_flipped_witness :
  exists trace row' targets g',
    MsPacman.retry_loop pacman_sample_read pacman_sample_join pacman_sample
      pacman_sample_seq 1 3 [plain 40; plain 50] (xrange 0 MAX_TRIES)
      true [] [] sample_rng
      = Ok (trace, row', Some targets, g') /\
    forall a, trace !! 2%nat = Some a ->
      MsPacman.att_offset_y a = 190 /\ MsPacman.att_do_flip a = false.
Proof.
  destruct (hud_crop_not_flipped pacman_sample_read pacman_sample_join
              pacman_sample pacman_sample_seq 1 3 [plain 40; plain 50]
              true [] sample_rng 2 3)
    as (trace & row' & targets & g' & Hrun & Hpass & _).
  - reflexivity.
  - cbn. unfold MsPacman.FRAME_HEIGHT, MsPacman.FRAME_WIDTH. lia.
  - unfold inputs_decoded. cbn. lia.
  - unfold targets_readable. cbn. repeat constructor.
    eexists _, _. split; reflexivity.
  - exists trace, row', targets, g'. split; [exact Hrun|].
    intros a Ha. destruct (Hpass 2%nat a Ha) as (_ & _ & Hy & _ & Hhud).
    assert (Hy' : MsPacman.att_offset_y a = 190) by (rewrite Hy; reflexivity).
    split; [exact Hy'|]. apply Hhud. rewrite Hy'.
    unfold MsPacman.HUD_Y. lia.
Defined.


(** ** The Ms. Pac-Man facade *)

Lemma np_random_choice_draws (a size : Z) g seq_indices g1 :
  np_random_choice a size g = Ok (seq_indices, g1) ->
  Z.of_nat (length seq_indices) = size /\
  forall (k : nat) x, seq_indices !! k = Some x ->
    x = np_random g k mod a /\ 0 <= x < a.
Proof.
  unfold np_random_choice.
  destruct (Z.leb_spec a 0) as [|Ha]; [discriminate|].
  destruct (Z.ltb_spec size 0) as [|Hsize]; [discriminate|].
  intros Hrun.
  assert (Hgen : forall (l : list Z) g ys g1,
    forM (fun _ : Z => r ← np_next; mret (r mod a)) l g = Ok (ys, g1) ->
    length ys = length l /\
    forall (k : nat) x, ys !! k = Some x -> x = np_random g k mod a).
  { clear. induction l as [|i l IH]; intros g ys g1 H.
    - apply ret_M_inv in H as [-> _]. split; [reflexivity|].
      intros k x Hk. discriminate.
    - cbn [forM] in H.
      apply bind_M_inv in H as (y & g2 & Hy & H).
      apply bind_M_inv in H as (ys' & g3 & Hys & H).
      apply ret_M_inv in H as [-> ->].
      apply bind_M_inv in Hy as (r & g4 & Hr & Hy).
      apply ret_M_inv in Hy as [-> ->].
      injection Hr as <- <-.
      apply IH in Hys as [Hlen Hk]. split; [cbn; lia|].
      intros [|k] x Hx.
      + injection Hx as <-. reflexivity.
      + apply Hk in Hx. exact Hx. }
  apply Hgen in Hrun as [Hlen Hk]. split.
  - rewrite Hlen, length_seqZ. lia.
  - intros k x Hx. apply Hk in Hx. split; [exact Hx|].
    subst x. apply Z.mod_pos_bound. lia.
Qed.

(** C10: [reset] changes nothing, neither the object nor the generators;
    [get_batch] returns the object as it found it; its arrays and the
    draws it consumes do not depend on the row cursor or the index
    permutation; the sequence indices are the first [batch_size] draws of
    numpy's generator reduced modulo the true size. *)
Theorem pacman_cursor_untouched image_read path_join
    (self : MsPacman.Dataset) (batch_size : Z) (g : rng) :
  MsPacman.reset self g = Ok ((tt, self), g) /\
  (forall inputs targets self' g',
     MsPacman.get_batch image_read path_join self batch_size g
       = Ok ((inputs, targets, self'), g') -> self' = self) /\
  (forall row indices,
     outcome (MsPacman.get_batch image_read path_join
                (with_cursor self row indices) batch_size g)
     = outcome (MsPacman.get_batch image_read path_join self batch_size g)) /\
  (forall seq_indices g1,
     np_random_choice (MsPacman._true_dataset_size self) batch_size g
       = Ok (seq_indices, g1) ->
     Z.of_nat (length seq_indices) = batch_size /\
     forall (k : nat) x, seq_indices !! k = Some x ->
       x = np_random g k mod MsPacman._true_dataset_size self /\
       0 <= x < MsPacman._true_dataset_size self).
Proof.
  split; [reflexivity|]. split; [|split].
  - intros inputs targets self' g' Hrun. unfold MsPacman.get_batch in Hrun.
    apply bind_M_inv in Hrun as ([[bi bt] tr] & g1 & _ & Hrun).
    apply ret_M_inv in Hrun as [[= _ _ ->] _]. reflexivity.
  - intros row indices. unfold MsPacman.get_batch.
    change (MsPacman.get_batch_traced image_read path_join
              (with_cursor self row indices) batch_size)
      with (MsPacman.get_batch_traced image_read path_join self batch_size).
    rewrite !bind_M_eq.
    destruct (MsPacman.get_batch_traced image_read path_join self
                batch_size g) as [[[[bi bt] tr] g1]|e]; reflexivity.
  - intros seq_indices g1. apply np_random_choice_draws.
Qed.

Lemma pacman_cursor_untouched_witness :
  outcome (MsPacman.get_batch pacman_sample_read pacman_sample_join
             (with_cursor pacman_sample 7 [1; 0]) 1 sample_rng)
  = outcome (MsPacman.get_batch pacman_sample_read pacman_sample_join
               pacman_sample 1 sample_rng).
Proof.
  apply (pacman_cursor_untouched pacman_sample_read pacman_sample_join
           pacman_sample 1 sample_rng).
Defined.


(** ** The batch contract *)

Lemma div_255_unit (v : Z) :
  uint8 v -> unit_interval (inject_Z v / 255)%Q.
Proof.
  unfold uint8, unit_interval, Qdiv, Qle, Qmult, Qinv. cbn. lia.
Qed.

Lemma div_batch_array (b : Z) (s : shape) (raw : batch) :
  array_of uint8 b s raw -> array_of unit_interval b s (div_batch 255 raw).
Proof.
  destruct s as [[[t h] w] c]. unfold array_of, image_of, div_batch, div_frame.
  intros H.
  eapply rows_fmap; [|exact H]. intros row Hrow. cbn in Hrow.
  eapply rows_fmap; [|exact Hrow]. intros f Hf. cbn in Hf.
  eapply rows_fmap; [|exact Hf]. intros r Hr. cbn in Hr.
  eapply rows_fmap; [|exact Hr]. intros px Hpx. cbn in Hpx.
  eapply rows_fmap; [|exact Hpx]. intros v Hv. apply div_255_unit, Hv.
Qed.

Lemma np_empty_array (b : Z) (s : shape) (arr : batch) :
  np_empty b s = Ok arr ->
  array_of uint8 b s arr /\ 0 <= b /\
  let '(t, h, w, c) := s in 0 <= t /\ 0 <= h /\ 0 <= w /\ 0 <= c.
Proof.
  destruct s as [[[t h] w] c]. unfold np_empty.
  destruct (Z.ltb_spec b 0); [discriminate|].
  destruct (Z.ltb_spec t 0); [discriminate|].
  destruct (Z.ltb_spec h 0); [discriminate|].
  destruct (Z.ltb_spec w 0); [discriminate|].
  destruct (Z.ltb_spec c 0); [discriminate|].
  cbn. intros [= <-]. split; [|lia].
  unfold array_of, image_of.
  repeat (apply rows_replicate; [assumption|]).
  unfold uint8. lia.
Qed.

Lemma py_index_Forall {A} (P : A -> Prop) (l : list A) (i : Z) x :
  Forall P l -> py_index l i = Ok x -> P x.
Proof.
  intros Hl. unfold py_index.
  destruct (_ || _); [discriminate|].
  destruct (l !! _) as [y|] eqn:E; [|discriminate].
  intros [= <-]. eapply Forall_lookup_1; eauto.
Qed.

Lemma forM_result_rows {A B} (f : A -> result B) (P : B -> Prop) l ys :
  (forall x y, f x = Ok y -> P y) ->
  forM f l = Ok ys -> length ys = length l /\ Forall P ys.
Proof.
  intros Hf H. apply forM_result_inv in H.
  induction H as [|x y l ys Hxy _ [IH1 IH2]].
  - split; [reflexivity|constructor].
  - split; [cbn; lia|]. constructor; eauto.
Qed.

Lemma forM_M_rows {A B} (f : A -> M B) (P : B -> Prop) l :
  (forall x g y g', f x g = Ok (y, g') -> P y) ->
  forall g ys g', forM f l g = Ok (ys, g') ->
  length ys = length l /\ Forall P ys.
Proof.
  intros Hf. induction l as [|x l IH]; intros g ys g' H.
  - apply ret_M_inv in H as [-> _]. split; [reflexivity|constructor].
  - cbn [forM] in H.
    apply bind_M_inv in H as (y & g1 & Hy & H).
    apply bind_M_inv in H as (ys' & g2 & Hys & H).
    apply ret_M_inv in H as [-> ->].
    apply IH in Hys as [Hlen Hall]. split; [cbn; lia|].
    constructor; eauto.
Qed.

Section PacmanShapes.
Variable image_read : string -> result image.
Variable path_join : string -> string -> string.
Variable self : MsPacman.Dataset.
Hypothesis Hstored : frames_stored image_read.
Hypothesis Hh : 0 <= (pacman_frame_dims self).1.
Hypothesis Hw : 0 <= (pacman_frame_dims self).2.

Let out_image : image -> Prop :=
  image_of uint8 (pacman_frame_dims self).1 (pacman_frame_dims self).2
    MsPacman.FRAME_CHANNELS.

Let offsets_valid (offset_y offset_x : Z) : Prop :=
  forall crop_h crop_w,
    MsPacman._crop_size self = Some (crop_h, crop_w) ->
    0 <= offset_y <= MsPacman.FRAME_HEIGHT - crop_h /\
    0 <= offset_x <= MsPacman.FRAME_WIDTH - crop_w.

Lemma transform_out_image offset_y offset_x do_flip frame :
  offsets_valid offset_y offset_x ->
  image_of uint8 MsPacman.FRAME_HEIGHT MsPacman.FRAME_WIDTH
    MsPacman.FRAME_CHANNELS frame ->
  out_image (MsPacman.transform self offset_y offset_x do_flip frame).
Proof.
  intros Hvalid Hframe. unfold out_image, MsPacman.transform.
  assert (Hcropped : image_of uint8 (pacman_frame_dims self).1
            (pacman_frame_dims self).2 MsPacman.FRAME_CHANNELS
            match MsPacman._crop_size self with
            | Some (crop_h, crop_w) =>
                crop crop_h crop_w offset_y offset_x frame
            | None => frame
            end).
  { unfold pacman_frame_dims in *.
    destruct (MsPacman._crop_size self) as [[ch cw]|]; [|exact Hframe].
    destruct (Hvalid ch cw eq_refl) as [Hy Hx]. cbn in Hh, Hw |- *.
    eapply crop_image_of; eauto; lia. }
  destruct do_flip; [apply flip_lr_image_of|]; exact Hcropped.
Qed.

Lemma process_inputs_rows offset_y offset_x do_flip input_frames written :
  offsets_valid offset_y offset_x ->
  0 <= MsPacman._input_seq_length self ->
  Forall (image_of uint8 MsPacman.FRAME_HEIGHT MsPacman.FRAME_WIDTH
            MsPacman.FRAME_CHANNELS) input_frames ->
  MsPacman.process_inputs self offset_y offset_x do_flip input_frames
    = Ok written ->
  rows (MsPacman._input_seq_length self) out_image written.
Proof.
  intros Hvalid Hlen Hframes Hwr.
  eapply (forM_result_rows _ out_image) in Hwr as [Hl Hall].
  - split; [|exact Hall]. rewrite Hl, length_xrange. lia.
  - intros i y Hy. apply bind_result_inv in Hy as (frame & Hframe & Hy).
    injection Hy as <-. apply transform_out_image; [exact Hvalid|].
    eapply py_index_Forall; eauto.
Qed.

Lemma process_targets_rows current_seq start_idx offset_y offset_x do_flip
    targets :
  offsets_valid offset_y offset_x ->
  0 <= MsPacman._target_seq_length self ->
  MsPacman.process_targets image_read path_join self current_seq start_idx
    (MsPacman._input_seq_length self + MsPacman._target_seq_length self)
    offset_y offset_x do_flip = Ok targets ->
  rows (MsPacman._target_seq_length self) out_image targets.
Proof.
  intros Hvalid Hlen Ht.
  eapply (forM_result_rows _ out_image) in Ht as [Hl Hall].
  - split; [|exact Hall]. rewrite Hl, length_xrange. lia.
  - intros i y Hy. cbn in Hy.
    apply bind_result_inv in Hy as (fn & Hfn & Hy).
    apply bind_result_inv in Hy as (frame & Hframe & Hy).
    injection Hy as <-. apply transform_out_image; [exact Hvalid|].
    eapply Hstored; eauto.
Qed.

Lemma sample_item_rows seq_indices batch row g trace row' targets g' :
  0 <= MsPacman._input_seq_length self ->
  0 <= MsPacman._target_seq_length self ->
  MsPacman.sample_item image_read path_join self seq_indices
    (MsPacman._input_seq_length self + MsPacman._target_seq_length self)
    batch row g = Ok (trace, row', targets, g') ->
  rows (MsPacman._input_seq_length self) out_image row' /\
  exists t, targets = Some t /\
    rows (MsPacman._target_seq_length self) out_image t.
Proof.
  intros Hin Htg Hrun. unfold MsPacman.sample_item in Hrun.
  apply bind_M_inv in Hrun as (seq_index & g1 & _ & Hrun).
  apply bind_M_inv in Hrun as (current_seq & g2 & _ & Hrun).
  apply bind_M_inv in Hrun as (start_idx & g3 & _ & Hrun).
  apply bind_M_inv in Hrun as (do_flip & g4 & _ & Hrun).
  apply bind_M_inv in Hrun as (input_frames & g5 & Hframes & Hrun).
  apply lift_inv in Hframes as [Hframes ->].
  eapply (forM_result_rows _ (image_of uint8 MsPacman.FRAME_HEIGHT
            MsPacman.FRAME_WIDTH MsPacman.FRAME_CHANNELS))
    in Hframes as [_ Hframes].
  2:{ intros fidx y Hy. apply bind_result_inv in Hy as (fn & _ & Hy).
      eapply Hstored; eauto. }
  assert (Hb := Hrun). apply retry_loop_breaks in Hb.
  destruct Hb as (_ & _ & t & init & a & -> & Htrace).
  apply retry_loop_spec in Hrun as (new & Hnew_eq & Hnew & _ & Hsome).
  cbn in Hnew_eq. subst new.
  destruct (Hsome t eq_refl) as (init' & a' & Heq & -> & Ht).
  assert (Ha' : trace !! length init' = Some a').
  { rewrite Heq. rewrite lookup_app_r by lia.
    rewrite Nat.sub_diag. reflexivity. }
  destruct (Hnew _ _ Ha') as (_ & Hok & _).
  destruct Hok as (Hwritten & _ & _ & _ & Hvalid).
  split.
  - eapply process_inputs_rows; eauto.
  - exists t. split; [reflexivity|].
    eapply process_targets_rows; eauto.
Qed.

Lemma batch_loop_rows seq_indices batches :
  0 <= MsPacman._input_seq_length self ->
  0 <= MsPacman._target_seq_length self ->
  forall batch_inputs batch_targets traces g bi bt traces' g' b,
  rows b (rows (MsPacman._input_seq_length self) out_image) batch_inputs ->
  rows b (rows (MsPacman._target_seq_length self) out_image) batch_targets ->
  MsPacman.batch_loop image_read path_join self seq_indices
    (MsPacman._input_seq_length self + MsPacman._target_seq_length self)
    batches batch_inputs batch_targets traces g = Ok (bi, bt, traces', g') ->
  rows b (rows (MsPacman._input_seq_length self) out_image) bi /\
  rows b (rows (MsPacman._target_seq_length self) out_image) bt.
Proof.
  intros Hin Htg.
  induction batches as [|batch batches IH];
    intros batch_inputs batch_targets traces g bi bt traces' g' b Hbi Hbt Hrun.
  - apply ret_M_inv in Hrun as [[= -> -> ->] _]. split; assumption.
  - cbn [MsPacman.batch_loop] in Hrun.
    apply bind_M_inv in Hrun as ([[trace row] targets] & g1 & Hitem & Hrun).
    apply sample_item_rows in Hitem as (Hrow & t & -> & Ht); try assumption.
    eapply IH; [| |exact Hrun].
    + destruct Hbi as [Hl Hall]. split.
      * rewrite length_insert. exact Hl.
      * apply Forall_insert; assumption.
    + destruct Hbt as [Hl Hall]. split.
      * rewrite length_insert. exact Hl.
      * apply Forall_insert; assumption.
Qed.
End PacmanShapes.

Lemma pacman_get_batch_contract image_read path_join self batch_size g
    inputs targets self' g' :
  pacman_consistent self -> frames_stored image_read ->
  MsPacman.get_batch image_read path_join self batch_size g
    = Ok ((inputs, targets, self'), g') ->
  exists raw_inputs raw_targets,
    inputs = div_batch 255 raw_inputs /\
    targets = div_batch 255 raw_targets /\
    array_of uint8 batch_size (MsPacman.input_shape self) raw_inputs /\
    array_of uint8 batch_size (MsPacman.target_shape self) raw_targets.
Proof.
  intros [Hin Htg] Hstored Hrun. unfold MsPacman.get_batch in Hrun.
  apply bind_M_inv in Hrun as ([[bi bt] tr] & g1 & Hrun & Hret).
  apply ret_M_inv in Hret as [[= -> -> _] _].
  unfold MsPacman.get_batch_traced in Hrun.
  apply bind_M_inv in Hrun as (seq_indices & g2 & _ & Hrun).
  assert (Hshapes :
    match MsPacman._crop_size self with
    | Some (crop_h, crop_w) =>
        (dim0 (MsPacman.input_shape self), crop_h, crop_w,
         dim3 (MsPacman.input_shape self),
         (dim0 (MsPacman.target_shape self), crop_h, crop_w,
          dim3 (MsPacman.target_shape self)))
    | None => (MsPacman.input_shape self, MsPacman.target_shape self)
    end = (MsPacman.input_shape self, MsPacman.target_shape self)).
  { rewrite Hin, Htg. unfold pacman_frame_dims.
    destruct (MsPacman._crop_size self) as [[ch cw]|]; reflexivity. }
  rewrite Hshapes in Hrun. clear Hshapes.
  apply bind_M_inv in Hrun as (empty_inputs & g3 & Hei & Hrun).
  apply lift_inv in Hei as [Hei ->].
  apply bind_M_inv in Hrun as (empty_targets & g4 & Het & Hrun).
  apply lift_inv in Het as [Het ->].
  apply bind_M_inv in Hrun as ([[raw_i raw_t] traces] & g5 & Hloop & Hret).
  apply ret_M_inv in Hret as [[= -> -> _] _].
  apply np_empty_array in Hei as (Hei & _ & Hdi).
  apply np_empty_array in Het as (Het & _ & Hdt).
  rewrite Hin in Hei, Hdi |- *. rewrite Htg in Het, Hdt |- *.
  exists raw_i, raw_t. split; [reflexivity|]. split; [reflexivity|].
  unfold array_of in *.
  eapply batch_loop_rows; eauto; lia.
Qed.

(** *** UCF-101 *)

Lemma chunks_rows {A} (P : A -> Prop) (k n : nat) (l : list A) :
  length l = (k * n)%nat -> Forall P l ->
  length (chunks k n l) = k /\
  Forall (fun c => length c = n /\ Forall P c) (chunks k n l).
Proof.
  revert l. induction k as [|k IH]; intros l Hlen Hl; cbn.
  - split; [reflexivity|constructor].
  - destruct (IH (drop n l)) as [IH1 IH2].
    + rewrite length_drop. lia.
    + apply Forall_drop, Hl.
    + split; [lia|]. constructor; [|exact IH2]. split.
      * rewrite length_take. lia.
      * apply Forall_take, Hl.
Qed.

Lemma np_reshape_rows (flat : list Z) (t h w c : Z) (current : list image) :
  Forall uint8 flat ->
  np_reshape flat (t, h, w, c) = Ok current ->
  rows t (image_of uint8 h w c) current /\
  0 <= t /\ 0 <= h /\ 0 <= w /\ 0 <= c.
Proof.
  intros Hflat. unfold np_reshape.
  destruct (Z.ltb_spec t 0); [discriminate|].
  destruct (Z.ltb_spec h 0); [discriminate|].
  destruct (Z.ltb_spec w 0); [discriminate|].
  destruct (Z.ltb_spec c 0); [discriminate|]. cbn [orb].
  destruct (Z.eqb_spec (Z.of_nat (length flat)) (t * h * w * c))
    as [Hlen|]; [|discriminate].
  cbn [negb]. intros [= <-]. split; [|lia].
  assert (Hn : length flat =
               (Z.to_nat t * (Z.to_nat h * Z.to_nat w * Z.to_nat c))%nat).
  { apply Nat2Z.inj. rewrite !Nat2Z.inj_mul, !Z2Nat.id by lia. lia. }
  destruct (chunks_rows uint8 _ _ _ Hn Hflat) as [Hl Hall].
  unfold image_of. split.
  - rewrite length_fmap, Hl. lia.
  - apply Forall_fmap. eapply Forall_impl; [|exact Hall].
    intros fr [Hfr Hfr_all]. cbn.
    assert (Hfr' : length fr =
                   (Z.to_nat h * (Z.to_nat w * Z.to_nat c))%nat) by lia.
    destruct (chunks_rows uint8 _ _ _ Hfr' Hfr_all) as [Hl2 Hall2].
    split.
    + rewrite length_fmap, Hl2. lia.
    + apply Forall_fmap. eapply Forall_impl; [|exact Hall2].
      intros row [Hrow Hrow_all]. cbn.
      destruct (chunks_rows uint8 _ _ _ Hrow Hrow_all) as [Hl3 Hall3].
      split; [lia|].
      eapply Forall_impl; [|exact Hall3].
      intros px [Hpx Hpx_all]. split; [lia|exact Hpx_all].
Qed.

Lemma rows_slice_tail {A} (P : A -> Prop) (n a b : Z) (l : list A) :
  rows n P l -> 0 <= a <= n -> n <= b ->
  rows (n - a) P (py_slice a b l).
Proof.
  intros [Hn Hl] Ha Hb. unfold py_slice, clip_bound.
  destruct (Z.ltb_spec a 0); [lia|]. destruct (Z.ltb_spec b 0); [lia|].
  split.
  - rewrite length_take, length_drop. lia.
  - apply Forall_take, Forall_drop, Hl.
Qed.

Lemma rows_slice_to {A} (P : A -> Prop) (n k : Z) (l : list A) :
  rows n P l -> 0 <= k <= n -> rows k P (py_slice_to k l).
Proof.
  intros [Hn Hl] Hk. rewrite py_slice_to_exact by lia. split.
  - rewrite length_take. lia.
  - apply Forall_take, Hl.
Qed.

Section UcfShapes.
Variable read_as_binary : string -> result (list Z).
Variable self : UCF101.Dataset.
Hypothesis Hbytes : bytes_stored read_as_binary.
Hypothesis Hconsistent : ucf_consistent self.

Let out_image : image -> Prop :=
  image_of uint8 (ucf_frame_dims self).1 (ucf_frame_dims self).2
    (UCF101._data_img_size self).2.

Lemma crop_loop_rows crop_h crop_w inputs_length n
    (current : list image) retries :
  0 <= crop_h -> 0 <= crop_w ->
  rows n (image_of uint8 (UCF101._data_img_size self).1.1
            (UCF101._data_img_size self).1.2
            (UCF101._data_img_size self).2) current ->
  forall crop_ g c g',
  (forall c0, crop_ = Some c0 ->
     rows n (image_of uint8 crop_h crop_w (UCF101._data_img_size self).2)
       c0) ->
  UCF101.crop_loop self crop_h crop_w inputs_length current retries crop_ g
    = Ok (c, g') ->
  rows n (image_of uint8 crop_h crop_w (UCF101._data_img_size self).2) c.
Proof.
  intros Hch Hcw Hcur.
  induction retries as [|retry retries IH]; intros crop_ g c g' Hprev Hrun.
  - cbn in Hrun. destruct crop_ as [c0|]; [|discriminate].
    apply ret_M_inv in Hrun as [-> _]. apply Hprev. reflexivity.
  - cbn [UCF101.crop_loop] in Hrun.
    apply bind_M_inv in Hrun as (ox & g1 & Hx & Hrun).
    apply bind_M_inv in Hrun as (oy & g2 & Hy & Hrun).
    apply randint_inv in Hx as (Hx & _). apply randint_inv in Hy as (Hy & _).
    assert (Hc : rows n (image_of uint8 crop_h crop_w
                           (UCF101._data_img_size self).2)
                   (crop crop_h crop_w oy ox <$> current)).
    { eapply rows_fmap; [|exact Hcur]. intros f Hf.
      eapply crop_image_of; eauto; lia. }
    destruct (UCF101._skip_less_movement self).
    + destruct (negb _).
      * eapply IH; [|exact Hrun]. intros c0 [= <-]. exact Hc.
      * apply ret_M_inv in Hrun as [-> _]. exact Hc.
    + apply ret_M_inv in Hrun as [-> _]. exact Hc.
Qed.

Lemma load_item_rows i f g seq_input seq_target g' :
  UCF101.load_item read_as_binary self i f g
    = Ok ((seq_input, seq_target), g') ->
  rows (dim0 (UCF101.input_shape self)) out_image seq_input /\
  rows (dim0 (UCF101.target_shape self)) out_image seq_target.
Proof.
  destruct Hconsistent as (tin & ttg & Hin & Htg & Htin & Httg & Hh & Hw).
  unfold UCF101.load_item. rewrite Hin, Htg. cbn [dim0].
  intros Hrun.
  apply bind_M_inv in Hrun as (flat & g1 & Hflat & Hrun).
  apply lift_inv in Hflat as [Hflat ->]. apply Hbytes in Hflat.
  unfold out_image, ucf_frame_dims in *.
  destruct (UCF101._data_img_size self) as [[h w] c] eqn:Esize.
  apply bind_M_inv in Hrun as (current & g2 & Hcur & Hrun).
  apply lift_inv in Hcur as [Hcur ->].
  apply np_reshape_rows in Hcur as (Hcur & Hssl & Hh0 & Hw0 & Hc0);
    [|exact Hflat].
  apply bind_M_inv in Hrun as (start_t & g3 & Hstart & Hrun).
  apply randint_inv in Hstart as (Hstart & _).
  assert (Hwin : rows (tin + ttg) (image_of uint8 h w c)
                   (py_slice start_t (start_t + (tin + ttg)) current)).
  { eapply rows_slice; eauto; lia. }
  apply bind_M_inv in Hrun as (cropped & g4 & Hcrop & Hrun).
  apply ret_M_inv in Hrun as [[= -> ->] _].
  assert (Hcropped : rows (tin + ttg)
            (image_of uint8
               match UCF101._crop_size self with
               | Some crop_size => crop_size
               | None => (h, w)
               end.1
               match UCF101._crop_size self with
               | Some crop_size => crop_size
               | None => (h, w)
               end.2 c) cropped).
  { destruct (UCF101._crop_size self) as [[ch cw]|].
    - cbn in Hh, Hw |- *.
      assert (Hloop := crop_loop_rows ch cw tin (tin + ttg)
                (py_slice start_t (start_t + (tin + ttg)) current)
                (xrange 0 MAX_TRIES) Hh Hw).
      rewrite Esize in Hloop. cbn in Hloop.
      eapply Hloop; [exact Hwin| |exact Hcrop]. discriminate.
    - apply ret_M_inv in Hcrop as [-> _]. exact Hwin. }
  assert (Hflipped : rows (tin + ttg)
            (image_of uint8
               match UCF101._crop_size self with
               | Some crop_size => crop_size
               | None => (h, w)
               end.1
               match UCF101._crop_size self with
               | Some crop_size => crop_size
               | None => (h, w)
               end.2 c)
            (if UCF101._double_with_flipped self
             then if UCF101.flip_decision (UCF101.real_dataset_size self)
                       (UCF101._row self + i)
                  then flip_lr <$> cropped else cropped
             else cropped)).
  { destruct (UCF101._double_with_flipped self); [|exact Hcropped].
    destruct (UCF101.flip_decision _ _); [|exact Hcropped].
    eapply rows_fmap; [|exact Hcropped].
    intros fr Hfr. apply flip_lr_image_of, Hfr. }
  split.
  - replace tin with (0 + tin) at 1 by lia.
    replace tin with (0 + tin) at 2 by lia.
    eapply rows_slice; eauto; lia.
  - replace ttg with (tin + ttg - tin) at 1 by lia.
    eapply rows_slice_tail; eauto; lia.
Qed.
End UcfShapes.

Lemma set_cursor_same (self : UCF101.Dataset) :
  UCF101.set_cursor self (UCF101._row self) (UCF101._indices self) = self.
Proof. destruct self. reflexivity. Qed.

Lemma select_indices_inv self batch_size g self' window g' :
  UCF101.select_indices self batch_size g = Ok ((self', window), g') ->
  Z.of_nat (length window) = batch_size /\
  exists row indices, self' = UCF101.set_cursor self row indices.
Proof.
  unfold UCF101.select_indices. intros Hrun.
  apply bind_M_inv in Hrun as (self1 & g1 & Hreset & Hrun).
  assert (Hself1 : exists row indices,
            self1 = UCF101.set_cursor self row indices).
  { destruct (_ >=? _).
    - unfold UCF101.reset in Hreset.
      apply bind_M_inv in Hreset as (ind & g2 & _ & Hret).
      apply ret_M_inv in Hret as [-> _]. eauto.
    - apply ret_M_inv in Hreset as [-> _].
      exists (UCF101._row self), (UCF101._indices self).
      symmetry. apply set_cursor_same. }
  apply bind_M_inv in Hrun as (start & g2 & _ & Hrun).
  apply bind_M_inv in Hrun as (end_ & g3 & _ & Hrun).
  destruct (Z.eqb_spec (Z.of_nat (length (UCF101.ind_range
              (UCF101._indices self1) start end_))) batch_size)
    as [Hlen|]; [|discriminate].
  cbn [negb] in Hrun. apply ret_M_inv in Hrun as [[= -> ->] _].
  split; assumption.
Qed.

Lemma np_stack_inv (arrays : list (list image)) (stacked : batch) :
  np_stack arrays = Ok stacked -> stacked = arrays.
Proof.
  unfold np_stack. destruct arrays as [|x rest]; [discriminate|].
  destruct (forallb _ _); [|discriminate]. intros [= <-]. reflexivity.
Qed.

Lemma ucf_get_batch_contract read_as_binary self batch_size g
    inputs targets self' g' :
  ucf_consistent self -> bytes_stored read_as_binary ->
  UCF101.get_batch read_as_binary self batch_size g
    = Ok ((inputs, targets, self'), g') ->
  exists raw_inputs raw_targets,
    inputs = div_batch 255 raw_inputs /\
    targets = div_batch 255 raw_targets /\
    array_of uint8 batch_size (UCF101.input_shape self) raw_inputs /\
    array_of uint8 batch_size (UCF101.target_shape self) raw_targets.
Proof.
  intros Hcons Hbytes Hrun. unfold UCF101.get_batch in Hrun.
  apply bind_M_inv in Hrun as ([self1 window] & g1 & Hsel & Hrun).
  apply select_indices_inv in Hsel as (Hwin & row & indices & ->).
  set (self1 := UCF101.set_cursor self row indices) in *.
  assert (Hcons1 : ucf_consistent self1) by exact Hcons.
  cbn beta iota in Hrun.
  apply bind_M_inv in Hrun as (file_names & g2 & Hnames & Hrun).
  apply lift_inv in Hnames as [Hnames ->].
  apply (forM_result_rows _ (fun _ => True)) in Hnames as [Hnames _];
    [|auto].
  apply bind_M_inv in Hrun as (items & g3 & Hitems & Hrun).
  apply (forM_M_rows _ (fun item : list image * list image =>
           rows (dim0 (UCF101.input_shape self1))
             (image_of uint8 (ucf_frame_dims self1).1
                (ucf_frame_dims self1).2 (UCF101._data_img_size self1).2)
             item.1 /\
           rows (dim0 (UCF101.target_shape self1))
             (image_of uint8 (ucf_frame_dims self1).1
                (ucf_frame_dims self1).2 (UCF101._data_img_size self1).2)
             item.2)) in Hitems as [Hlen Hitems].
  2:{ intros [i f] gi [seq_input seq_target] gi' Hitem.
      eapply load_item_rows; eauto. }
  apply bind_M_inv in Hrun as (raw_i & g4 & Hsi & Hrun).
  apply lift_inv in Hsi as [Hsi ->]. apply np_stack_inv in Hsi as ->.
  apply bind_M_inv in Hrun as (raw_t & g5 & Hst & Hrun).
  apply lift_inv in Hst as [Hst ->]. apply np_stack_inv in Hst as ->.
  apply ret_M_inv in Hrun as [[= -> -> _] _].
  exists items.*1, items.*2.
  split; [reflexivity|]. split; [reflexivity|].
  assert (Hn : Z.of_nat (length items) = batch_size).
  { rewrite Hlen, length_zip, length_xrange. lia. }
  destruct Hcons as (tin & ttg & Hin & Htg & _).
  change (UCF101.input_shape self1) with (UCF101.input_shape self) in Hitems.
  change (UCF101.target_shape self1) with (UCF101.target_shape self)
    in Hitems.
  change (ucf_frame_dims self1) with (ucf_frame_dims self) in Hitems.
  change (UCF101._data_img_size self1) with (UCF101._data_img_size self)
    in Hitems.
  rewrite Hin, Htg in Hitems |- *. cbn [dim0] in Hitems.
  unfold array_of. split.
  - split; [rewrite length_fmap; exact Hn|].
    apply Forall_fmap. eapply Forall_impl; [|exact Hitems].
    intros item [H1 _]. exact H1.
  - split; [rewrite length_fmap; exact Hn|].
    apply Forall_fmap. eapply Forall_impl; [|exact Hitems].
    intros item [_ H2]. exact H2.
Qed.

(** The constructors establish the consistency [get_batch] relies on, and
    [get_batch] keeps it. *)
Lemma pacman_init_consistent folders input_seq_length target_seq_length
    crop_size repetitions_per_epoche skip_less_movement random_flip :
  pacman_consistent
    (MsPacman.__init__ folders input_seq_length target_seq_length crop_size
       repetitions_per_epoche skip_less_movement random_flip).
Proof.
  unfold pacman_consistent, pacman_frame_dims, MsPacman.__init__.
  destruct crop_size as [[ch cw]|]; split; reflexivity.
Qed.

Lemma int_nonneg (x : Q) : (0 <= x)%Q -> 0 <= UCF101.int x.
Proof.
  unfold UCF101.int, Qle. cbn. intros H.
  apply Z.quot_pos; lia.
Qed.

Lemma ucf_init_consistent dataset_size seq_files input_seq_length
    target_seq_length image_scale_factor gray_scale
    serialized_sequence_length double_with_flipped crop_size
    repetitions_per_epoche skip_less_movement self :
  0 <= input_seq_length -> 0 <= target_seq_length ->
  (0 <= image_scale_factor)%Q ->
  (forall crop_h crop_w, crop_size = Some (crop_h, crop_w) ->
     0 <= crop_h /\ 0 <= crop_w) ->
  UCF101.__init__ dataset_size seq_files input_seq_length target_seq_length
    image_scale_factor gray_scale serialized_sequence_length
    double_with_flipped crop_size repetitions_per_epoche skip_less_movement
    = Ok self ->
  ucf_consistent self.
Proof.
  intros Hin Htg Hscale Hcrop. unfold UCF101.__init__.
  destruct (negb _); [discriminate|].
  assert (Hh : 0 <= UCF101.int (inject_Z UCF101.FRAME_HEIGHT
                                 * image_scale_factor)).
  { apply int_nonneg. apply Qmult_le_0_compat; [discriminate|exact Hscale]. }
  assert (Hw : 0 <= UCF101.int (inject_Z UCF101.FRAME_WIDTH
                                 * image_scale_factor)).
  { apply int_nonneg. apply Qmult_le_0_compat; [discriminate|exact Hscale]. }
  destruct crop_size as [[ch cw]|].
  - destruct (Hcrop ch cw eq_refl) as [Hch Hcw].
    intros [= <-]. exists input_seq_length, target_seq_length.
    unfold ucf_frame_dims. cbn. repeat split; assumption.
  - intros [= <-]. exists input_seq_length, target_seq_length.
    unfold ucf_frame_dims. cbn. repeat split; assumption.
Qed.

Lemma ucf_get_batch_consistent read_as_binary self batch_size g
    inputs targets self' g' :
  ucf_consistent self ->
  UCF101.get_batch read_as_binary self batch_size g
    = Ok ((inputs, targets, self'), g') ->
  ucf_consistent self'.
Proof.
  intros Hcons Hrun. unfold UCF101.get_batch in Hrun.
  apply bind_M_inv in Hrun as ([self1 window] & g1 & Hsel & Hrun).
  apply select_indices_inv in Hsel as (_ & row & indices & ->).
  cbn beta iota in Hrun.
  apply bind_M_inv in Hrun as (file_names & g2 & _ & Hrun).
  apply bind_M_inv in Hrun as (items & g3 & _ & Hrun).
  apply bind_M_inv in Hrun as (raw_i & g4 & _ & Hrun).
  apply bind_M_inv in Hrun as (raw_t & g5 & _ & Hrun).
  apply ret_M_inv in Hrun as [[= _ _ ->] _]. exact Hcons.
Qed.

(** C1: whenever [get_batch] of a Ms. Pac-Man dataset or of a UCF-101
    evaluation dataset returns, [inputs] has shape
    [[batch_size] + input_shape] and [targets] has shape
    [[batch_size] + target_shape]; both are the quotients by 255 of
    arrays of [uint8] pixels, so every entry lies in [0, 1]. *)
Theorem get_batch_contract :
  (forall image_read path_join self batch_size g inputs targets self' g',
     pacman_consistent self -> frames_stored image_read ->
     MsPacman.get_batch image_read path_join self batch_size g
       = Ok ((inputs, targets, self'), g') ->
     (exists raw_inputs raw_targets,
        inputs = div_batch 255 raw_inputs /\
        targets = div_batch 255 raw_targets /\
        array_of uint8 batch_size (MsPacman.input_shape self) raw_inputs /\
        array_of uint8 batch_size (MsPacman.target_shape self) raw_targets)
     /\ array_of unit_interval batch_size (MsPacman.input_shape self) inputs
     /\ array_of unit_interval batch_size (MsPacman.target_shape self)
          targets) /\
  (forall read_as_binary self batch_size g inputs targets self' g',
     ucf_consistent self -> bytes_stored read_as_binary ->
     UCF101.get_batch read_as_binary self batch_size g
       = Ok ((inputs, targets, self'), g') ->
     (exists raw_inputs raw_targets,
        inputs = div_batch 255 raw_inputs /\
        targets = div_batch 255 raw_targets /\
        array_of uint8 batch_size (UCF101.input_shape self) raw_inputs /\
        array_of uint8 batch_size (UCF101.target_shape self) raw_targets)
     /\ array_of unit_interval batch_size (UCF101.input_shape self) inputs
     /\ array_of unit_interval batch_size (UCF101.target_shape self)
          targets).
Proof.
  split.
  - intros image_read path_join self batch_size g inputs targets self' g'
      Hcons Hstored Hrun.
    destruct (pacman_get_batch_contract _ _ _ _ _ _ _ _ _ Hcons Hstored Hrun)
      as (raw_i & raw_t & -> & -> & Hi & Ht).
    split; [eauto 6|]. split; apply div_batch_array; assumption.
  - intros read_as_binary self batch_size g inputs targets self' g'
      Hcons Hbytes Hrun.
    destruct (ucf_get_batch_contract _ _ _ _ _ _ _ _ Hcons Hbytes Hrun)
      as (raw_i & raw_t & -> & -> & Hi & Ht).
    split; [eauto 6|]. split; apply div_batch_array; assumption.
Qed.

Lemma pacman_sample_read_stored : frames_stored pacman_sample_read.
Proof.
  intros path frame [= <-]. unfold plain, image_of.
  change 210%nat with (Z.to_nat MsPacman.FRAME_HEIGHT).
  change 160%nat with (Z.to_nat MsPacman.FRAME_WIDTH).
  change 3%nat with (Z.to_nat MsPacman.FRAME_CHANNELS).
  repeat (apply rows_replicate; [discriminate|]).
  unfold uint8.
  assert (H := Z.mod_pos_bound (Z.of_nat (String.length path) * 10) 256).
  lia.
Qed.

Lemma uint8_mod (x : Z) : uint8 (x mod 256).
Proof. unfold uint8. assert (H := Z.mod_pos_bound x 256). lia. Qed.

Lemma ucf_sample_file_stored : bytes_stored ucf_sample_file.
Proof.
  intros f flat Hf. unfold ucf_sample_file in Hf.
  assert (Hflat : flat = (fun k => Z.of_nat (k * k + String.length f)
                                   mod 256) <$> seq 0 24)
    by congruence.
  rewrite Hflat. apply Forall_fmap, Forall_forall. intros k _.
  apply uint8_mod.
Qed.

Lemma get_batch_contract_witness :
  (exists inputs targets self' g',
     MsPacman.get_batch pacman_sample_read pacman_sample_join
       pacman_sample_ungated 1 sample_rng = Ok ((inputs, targets, self'), g')
     /\ array_of unit_interval 1 (2, 2, 3, 3) inputs
     /\ array_of unit_interval 1 (1, 2, 3, 3) targets) /\
  (exists inputs targets self' g',
     UCF101.get_batch ucf_sample_file ucf_sample 2 sample_rng
       = Ok ((inputs, targets, self'), g')
     /\ array_of unit_interval 2 (2, 1, 2, 1) inputs
     /\ array_of unit_interval 2 (1, 1, 2, 1) targets).
Proof.
  split.
  - destruct (MsPacman.get_batch pacman_sample_read pacman_sample_join
                pacman_sample_ungated 1 sample_rng)
      as [[[[inputs targets] self'] g']|e] eqn:Hrun.
    + exists inputs, targets, self', g'. split; [reflexivity|].
      apply (proj1 get_batch_contract) in Hrun.
      * exact (proj2 Hrun).
      * split; reflexivity.
      * exact pacman_sample_read_stored.
    + vm_compute in Hrun. discriminate.
  - destruct (UCF101.get_batch ucf_sample_file ucf_sample 2 sample_rng)
      as [[[[inputs targets] self'] g']|e] eqn:Hrun.
    + exists inputs, targets, self', g'. split; [reflexivity|].
      apply (proj2 get_batch_contract) in Hrun.
      * exact (proj2 Hrun).
      * exists 2, 1. cbn. repeat split; lia.
      * exact ucf_sample_file_stored.
    + vm_compute in Hrun. discriminate.
Defined.

(** * Further properties of the samplers *)

(** ** Shuffling *)

Lemma insert_swap_head {A} `{!Inhabited A} (a : A) (l : list A) (j : nat) :
  (j < length l)%nat -> (l !!! j) :: <[j := a]> l ≡ₚ a :: l.
Proof.
  revert j. induction l as [|b l IH]; intros j Hj; [cbn in Hj; lia|].
  destruct j as [|j]; cbn.
  - apply perm_swap.
  - etrans; [apply perm_swap|]. etrans; [|apply perm_swap].
    f_equiv. apply IH. cbn in Hj. lia.
Qed.

(** [x[i], x[j] = x[j], x[i]] permutes [x]. *)
Lemma swap_Permutation {A} `{!Inhabited A} (x : list A) (i j : nat) :
  (i < length x)%nat -> (j < length x)%nat ->
  <[j := x !!! i]> (<[i := x !!! j]> x) ≡ₚ x.
Proof.
  revert i j. induction x as [|a x IH]; intros i j Hi Hj; [cbn in Hi; lia|].
  destruct i as [|i], j as [|j]; cbn in *.
  - reflexivity.
  - apply insert_swap_head. lia.
  - apply insert_swap_head. lia.
  - f_equiv. apply IH; lia.
Qed.

Lemma shuffle_loop_Permutation todo x g y g' :
  Forall (fun i => 0 <= i < Z.of_nat (length x)) todo ->
  shuffle_loop todo x g = Ok (y, g') -> y ≡ₚ x.
Proof.
  revert x g. induction todo as [|i todo IH]; intros x g Htodo Hrun.
  - apply ret_M_inv in Hrun as [-> _]. reflexivity.
  - cbn [shuffle_loop] in Hrun.
    apply bind_M_inv in Hrun as (r & g1 & Hr & Hrun).
    assert (Hi := Forall_inv Htodo). apply Forall_inv_tail in Htodo.
    cbn beta in Hi.
    assert (Hj := Z.mod_pos_bound r (i + 1) ltac:(lia)).
    apply IH in Hrun.
    + rewrite Hrun. apply swap_Permutation; lia.
    + rewrite !length_insert. exact Htodo.
Qed.

Lemma np_random_shuffle_Permutation x g :
  exists y g', np_random_shuffle x g = Ok (y, g') /\ y ≡ₚ x.
Proof.
  unfold np_random_shuffle.
  destruct (shuffle_loop_ok (reverse (xrange 1 (Z.of_nat (length x)))) x g)
    as (y & g' & Hrun & _).
  exists y, g'. split; [exact Hrun|].
  eapply shuffle_loop_Permutation; [|exact Hrun].
  apply Forall_reverse, Forall_forall. intros i Hi.
  apply list_elem_of_In, elem_of_xrange in Hi. lia.
Qed.

(** X1: [reset] of a UCF-101 evaluation dataset always returns; it puts
    the row cursor at [0], leaves a permutation of the indices it found
    and touches no other field. *)
Theorem ucf_reset_permutes (self : UCF101.Dataset) (g : rng) :
  exists indices g',
    UCF101.reset self g = Ok (UCF101.set_cursor self 0 indices, g') /\
    indices ≡ₚ UCF101._indices self /\
    UCF101._row (UCF101.set_cursor self 0 indices) = 0.
Proof.
  destruct (np_random_shuffle_Permutation (UCF101._indices self) g)
    as (y & g' & Hrun & Hperm).
  exists y, g'. split; [|split; [exact Hperm|reflexivity]].
  unfold UCF101.reset. rewrite (bind_M_ok _ _ _ _ _ Hrun). reflexivity.
Qed.

(** ** The cursor of a UCF-101 evaluation dataset *)

Lemma select_indices_cases self batch_size g self1 window g1 :
  UCF101.select_indices self batch_size g = Ok ((self1, window), g1) ->
  let N := UCF101.real_dataset_size self in
  exists row1 indices1,
    self1 = UCF101.set_cursor self row1 indices1 /\
    indices1 ≡ₚ UCF101._indices self /\
    row1 = (if UCF101._row self + batch_size >=? UCF101.size self
            then 0 else UCF101._row self) /\
    (UCF101._row self + batch_size < UCF101.size self ->
     indices1 = UCF101._indices self /\ g1 = g) /\
    N <> 0 /\
    window = UCF101.ind_range indices1 (row1 mod N)
               ((row1 mod N + batch_size) mod N) /\
    Z.of_nat (length window) = batch_size.
Proof.
  intros Hrun N. unfold UCF101.select_indices in Hrun.
  apply bind_M_inv in Hrun as (self0 & g0 & Hreset & Hrun).
  assert (Hself0 : exists row1 indices1,
    self0 = UCF101.set_cursor self row1 indices1 /\
    indices1 ≡ₚ UCF101._indices self /\
    row1 = (if UCF101._row self + batch_size >=? UCF101.size self
            then 0 else UCF101._row self) /\
    (UCF101._row self + batch_size < UCF101.size self ->
     indices1 = UCF101._indices self /\ g0 = g)).
  { destruct (Z.geb_spec (UCF101._row self + batch_size) (UCF101.size self)).
    - destruct (np_random_shuffle_Permutation (UCF101._indices self) g)
        as (y & g' & Hy & Hperm).
      unfold UCF101.reset in Hreset.
      rewrite (bind_M_ok _ _ _ _ _ Hy) in Hreset.
      apply ret_M_inv in Hreset as [-> ->].
      exists 0, y. repeat split; try assumption; lia.
    - apply ret_M_inv in Hreset as [-> ->].
      exists (UCF101._row self), (UCF101._indices self).
      split; [symmetry; apply set_cursor_same|].
      split; [reflexivity|]. split; [reflexivity|].
      intros _. split; reflexivity. }
  destruct Hself0 as (row1 & indices1 & -> & Hperm & Hrow & Hsame).
  cbn [UCF101._row UCF101._indices UCF101.set_cursor] in Hrun.
  fold N in Hrun. unfold py_mod in Hrun.
  destruct (Z.eqb_spec N 0) as [|HN]; [discriminate|].
  apply bind_M_inv in Hrun as (start & g2 & Hstart & Hrun).
  apply lift_inv in Hstart as [[= <-] ->].
  apply bind_M_inv in Hrun as (end_ & g3 & Hend & Hrun).
  apply lift_inv in Hend as [[= <-] ->].
  destruct (Z.eqb_spec (Z.of_nat (length (UCF101.ind_range indices1
              (row1 mod N) ((row1 mod N + batch_size) mod N)))) batch_size)
    as [Hlen|]; [|discriminate].
  cbn [negb] in Hrun. apply ret_M_inv in Hrun as [[= -> ->] ->].
  exists row1, indices1. repeat split; try assumption.
  - apply Hsame. assumption.
  - apply Hsame. assumption.
Qed.

(** C4: [get_batch] first resets the dataset when [row + batch_size]
    reaches the inflated size (cursor [0] and the shuffled permutation)
    and leaves it as it is otherwise; then, with [start = row mod N] and
    [end = (start + batch_size) mod N] for the cursor and the permutation
    of that state, the window is [indices[start:] + indices[:end]] when
    [start > end] and [indices[start:end]] otherwise; for
    [0 < batch_size < N] no slice is clipped, the window has [batch_size]
    entries, and the assertion on its length passes. *)
Theorem select_indices_window (self : UCF101.Dataset) (batch_size : Z)
    (g : rng) :
  let N := UCF101.real_dataset_size self in
  0 < N -> Z.of_nat (length (UCF101._indices self)) = N ->
  0 < batch_size < N ->
  exists self' window g',
    UCF101.select_indices self batch_size g = Ok ((self', window), g') /\
    Z.of_nat (length window) = batch_size /\
    let start := UCF101._row self' mod N in
    let end_ := (start + batch_size) mod N in
    window = UCF101.ind_range (UCF101._indices self') start end_ /\
    (window =
      if start >? end_
      then drop (Z.to_nat start) (UCF101._indices self')
           ++ take (Z.to_nat end_) (UCF101._indices self')
      else take (Z.to_nat (end_ - start))
             (drop (Z.to_nat start) (UCF101._indices self'))) /\
    (if UCF101._row self + batch_size >=? UCF101.size self
     then UCF101.reset self else mret self) g = Ok (self', g') /\
    self' = UCF101.set_cursor self
              (if UCF101._row self + batch_size >=? UCF101.size self
               then 0 else UCF101._row self)
              (UCF101._indices self') /\
    UCF101._indices self' ≡ₚ UCF101._indices self /\
    (UCF101._row self + batch_size < UCF101.size self ->
     self' = self /\ g' = g) /\
    (UCF101._row self + batch_size >= UCF101.size self ->
     np_random_shuffle (UCF101._indices self) g
       = Ok (UCF101._indices self', g')).
Proof.
  intros N HN Hlen Hbs.
  assert (Hstep : exists self1 g1,
    (if UCF101._row self + batch_size >=? UCF101.size self
     then UCF101.reset self else mret self) g = Ok (self1, g1) /\
    UCF101.real_dataset_size self1 = N /\
    Z.of_nat (length (UCF101._indices self1)) = N /\
    self1 = UCF101.set_cursor self
              (if UCF101._row self + batch_size >=? UCF101.size self
               then 0 else UCF101._row self)
              (UCF101._indices self1) /\
    UCF101._indices self1 ≡ₚ UCF101._indices self /\
    (UCF101._row self + batch_size < UCF101.size self ->
     self1 = self /\ g1 = g) /\
    (UCF101._row self + batch_size >= UCF101.size self ->
     np_random_shuffle (UCF101._indices self) g
       = Ok (UCF101._indices self1, g1))).
  { destruct (Z.geb_spec (UCF101._row self + batch_size) (UCF101.size self))
      as [Hge|Hlt].
    - destruct (np_random_shuffle_Permutation (UCF101._indices self) g)
        as (y & g1 & Hy & Hperm).
      exists (UCF101.set_cursor self 0 y), g1.
      split; [unfold UCF101.reset; rewrite (bind_M_ok _ _ _ _ _ Hy);
              reflexivity|].
      split; [reflexivity|].
      split; [cbn; rewrite (Permutation_length Hperm); exact Hlen|].
      split; [reflexivity|]. split; [exact Hperm|].
      split; [intros H; lia|]. intros _. exact Hy.
    - exists self, g. split; [reflexivity|]. split; [reflexivity|].
      split; [exact Hlen|].
      split; [symmetry; apply set_cursor_same|].
      split; [reflexivity|]. split; [intros _; split; reflexivity|].
      intros H. lia. }
  destruct Hstep as (self1 & g1 & Hstep & HN1 & Hlen1 & Hrest).
  destruct (ind_range_exact (UCF101._indices self1) N (UCF101._row self1)
              batch_size HN Hlen1 Hbs) as [Hw1 Hw2].
  exists self1, (UCF101.ind_range (UCF101._indices self1)
                   (UCF101._row self1 mod N)
                   ((UCF101._row self1 mod N + batch_size) mod N)), g1.
  split; [|split; [exact Hw1|split; [reflexivity|split; [exact Hw2|]]]].
  - unfold UCF101.select_indices. unfold mbind at 1. unfold M_bind.
    rewrite Hstep. fold N. unfold py_mod.
    destruct (Z.eqb_spec N 0) as [|_]; [lia|].
    unfold mbind, M_bind, lift. rewrite Hw1, Z.eqb_refl. reflexivity.
  - split; [exact Hstep|exact Hrest].
Qed.

Lemma select_indices_window_witness :
  exists self' window g',
    UCF101.select_indices ucf_sample 3 sample_rng = Ok ((self', window), g')
    /\ Z.of_nat (length window) = 3
    /\ window = [1; 2; 3].
Proof.
  destruct (select_indices_window ucf_sample 3 sample_rng)
    as (self' & window & g' & Hrun & Hlen & _ & _);
    [cbn; lia | reflexivity | cbn; lia |].
  exists self', window, g'. split; [exact Hrun|]. split; [exact Hlen|].
  vm_compute in Hrun. injection Hrun as <- <- <-. reflexivity.
Defined.

(** The window never has more than [N - 1] entries. *)
Lemma ind_range_short (indices : list Z) (N start end_ : Z) :
  0 < N -> Z.of_nat (length indices) = N ->
  0 <= start < N -> 0 <= end_ < N ->
  Z.of_nat (length (UCF101.ind_range indices start end_)) < N.
Proof.
  intros HN Hlen Hs He. unfold UCF101.ind_range.
  destruct (Z.gtb_spec start end_).
  - rewrite py_slice_from_exact, py_slice_to_exact by lia.
    rewrite length_app, length_drop, length_take. lia.
  - rewrite py_slice_exact by lia.
    rewrite length_take, length_drop. lia.
Qed.

(** X2: a batch as large as the true size, or larger, or of negative
    size, is refused by the assertion on the window length, also right
    after the reset at the end of an epoch; an empty batch passes the
    assertion and fails in [np.stack]. *)
Theorem ucf_get_batch_rejects read_as_binary (self : UCF101.Dataset)
    (batch_size : Z) (g : rng) :
  let N := UCF101.real_dataset_size self in
  0 < N -> Z.of_nat (length (UCF101._indices self)) = N ->
  (N <= batch_size \/ batch_size < 0 ->
   UCF101.select_indices self batch_size g = Raise AssertionError /\
   UCF101.get_batch read_as_binary self batch_size g
     = Raise AssertionError) /\
  (batch_size = 0 ->
   UCF101.get_batch read_as_binary self batch_size g = Raise ValueError).
Proof.
  intros N HN Hlen.
  assert (Hstep : exists self1 g1,
    (if UCF101._row self + batch_size >=? UCF101.size self
     then UCF101.reset self else mret self) g = Ok (self1, g1) /\
    Z.of_nat (length (UCF101._indices self1)) = N).
  { destruct (_ >=? _).
    - destruct (reset_ok self g) as (ind & g1 & Hr & Hl).
      eexists _, g1. split; [exact Hr|]. cbn. lia.
    - exists self, g. split; [reflexivity|assumption]. }
  destruct Hstep as (self1 & g1 & Hstep & Hlen1).
  assert (Hs : 0 <= UCF101._row self1 mod N < N)
    by (apply Z.mod_pos_bound; lia).
  assert (He : 0 <= (UCF101._row self1 mod N + batch_size) mod N < N)
    by (apply Z.mod_pos_bound; lia).
  assert (Hselect : UCF101.select_indices self batch_size g =
    if negb (Z.of_nat (length (UCF101.ind_range (UCF101._indices self1)
               (UCF101._row self1 mod N)
               ((UCF101._row self1 mod N + batch_size) mod N)))
             =? batch_size)
    then Raise AssertionError
    else Ok (self1, UCF101.ind_range (UCF101._indices self1)
               (UCF101._row self1 mod N)
               ((UCF101._row self1 mod N + batch_size) mod N), g1)).
  { unfold UCF101.select_indices. rewrite (bind_M_ok _ _ _ _ _ Hstep).
    fold N. unfold py_mod. destruct (Z.eqb_spec N 0); [lia|].
    unfold mbind, M_bind, lift. destruct (negb _); reflexivity. }
  split.
  - intros Hbad.
    assert (Hshort := ind_range_short (UCF101._indices self1) N _ _
                        HN Hlen1 Hs He).
    destruct (Z.eqb_spec (Z.of_nat (length (UCF101.ind_range
                (UCF101._indices self1) (UCF101._row self1 mod N)
                ((UCF101._row self1 mod N + batch_size) mod N))))
                batch_size) as [Heq|_]; [lia|].
    cbn [negb] in Hselect. split; [exact Hselect|].
    unfold UCF101.get_batch. rewrite bind_M_eq, Hselect. reflexivity.
  - intros ->.
    replace ((UCF101._row self1 mod N + 0) mod N)
      with (UCF101._row self1 mod N) in Hselect
      by (rewrite Z.add_0_r, Z.mod_mod; lia).
    assert (Hw : UCF101.ind_range (UCF101._indices self1)
                   (UCF101._row self1 mod N) (UCF101._row self1 mod N) = []).
    { unfold UCF101.ind_range. rewrite Z.gtb_ltb, Z.ltb_irrefl.
      rewrite py_slice_exact by lia. rewrite Z.sub_diag. reflexivity. }
    rewrite Hw in Hselect. cbn in Hselect.
    unfold UCF101.get_batch. rewrite (bind_M_ok _ _ _ _ _ Hselect).
    reflexivity.
Qed.

Lemma ucf_get_batch_rejects_witness :
  UCF101.get_batch ucf_sample_file ucf_sample 5 sample_rng
    = Raise AssertionError /\
  UCF101.get_batch ucf_sample_file ucf_sample 0 sample_rng
    = Raise ValueError.
Proof.
  destruct (ucf_get_batch_rejects ucf_sample_file ucf_sample 5 sample_rng)
    as [Hbad _]; [cbn; lia|reflexivity|].
  destruct (ucf_get_batch_rejects ucf_sample_file ucf_sample 0 sample_rng)
    as [_ Hzero]; [cbn; lia|reflexivity|].
  split; [apply Hbad; left; cbn; lia|apply Hzero; reflexivity].
Defined.

(** X3: when [get_batch] of a UCF-101 evaluation dataset returns, the
    batch size lies strictly between [0] and the true size, the row cursor
    has advanced by the batch size from where the call started (or from
    [0] after the reset at the end of the inflated size), the indices are a
    permutation of the old ones (the same list without a reset), and no
    other field has changed. *)
Theorem ucf_get_batch_cursor read_as_binary (self : UCF101.Dataset)
    (batch_size : Z) (g : rng) inputs targets self' g' :
  Z.of_nat (length (UCF101._indices self)) = UCF101.real_dataset_size self ->
  UCF101.get_batch read_as_binary self batch_size g
    = Ok ((inputs, targets, self'), g') ->
  0 < batch_size < UCF101.real_dataset_size self /\
  UCF101._row self' =
    (if UCF101._row self + batch_size >=? UCF101.size self
     then 0 else UCF101._row self) + batch_size /\
  UCF101._indices self' ≡ₚ UCF101._indices self /\
  (UCF101._row self + batch_size < UCF101.size self ->
   UCF101._indices self' = UCF101._indices self) /\
  self' = UCF101.set_cursor self (UCF101._row self') (UCF101._indices self').
Proof.
  intros Hlen Hrun. unfold UCF101.get_batch in Hrun.
  apply bind_M_inv in Hrun as ([self1 window] & g1 & Hsel & Hrun).
  apply select_indices_cases in Hsel
    as (row1 & indices1 & -> & Hperm & Hrow & Hsame & HN & Hw & Hwlen).
  cbn beta iota in Hrun.
  apply bind_M_inv in Hrun as (file_names & g2 & Hnames & Hrun).
  apply lift_inv in Hnames as [Hnames ->].
  apply (forM_result_rows _ (fun _ => True)) in Hnames as [Hnames _];
    [|auto].
  apply bind_M_inv in Hrun as (items & g3 & Hitems & Hrun).
  apply (forM_M_rows _ (fun _ => True)) in Hitems as [Hitems _]; [|auto].
  apply bind_M_inv in Hrun as (raw_i & g4 & Hsi & Hrun).
  apply lift_inv in Hsi as [Hsi ->].
  apply bind_M_inv in Hrun as (raw_t & g5 & _ & Hrun).
  apply ret_M_inv in Hrun as [[= _ _ ->] _].
  cbn [UCF101._row UCF101._indices UCF101.set_cursor].
  assert (Hitems_len : Z.of_nat (length items) = batch_size).
  { rewrite Hitems, length_zip, length_xrange. lia. }
  assert (Hpos : 0 < batch_size).
  { destruct items as [|item items]; [discriminate|]. cbn in Hitems_len.
    lia. }
  assert (HNpos : 0 < UCF101.real_dataset_size self) by lia.
  assert (Hlen1 : Z.of_nat (length indices1) = UCF101.real_dataset_size self)
    by (rewrite Hperm; exact Hlen).
  assert (Hshort := ind_range_short indices1 (UCF101.real_dataset_size self)
    (row1 mod UCF101.real_dataset_size self)
    ((row1 mod UCF101.real_dataset_size self + batch_size)
       mod UCF101.real_dataset_size self) HNpos Hlen1
    ltac:(apply Z.mod_pos_bound; lia) ltac:(apply Z.mod_pos_bound; lia)).
  rewrite <- Hw, Hwlen in Hshort.
  split; [lia|]. split; [rewrite Hrow; reflexivity|].
  split; [exact Hperm|]. split; [|reflexivity].
  intros Hno. apply Hsame. exact Hno.
Qed.

Lemma ucf_get_batch_cursor_witness :
  exists inputs targets self' g',
    UCF101.get_batch ucf_sample_file ucf_sample 2 sample_rng
      = Ok ((inputs, targets, self'), g') /\
    UCF101._row self' = 5 /\
    UCF101._indices self' = [3; 0; 4; 1; 2].
Proof.
  destruct (UCF101.get_batch ucf_sample_file ucf_sample 2 sample_rng)
    as [[[[inputs targets] self'] g']|e] eqn:Hrun.
  - exists inputs, targets, self', g'. split; [reflexivity|].
    apply ucf_get_batch_cursor in Hrun as (_ & Hrow & _ & Hind & _);
      [|reflexivity].
    split; [exact Hrow|]. apply Hind. cbn. lia.
  - vm_compute in Hrun. discriminate.
Defined.

Lemma ind_range_submseteq (indices : list Z) (start end_ : Z) :
  0 <= start <= Z.of_nat (length indices) ->
  0 <= end_ <= Z.of_nat (length indices) ->
  UCF101.ind_range indices start end_ ⊆+ indices.
Proof.
  intros Hs He. unfold UCF101.ind_range.
  destruct (Z.gtb_spec start end_).
  - rewrite py_slice_from_exact, py_slice_to_exact by lia.
    rewrite <- (take_drop (Z.to_nat end_) indices) at 3.
    rewrite (Permutation_app_comm (take _ _) (drop _ _)).
    apply submseteq_app; [|reflexivity].
    replace (Z.to_nat start)
      with (Z.to_nat end_ + (Z.to_nat start - Z.to_nat end_))%nat by lia.
    rewrite <- drop_drop. apply submseteq_drop.
  - rewrite py_slice_exact by lia.
    etrans; [apply submseteq_take|apply submseteq_drop].
Qed.

Lemma submseteq_NoDup {A} (l k : list A) : l ⊆+ k -> NoDup k -> NoDup l.
Proof.
  intros Hsub Hk. apply submseteq_Permutation in Hsub as (k' & Hperm).
  rewrite Hperm in Hk.
  apply list.NoDup_app in Hk as (Hl & _). exact Hl.
Qed.

(** X4: the window of indices [get_batch] selects is made of entries of
    the permutation, each at most as often as the permutation has it: on a
    permutation without repeats no sequence file occurs twice in a
    batch. *)
Theorem ucf_window_distinct (self : UCF101.Dataset) (batch_size : Z)
    (g : rng) self' window g' :
  Z.of_nat (length (UCF101._indices self)) = UCF101.real_dataset_size self ->
  UCF101.select_indices self batch_size g = Ok ((self', window), g') ->
  window ⊆+ UCF101._indices self' /\
  UCF101._indices self' ≡ₚ UCF101._indices self /\
  (NoDup (UCF101._indices self) -> NoDup window).
Proof.
  intros Hlen Hsel.
  apply select_indices_cases in Hsel
    as (row1 & indices1 & -> & Hperm & _ & _ & HN & -> & _).
  cbn [UCF101._indices UCF101.set_cursor].
  assert (Hlen1 : Z.of_nat (length indices1) = UCF101.real_dataset_size self)
    by (rewrite Hperm; exact Hlen).
  assert (Hsub : UCF101.ind_range indices1
            (row1 mod UCF101.real_dataset_size self)
            ((row1 mod UCF101.real_dataset_size self + batch_size)
               mod UCF101.real_dataset_size self) ⊆+ indices1).
  { assert (H1 := Z.mod_pos_bound row1 (UCF101.real_dataset_size self)
                    ltac:(lia)).
    assert (H2 := Z.mod_pos_bound
                    (row1 mod UCF101.real_dataset_size self + batch_size)
                    (UCF101.real_dataset_size self) ltac:(lia)).
    apply ind_range_submseteq; lia. }
  split; [exact Hsub|]. split; [exact Hperm|].
  intros Hnd. eapply submseteq_NoDup; [exact Hsub|].
  rewrite Hperm. exact Hnd.
Qed.

Lemma ucf_window_distinct_witness :
  exists self' window g',
    UCF101.select_indices ucf_sample 3 sample_rng = Ok ((self', window), g')
    /\ NoDup window.
Proof.
  destruct (UCF101.select_indices ucf_sample 3 sample_rng)
    as [[[self' window] g']|e] eqn:Hrun.
  - exists self', window, g'. split; [reflexivity|].
    apply ucf_window_distinct in Hrun as (_ & _ & Hnd); [|reflexivity].
    apply Hnd. cbn.
    repeat (apply NoDup_cons_2;
      [rewrite ?elem_of_cons, elem_of_nil; lia|]).
    apply NoDup_nil_2.
  - vm_compute in Hrun. discriminate.
Defined.

(** ** The doubling policy over two passes *)

Lemma flip_decision_eq (N v : Z) :
  UCF101.flip_decision N v = if v <? N then Z.even v else Z.odd v.
Proof.
  unfold UCF101.flip_decision.
  rewrite Z.geb_leb, Zeven_mod, Zodd_mod.
  destruct (Z.ltb_spec v N), (Z.leb_spec N v);
    try lia; cbn; rewrite ?orb_false_r; reflexivity.
Qed.

(** X5: with an even true size the item at virtual row [v] of the first
    pass and the one at [v + N] of the second pass get opposite flip
    decisions, so every index is served once flipped and once unflipped;
    with an odd true size the two decisions are equal. *)
Theorem flip_decision_second_pass (N v : Z) :
  0 <= v < N ->
  (Z.even N = true ->
   UCF101.flip_decision N (v + N) = negb (UCF101.flip_decision N v)) /\
  (Z.odd N = true ->
   UCF101.flip_decision N (v + N) = UCF101.flip_decision N v).
Proof.
  intros Hv. rewrite !flip_decision_eq.
  destruct (Z.ltb_spec (v + N) N); [lia|].
  destruct (Z.ltb_spec v N); [|lia].
  rewrite Z.odd_add, <- !Z.negb_even. split; intros HN.
  - rewrite HN. destruct (Z.even v); reflexivity.
  - apply negb_true_iff in HN. rewrite HN.
    destruct (Z.even v); reflexivity.
Qed.

Lemma flip_decision_second_pass_witness :
  UCF101.flip_decision 5 (2 + 5) = UCF101.flip_decision 5 2 /\
  UCF101.flip_decision 4 (1 + 4) = negb (UCF101.flip_decision 4 1).
Proof.
  split.
  - apply (flip_decision_second_pass 5 2); [lia|reflexivity].
  - apply (flip_decision_second_pass 4 1); [lia|reflexivity].
Defined.

(** ** Consecutive batches *)

(** The window is a stretch of the permutation read cyclically. *)
Lemma ind_range_cyclic (indices : list Z) (N start bs : Z) :
  0 < N -> Z.of_nat (length indices) = N ->
  0 <= start < N -> 0 <= bs < N ->
  UCF101.ind_range indices start ((start + bs) mod N) =
  take (Z.to_nat bs)
    (drop (Z.to_nat start) (indices ++ indices ++ indices)).
Proof.
  intros HN Hlen Hs Hb.
  rewrite drop_app_le by lia.
  unfold UCF101.ind_range.
  destruct (Z_lt_dec (start + bs) N) as [Hlt|Hge].
  - rewrite Z.mod_small by lia.
    destruct (Z.gtb_spec start (start + bs)); [lia|].
    rewrite py_slice_exact by lia.
    rewrite take_app_le by (rewrite length_drop; lia).
    f_equal. lia.
  - replace (start + bs) with (start + bs - N + 1 * N) by lia.
    rewrite Z_mod_plus_full, Z.mod_small by lia.
    destruct (Z.gtb_spec start (start + bs - N)); [|lia].
    rewrite py_slice_from_exact, py_slice_to_exact by lia.
    rewrite take_app_ge by (rewrite length_drop; lia).
    f_equal. rewrite take_app_le by (rewrite length_drop; lia).
    f_equal. rewrite length_drop. lia.
Qed.

Lemma cyclic_stretch_app {A} (l : list A) (s a b : nat) :
  (s < length l)%nat -> (a < length l)%nat -> (b < length l)%nat ->
  let s2 := if decide (s + a < length l)%nat
            then (s + a)%nat else (s + a - length l)%nat in
  take a (drop s (l ++ l ++ l)) ++ take b (drop s2 (l ++ l ++ l)) =
  take (a + b) (drop s (l ++ l ++ l)).
Proof.
  intros Hs Ha Hb s2.
  rewrite <- take_take_drop, drop_drop. f_equal.
  unfold s2. destruct (decide (s + a < length l)%nat) as [|Hge];
    [reflexivity|].
  rewrite (drop_app_ge l _ (s + a)) by lia.
  rewrite (app_assoc l l l).
  rewrite (drop_app_le (l ++ l)) by (rewrite length_app; lia).
  rewrite take_app_le; [reflexivity|].
  rewrite length_drop, length_app. lia.
Qed.

Lemma cyclic_stretch_submseteq {A} (l : list A) (s n : nat) :
  (s <= length l)%nat -> (n <= length l)%nat ->
  take n (drop s (l ++ l ++ l)) ⊆+ l.
Proof.
  intros Hs Hn. rewrite drop_app_le by lia.
  destruct (decide (n <= length l - s)%nat) as [Hle|Hgt].
  - rewrite take_app_le by (rewrite length_drop; lia).
    etrans; [apply submseteq_take|apply submseteq_drop].
  - rewrite take_app_ge by (rewrite length_drop; lia).
    rewrite take_app_le by (rewrite length_drop; lia).
    rewrite <- (take_drop s l) at 4.
    rewrite (Permutation_app_comm (take s l) (drop s l)).
    apply submseteq_app; [reflexivity|].
    rewrite length_drop.
    replace (take (n - (length l - s)) l)
      with (take (n - (length l - s)) (take s l))
      by (rewrite take_take; f_equal; lia).
    apply submseteq_take.
Qed.

(** X6: two consecutive batches of a UCF-101 evaluation dataset, with no
    reset before the second, walk through the permutation without a gap:
    their index windows together are the stretch of [a + b] entries that
    starts at the first window's start, read cyclically; when the two
    batches together do not exceed the true size and the indices have no
    repeats, no sequence file is served twice by the two. *)
Theorem ucf_consecutive_windows (self : UCF101.Dataset) (a b : Z) (g : rng)
    self1 w1 g1 self2 w2 g2 :
  let N := UCF101.real_dataset_size self in
  Z.of_nat (length (UCF101._indices self)) = N ->
  UCF101.select_indices self a g = Ok ((self1, w1), g1) ->
  UCF101.select_indices
    (UCF101.set_cursor self1 (UCF101._row self1 + a) (UCF101._indices self1))
    b g1 = Ok ((self2, w2), g2) ->
  UCF101._row self1 + a + b < UCF101.size self ->
  UCF101._indices self2 = UCF101._indices self1 /\
  w1 ++ w2 =
    take (Z.to_nat (a + b))
      (drop (Z.to_nat (UCF101._row self1 mod N))
         (UCF101._indices self1 ++ UCF101._indices self1
            ++ UCF101._indices self1)) /\
  (a + b <= N -> w1 ++ w2 ⊆+ UCF101._indices self1) /\
  (a + b <= N -> NoDup (UCF101._indices self) -> NoDup (w1 ++ w2)).
Proof.
  intros N Hlen Hsel1 Hsel2 Hnoreset.
  apply select_indices_cases in Hsel1
    as (row1 & ind1 & -> & Hperm & _ & _ & HN & Hw1 & Hlen1).
  apply select_indices_cases in Hsel2
    as (row2 & ind2 & -> & _ & Hrow2 & Hsame & _ & Hw2 & Hlen2).
  cbn [UCF101._row UCF101._indices UCF101.set_cursor UCF101.size
       UCF101.real_dataset_size] in *.
  fold N in HN, Hw1, Hw2.
  destruct Hsame as [-> _]; [lia|].
  destruct (Z.geb_spec (row1 + a + b) (UCF101.size self)); [lia|].
  subst row2.
  assert (HNpos : 0 < N) by lia.
  assert (Hl1 : Z.of_nat (length ind1) = N) by (rewrite Hperm; exact Hlen).
  assert (Hs1 := Z.mod_pos_bound row1 N HNpos).
  assert (Hs2 := Z.mod_pos_bound (row1 + a) N HNpos).
  assert (Ha : 0 <= a < N).
  { split; [lia|]. rewrite <- Hlen1, Hw1.
    apply ind_range_short; try assumption. apply Z.mod_pos_bound. lia. }
  assert (Hb : 0 <= b < N).
  { split; [lia|]. rewrite <- Hlen2, Hw2.
    apply ind_range_short; try assumption. apply Z.mod_pos_bound. lia. }
  rewrite (ind_range_cyclic ind1 N (row1 mod N) a) in Hw1 by assumption.
  rewrite (ind_range_cyclic ind1 N ((row1 + a) mod N) b) in Hw2
    by assumption.
  assert (Hstretch : w1 ++ w2 =
    take (Z.to_nat (a + b))
      (drop (Z.to_nat (row1 mod N)) (ind1 ++ ind1 ++ ind1))).
  { rewrite Hw1, Hw2, Z2Nat.inj_add by lia.
    rewrite <- (cyclic_stretch_app ind1 (Z.to_nat (row1 mod N))
                  (Z.to_nat a) (Z.to_nat b)) by lia.
    f_equal. f_equal. f_equal.
    rewrite <- Zplus_mod_idemp_l.
    destruct (decide (Z.to_nat (row1 mod N) + Z.to_nat a < length ind1)%nat).
    - rewrite Z.mod_small by lia. lia.
    - replace (row1 mod N + a) with (row1 mod N + a - N + 1 * N) by lia.
      rewrite Z_mod_plus_full, Z.mod_small by lia. lia. }
  split; [reflexivity|]. split; [exact Hstretch|].
  assert (Hsub : a + b <= N -> w1 ++ w2 ⊆+ ind1).
  { intros Hab. rewrite Hstretch. apply cyclic_stretch_submseteq; lia. }
  split; [exact Hsub|].
  intros Hab Hnd. eapply submseteq_NoDup; [exact (Hsub Hab)|].
  rewrite Hperm. exact Hnd.
Qed.

Lemma ucf_consecutive_windows_witness :
  exists self1 w1 g1 self2 w2 g2,
    UCF101.select_indices ucf_sample 2 sample_rng = Ok ((self1, w1), g1) /\
    UCF101.select_indices
      (UCF101.set_cursor self1 (UCF101._row self1 + 2)
         (UCF101._indices self1)) 2 g1 = Ok ((self2, w2), g2) /\
    w1 ++ w2 ⊆+ UCF101._indices self1.
Proof.
  destruct (UCF101.select_indices ucf_sample 2 sample_rng)
    as [[[self1 w1] g1]|e] eqn:Hrun1; [|vm_compute in Hrun1; discriminate].
  destruct (UCF101.select_indices
              (UCF101.set_cursor self1 (UCF101._row self1 + 2)
                 (UCF101._indices self1)) 2 g1)
    as [[[self2 w2] g2]|e] eqn:Hrun2.
  - exists self1, w1, g1, self2, w2, g2.
    split; [reflexivity|]. split; [exact Hrun2|].
    assert (Hrow : UCF101._row self1 = 3)
      by (vm_compute in Hrun1; injection Hrun1 as <- _ _; reflexivity).
    apply (ucf_consecutive_windows ucf_sample 2 2 sample_rng
             self1 w1 g1 self2 w2 g2 eq_refl Hrun1 Hrun2).
    + rewrite Hrow. cbn. lia.
    + cbn. lia.
  - vm_compute in Hrun1. injection Hrun1 as <- <- <-.
    vm_compute in Hrun2. discriminate.
Defined.

(** ** The crop loop of UCF-101 *)

Lemma ucf_crop_loop_spec (self : UCF101.Dataset) (crop_h crop_w
    inputs_length : Z) (current : list image) (retries : list Z) :
  crop_h <= (UCF101._data_img_size self).1.1 ->
  crop_w <= (UCF101._data_img_size self).1.2 ->
  forall crop_ g,
  let pass := ucf_crop_pass self crop_h crop_w current in
  let moving k :=
    UCF101Filter.enough_l2_movement (py_slice_to inputs_length (pass g k)) in
  match retries with
  | [] =>
      UCF101.crop_loop self crop_h crop_w inputs_length current retries
        crop_ g
      = match crop_ with
        | Some c => Ok (c, g)
        | None => Raise UnboundLocalError
        end
  | _ :: _ =>
      exists (k : nat) g',
        UCF101.crop_loop self crop_h crop_w inputs_length current retries
          crop_ g = Ok (pass g k, g') /\
        (k < length retries)%nat /\
        (forall i, py_random g' i = py_random g (2 * S k + i)%nat) /\
        np_random g' = np_random g /\
        (forall j : nat, (j < k)%nat ->
           UCF101._skip_less_movement self = true /\ moving j = false) /\
        (UCF101._skip_less_movement self = true ->
           moving k = true \/ S k = length retries) /\
        (UCF101._skip_less_movement self = false -> k = 0%nat)
  end.
Proof.
  intros Hh Hw. induction retries as [|retry retries IH]; intros crop_ g.
  - cbn. destruct crop_; reflexivity.
  - cbn zeta. cbn [UCF101.crop_loop length].
    rewrite (bind_M_ok _ _ _ _ _
               (randint_ok 0 ((UCF101._data_img_size self).1.2 - crop_w) g
                  ltac:(lia))).
    rewrite (bind_M_ok _ _ _ _ _
               (randint_ok 0 ((UCF101._data_img_size self).1.1 - crop_h) _
                  ltac:(lia))).
    cbn [py_random np_random].
    set (g2 := Rng _ _).
    assert (Hpass0 :
      crop crop_h crop_w
        (0 + py_random g 1%nat
             mod ((UCF101._data_img_size self).1.1 - crop_h - 0 + 1))
        (0 + py_random g 0%nat
             mod ((UCF101._data_img_size self).1.2 - crop_w - 0 + 1))
        <$> current
      = ucf_crop_pass self crop_h crop_w current g 0) by reflexivity.
    rewrite Hpass0.
    assert (Hshift : forall k,
      ucf_crop_pass self crop_h crop_w current g2 k
      = ucf_crop_pass self crop_h crop_w current g (S k)).
    { intros k. unfold ucf_crop_pass, ucf_crop_offsets, g2.
      cbn [py_random fst snd].
      replace (2 * S k)%nat with (S (S (2 * k))) by lia.
      replace (2 * S k + 1)%nat with (S (S (2 * k + 1))) by lia.
      reflexivity. }
    destruct (UCF101._skip_less_movement self) eqn:Hskip.
    + destruct (UCF101Filter.enough_l2_movement
                  (py_slice_to inputs_length
                     (ucf_crop_pass self crop_h crop_w current g 0)))
        eqn:Hmov; cbn [negb].
      * exists 0%nat, g2. split; [reflexivity|]. split; [lia|].
        split; [intros i; reflexivity|]. split; [reflexivity|].
        split; [intros j Hj; lia|]. split; [|discriminate].
        intros _. left. exact Hmov.
      * specialize (IH (Some (ucf_crop_pass self crop_h crop_w current g 0))
                      g2).
        cbn zeta in IH. destruct retries as [|retry' retries].
        -- rewrite IH. exists 0%nat, g2. split; [reflexivity|].
           split; [cbn; lia|]. split; [intros i; reflexivity|].
           split; [reflexivity|]. split; [intros j Hj; lia|].
           split; [|discriminate]. intros _. right. reflexivity.
        -- destruct IH as (k & g' & Hrun & Hk & Hpy & Hnp & Hbefore
                             & Hlast & Hnoskip).
           exists (S k), g'. rewrite Hrun, Hshift.
           split; [reflexivity|]. split; [cbn in *; lia|].
           split.
           { intros i. rewrite Hpy. unfold g2. cbn [py_random].
             f_equal. lia. }
           split; [rewrite Hnp; reflexivity|].
           split.
           { intros [|j] Hj.
             - split; [reflexivity|exact Hmov].
             - destruct (Hbefore j ltac:(lia)) as [_ Hj'].
               split; [reflexivity|]. rewrite <- Hshift. exact Hj'. }
           split; [|discriminate].
           intros _. destruct (Hlast eq_refl) as [Hm|Hm].
           ++ left. rewrite <- Hshift. exact Hm.
           ++ right. cbn in *. lia.
    + exists 0%nat, g2. split; [reflexivity|]. split; [lia|].
      split; [intros i; reflexivity|]. split; [reflexivity|].
      split; [intros j Hj; lia|]. split; [discriminate|].
      intros _. reflexivity.
Qed.

(** X7: when the crop fits the stored frames, the crop loop of the
    UCF-101 evaluation datasets always yields a crop and never leaves its
    variable unbound: it returns the crop of pass [k < 100], drawn from the
    draws [2 k] and [2 k + 1] of [random], with offsets inside the frame;
    with [skip_less_movement] every earlier pass was rejected by the
    motion filter and pass [k] either passes it or is the last of the 100,
    whose crop is used although the filter rejected it; without
    [skip_less_movement] the first crop is taken. *)
Theorem ucf_crop_loop_returns (self : UCF101.Dataset) (crop_h crop_w
    inputs_length : Z) (current : list image) (g : rng) :
  crop_h <= (UCF101._data_img_size self).1.1 ->
  crop_w <= (UCF101._data_img_size self).1.2 ->
  let pass := ucf_crop_pass self crop_h crop_w current in
  let moving k :=
    UCF101Filter.enough_l2_movement (py_slice_to inputs_length (pass g k)) in
  exists (k : nat) g',
    UCF101.crop_loop self crop_h crop_w inputs_length current
      (xrange 0 MAX_TRIES) None g = Ok (pass g k, g') /\
    (k < 100)%nat /\
    0 <= (ucf_crop_offsets self crop_h crop_w g k).1
      <= (UCF101._data_img_size self).1.1 - crop_h /\
    0 <= (ucf_crop_offsets self crop_h crop_w g k).2
      <= (UCF101._data_img_size self).1.2 - crop_w /\
    (forall i, py_random g' i = py_random g (2 * S k + i)%nat) /\
    np_random g' = np_random g /\
    (forall j : nat, (j < k)%nat ->
       UCF101._skip_less_movement self = true /\ moving j = false) /\
    (UCF101._skip_less_movement self = true ->
       moving k = true \/ k = 99%nat) /\
    (UCF101._skip_less_movement self = false -> k = 0%nat).
Proof.
  intros Hh Hw pass moving.
  assert (Hspec := ucf_crop_loop_spec self crop_h crop_w inputs_length
                     current (xrange 0 MAX_TRIES) Hh Hw None g).
  cbn zeta in Hspec.
  assert (Hlen : length (xrange 0 MAX_TRIES) = 100%nat)
    by (apply Nat2Z.inj; rewrite length_xrange; reflexivity).
  destruct (xrange 0 MAX_TRIES) as [|retry retries]; [discriminate|].
  destruct Hspec as (k & g' & Hrun & Hk & Hpy & Hnp & Hbefore & Hlast
                       & Hnoskip).
  exists k, g'. split; [exact Hrun|]. split; [lia|].
  unfold ucf_crop_offsets. cbn [fst snd].
  split; [|split].
  - pose proof (Z.mod_pos_bound (py_random g (2 * k + 1)%nat)
                  ((UCF101._data_img_size self).1.1 - crop_h - 0 + 1)
                  ltac:(lia)).
    lia.
  - pose proof (Z.mod_pos_bound (py_random g (2 * k)%nat)
                  ((UCF101._data_img_size self).1.2 - crop_w - 0 + 1)
                  ltac:(lia)).
    lia.
  - split; [exact Hpy|]. split; [exact Hnp|]. split; [exact Hbefore|].
    split; [|exact Hnoskip].
    intros Hskip. destruct (Hlast Hskip) as [Hm|Hm]; [left; exact Hm|].
    right. lia.
Qed.

Lemma ucf_crop_loop_returns_witness :
  exists (k : nat) g',
    UCF101.crop_loop ucf_sample 1 2 2 [still; bright] (xrange 0 MAX_TRIES)
      None sample_rng
    = Ok (ucf_crop_pass ucf_sample 1 2 [still; bright] sample_rng k, g') /\
    (k < 100)%nat.
Proof.
  destruct (ucf_crop_loop_returns ucf_sample 1 2 2 [still; bright]
              sample_rng) as (k & g' & Hrun & Hk & _);
    [cbn; lia | cbn; lia |].
  exists k, g'. split; [exact Hrun|exact Hk].
Defined.

(** ** A well-formed UCF-101 evaluation dataset serves every batch *)

Lemma lift_ok {A} (r : result A) (a : A) (g : rng) :
  r = Ok a -> lift r g = Ok (a, g).
Proof. intros ->. reflexivity. Qed.

Lemma forM_M_ok {A B} (f : A -> M B) (l : list A) :
  Forall (fun x => forall g, exists y g', f x g = Ok (y, g')) l ->
  forall g, exists ys g', forM f l g = Ok (ys, g').
Proof.
  induction 1 as [|x l Hx _ IH]; intros g.
  - eexists _, _. reflexivity.
  - destruct (Hx g) as (y & g1 & Hy). destruct (IH g1) as (ys & g2 & Hys).
    exists (y :: ys), g2. cbn [forM].
    rewrite (bind_M_ok _ _ _ _ _ Hy), (bind_M_ok _ _ _ _ _ Hys).
    reflexivity.
Qed.

Lemma Forall_zip_snd {A B} (Q : B -> Prop) (l : list A) (k : list B) :
  Forall Q k -> Forall (fun p => Q p.2) (zip l k).
Proof.
  intros Hk. revert l. induction Hk as [|y k Hy _ IH]; intros [|x l]; cbn;
    constructor; auto.
Qed.

Lemma np_reshape_ok (flat : list Z) (t h w c : Z) :
  0 <= t -> 0 <= h -> 0 <= w -> 0 <= c ->
  Z.of_nat (length flat) = t * h * w * c ->
  exists current, np_reshape flat (t, h, w, c) = Ok current.
Proof.
  intros Ht Hh Hw Hc Hlen. unfold np_reshape.
  destruct (Z.ltb_spec t 0); [lia|]. destruct (Z.ltb_spec h 0); [lia|].
  destruct (Z.ltb_spec w 0); [lia|]. destruct (Z.ltb_spec c 0); [lia|].
  cbn [orb]. rewrite Hlen, Z.eqb_refl. cbn [negb].
  eexists. reflexivity.
Qed.

(** Arrays of one shape have one [shape_of]. *)
Lemma shape_of_rows (P : Z -> Prop) (t h w c : Z) (x y : list image) :
  rows t (image_of P h w c) x -> rows t (image_of P h w c) y ->
  shape_of x = shape_of y.
Proof.
  intros [Hx Hxs] [Hy Hys]. unfold shape_of.
  destruct x as [|fx x], y as [|fy y]; cbn in Hx, Hy; try lia;
    try reflexivity.
  cbn [lookup_total list_lookup_total length].
  apply Forall_inv in Hxs as [Hfx Hfxs]. apply Forall_inv in Hys as [Hfy Hfys].
  f_equal; [lia|]. f_equal; [lia|].
  destruct fx as [|rx fx], fy as [|ry fy]; cbn in Hfx, Hfy; try lia;
    try reflexivity.
  cbn [lookup_total list_lookup_total length].
  apply Forall_inv in Hfxs as [Hrx Hrxs].
  apply Forall_inv in Hfys as [Hry Hrys].
  f_equal; [lia|]. f_equal.
  destruct rx as [|px rx], ry as [|py ry]; cbn in Hrx, Hry; try lia;
    try reflexivity.
  cbn [lookup_total list_lookup_total length].
  apply Forall_inv in Hrxs as [Hpx _]. apply Forall_inv in Hrys as [Hpy _].
  lia.
Qed.

Lemma np_stack_ok (P : Z -> Prop) (t h w c : Z)
    (arrays : list (list image)) :
  arrays <> [] -> Forall (rows t (image_of P h w c)) arrays ->
  np_stack arrays = Ok arrays.
Proof.
  intros Hne Hall. unfold np_stack.
  destruct arrays as [|x rest]; [congruence|].
  apply Forall_cons_1 in Hall as [Hx Hrest].
  replace (forallb _ rest) with true; [reflexivity|].
  symmetry. apply forallb_forall. intros y Hy.
  apply bool_decide_eq_true.
  rewrite Forall_forall in Hrest.
  eapply shape_of_rows; [apply Hrest; exact Hy|exact Hx].
Qed.

Lemma select_indices_ok (self : UCF101.Dataset) (batch_size : Z) (g : rng) :
  let N := UCF101.real_dataset_size self in
  Z.of_nat (length (UCF101._indices self)) = N -> 0 < batch_size < N ->
  exists self1 window g1,
    UCF101.select_indices self batch_size g = Ok ((self1, window), g1).
Proof.
  intros N Hlen Hbs.
  assert (Hstep : exists self1 g1,
    (if UCF101._row self + batch_size >=? UCF101.size self
     then UCF101.reset self else mret self) g = Ok (self1, g1) /\
    Z.of_nat (length (UCF101._indices self1)) = N).
  { destruct (UCF101._row self + batch_size >=? UCF101.size self).
    - destruct (reset_ok self g) as (ind & g1 & Hr & Hl).
      exists (UCF101.set_cursor self 0 ind), g1.
      split; [exact Hr|]. cbn. lia.
    - exists self, g. split; [reflexivity|assumption]. }
  destruct Hstep as (self1 & g1 & Hstep & Hlen1).
  destruct (ind_range_exact (UCF101._indices self1) N (UCF101._row self1)
              batch_size ltac:(lia) Hlen1 Hbs) as [Hw1 _].
  eexists self1, _, g1.
  unfold UCF101.select_indices. rewrite (bind_M_ok _ _ _ _ _ Hstep).
  fold N. unfold py_mod.
  destruct (Z.eqb_spec N 0) as [|_]; [lia|].
  unfold mbind, M_bind, lift. rewrite Hw1, Z.eqb_refl. reflexivity.
Qed.

Lemma load_item_ok read_as_binary (self : UCF101.Dataset) (i : Z)
    (f : string) (flat : list Z) (g : rng) :
  read_as_binary f = Ok flat ->
  Z.of_nat (length flat) =
    UCF101._serialized_sequence_length self
    * (UCF101._data_img_size self).1.1 * (UCF101._data_img_size self).1.2
    * (UCF101._data_img_size self).2 ->
  0 <= (UCF101._data_img_size self).1.1 ->
  0 <= (UCF101._data_img_size self).1.2 ->
  0 <= (UCF101._data_img_size self).2 ->
  0 <= dim0 (UCF101.input_shape self) + dim0 (UCF101.target_shape self)
    <= UCF101._serialized_sequence_length self ->
  (forall crop_h crop_w, UCF101._crop_size self = Some (crop_h, crop_w) ->
     crop_h <= (UCF101._data_img_size self).1.1 /\
     crop_w <= (UCF101._data_img_size self).1.2) ->
  exists item g', UCF101.load_item read_as_binary self i f g = Ok (item, g').
Proof.
  intros Hread Hlen Hh Hw Hc Htotal Hfit. unfold UCF101.load_item.
  rewrite (bind_M_ok _ _ _ _ _ (lift_ok _ _ g Hread)).
  destruct (UCF101._data_img_size self) as [[h w] c] eqn:Esize.
  cbn [fst snd] in *.
  destruct (np_reshape_ok flat (UCF101._serialized_sequence_length self)
              h w c ltac:(lia) Hh Hw Hc Hlen) as (current & Hcur).
  rewrite (bind_M_ok _ _ _ _ _ (lift_ok _ _ g Hcur)).
  rewrite (bind_M_ok _ _ _ _ _
             (randint_ok 0 (UCF101._serialized_sequence_length self
                - (dim0 (UCF101.input_shape self)
                   + dim0 (UCF101.target_shape self))) g ltac:(lia))).
  set (g1 := Rng _ _). set (window := py_slice _ _ current).
  destruct (UCF101._crop_size self) as [[crop_h crop_w]|] eqn:Ecrop.
  - destruct (Hfit crop_h crop_w eq_refl) as [Hch Hcw].
    assert (Hspec := ucf_crop_loop_spec self crop_h crop_w
                       (dim0 (UCF101.input_shape self)) window
                       (xrange 0 MAX_TRIES)
                       ltac:(rewrite Esize; exact Hch)
                       ltac:(rewrite Esize; exact Hcw) None g1).
    cbn zeta in Hspec.
    assert (Hne : length (xrange 0 MAX_TRIES) = 100%nat)
      by (apply Nat2Z.inj; rewrite length_xrange; reflexivity).
    destruct (xrange 0 MAX_TRIES) as [|retry retries]; [discriminate|].
    destruct Hspec as (k & g' & Hrun & _).
    rewrite (bind_M_ok _ _ _ _ _ Hrun). eexists _, _. reflexivity.
  - eexists _, _. reflexivity.
Qed.

Lemma ucf_get_batch_ok read_as_binary (self : UCF101.Dataset)
    (batch_size : Z) (g : rng) :
  let N := UCF101.real_dataset_size self in
  ucf_consistent self -> bytes_stored read_as_binary ->
  Z.of_nat (length (UCF101._indices self)) = N ->
  0 < batch_size < N ->
  Forall (fun i => 0 <= i < Z.of_nat (length (UCF101._file_name_list self)))
    (UCF101._indices self) ->
  Forall (fun f => exists flat,
            read_as_binary f = Ok flat /\
            Z.of_nat (length flat) =
              UCF101._serialized_sequence_length self
              * (UCF101._data_img_size self).1.1
              * (UCF101._data_img_size self).1.2
              * (UCF101._data_img_size self).2)
    (UCF101._file_name_list self) ->
  0 <= (UCF101._data_img_size self).1.1 ->
  0 <= (UCF101._data_img_size self).1.2 ->
  0 <= (UCF101._data_img_size self).2 ->
  dim0 (UCF101.input_shape self) + dim0 (UCF101.target_shape self)
    <= UCF101._serialized_sequence_length self ->
  (forall crop_h crop_w, UCF101._crop_size self = Some (crop_h, crop_w) ->
     crop_h <= (UCF101._data_img_size self).1.1 /\
     crop_w <= (UCF101._data_img_size self).1.2) ->
  exists r g',
    UCF101.get_batch read_as_binary self batch_size g = Ok (r, g').
Proof.
  intros N Hcons Hbytes Hlen Hbs Hidx Hfiles Hh Hw Hc Htotal Hfit.
  destruct (select_indices_ok self batch_size g Hlen Hbs)
    as (self1 & window & g1 & Hsel).
  assert (Hcases := select_indices_cases _ _ _ _ _ _ Hsel).
  cbn zeta in Hcases.
  destruct Hcases as (row1 & ind1 & -> & Hperm & _ & _ & HN & Hwin & Hwlen).
  fold N in HN, Hwin.
  set (self1 := UCF101.set_cursor self row1 ind1) in *.
  unfold UCF101.get_batch. rewrite (bind_M_ok _ _ _ _ _ Hsel).
  cbn beta iota.
  assert (Hl1 : Z.of_nat (length ind1) = N)
    by (rewrite Hperm; exact Hlen).
  assert (Hsub : window ⊆+ ind1).
  { rewrite Hwin.
    pose proof (Z.mod_pos_bound row1 N ltac:(lia)).
    pose proof (Z.mod_pos_bound (row1 mod N + batch_size) N ltac:(lia)).
    apply ind_range_submseteq; lia. }
  assert (Hwidx : Forall (fun i => 0 <= i
              < Z.of_nat (length (UCF101._file_name_list self))) window).
  { apply submseteq_Permutation in Hsub as (k & Hk).
    rewrite <- Hperm, Hk in Hidx. apply Forall_app in Hidx as [H _].
    exact H. }
  destruct (forM_result_ok (py_index (UCF101._file_name_list self1))
              window) as (file_names & Hnames).
  { eapply Forall_impl; [|exact Hwidx].
    intros i Hi. apply py_index_ok. exact Hi. }
  rewrite (bind_M_ok _ _ _ _ _ (lift_ok _ _ g1 Hnames)).
  assert (Hreadable : Forall (fun f => exists flat,
            read_as_binary f = Ok flat /\
            Z.of_nat (length flat) =
              UCF101._serialized_sequence_length self
              * (UCF101._data_img_size self).1.1
              * (UCF101._data_img_size self).1.2
              * (UCF101._data_img_size self).2) file_names).
  { apply (forM_result_rows _ _ _ _
             (fun i f Hf => py_index_Forall _ _ i f Hfiles Hf)) in Hnames
      as [_ H]. exact H. }
  assert (Hnlen : length file_names = length window).
  { apply (forM_result_rows _ (fun _ => True)) in Hnames as [H _];
      [exact H|auto]. }
  destruct (forM_M_ok (fun '(i, f) =>
              UCF101.load_item read_as_binary self1 i f)
            (zip (xrange 0 (Z.of_nat (length file_names))) file_names))
    with (g := g1) as (items & g2 & Hitems).
  { eapply Forall_impl;
      [|exact (Forall_zip_snd _ _ _ Hreadable)].
    intros [i f] (flat & Hread & Hflat) gi. cbn [snd] in *.
    eapply load_item_ok; eauto.
    pose proof Hcons as (tin & ttg & Hin & Htg & ? & ? & _).
    change (UCF101.input_shape self1) with (UCF101.input_shape self).
    change (UCF101.target_shape self1) with (UCF101.target_shape self).
    change (UCF101._serialized_sequence_length self1)
      with (UCF101._serialized_sequence_length self).
    rewrite Hin, Htg in Htotal |- *. cbn [dim0] in *. lia. }
  rewrite (bind_M_ok _ _ _ _ _ Hitems).
  pose proof Hitems as Hshapes.
  apply (forM_M_rows _ (fun item : list image * list image =>
           rows (dim0 (UCF101.input_shape self1))
             (image_of uint8 (ucf_frame_dims self1).1
                (ucf_frame_dims self1).2 (UCF101._data_img_size self1).2)
             item.1 /\
           rows (dim0 (UCF101.target_shape self1))
             (image_of uint8 (ucf_frame_dims self1).1
                (ucf_frame_dims self1).2 (UCF101._data_img_size self1).2)
             item.2)) in Hshapes as [Hilen Hshapes].
  2:{ intros [i f] gi [seq_input seq_target] gi' Hitem.
      eapply load_item_rows; eauto. }
  assert (Hne : items <> []).
  { intros ->. cbn in Hilen. symmetry in Hilen.
    rewrite length_zip, length_xrange in Hilen. lia. }
  assert (Hs1 : np_stack items.*1 = Ok items.*1).
  { eapply np_stack_ok.
    - destruct items; [congruence|discriminate].
    - apply Forall_fmap. eapply Forall_impl; [|exact Hshapes].
      intros item [H1 _]. exact H1. }
  assert (Hs2 : np_stack items.*2 = Ok items.*2).
  { eapply np_stack_ok.
    - destruct items; [congruence|discriminate].
    - apply Forall_fmap. eapply Forall_impl; [|exact Hshapes].
      intros item [_ H2]. exact H2. }
  rewrite (bind_M_ok _ _ _ _ _ (lift_ok _ _ g2 Hs1)).
  rewrite (bind_M_ok _ _ _ _ _ (lift_ok _ _ g2 Hs2)).
  eexists _, _. reflexivity.
Qed.

(** X8: a well-formed UCF-101 evaluation dataset serves every batch size
    strictly between [0] and its true size: when every index points into
    the file list, every listed file holds a sequence of the serialized
    length and the stored image size, the window of inputs and targets is
    not longer than a serialized sequence and the crop fits the stored
    image, [get_batch] returns, with arrays of shape
    [[batch_size] + input_shape] and [[batch_size] + target_shape] and
    entries in [0, 1]. *)
Theorem ucf_get_batch_returns read_as_binary (self : UCF101.Dataset)
    (batch_size : Z) (g : rng) :
  let N := UCF101.real_dataset_size self in
  ucf_consistent self -> bytes_stored read_as_binary ->
  Z.of_nat (length (UCF101._indices self)) = N ->
  0 < batch_size < N ->
  Forall (fun i => 0 <= i < Z.of_nat (length (UCF101._file_name_list self)))
    (UCF101._indices self) ->
  Forall (fun f => exists flat,
            read_as_binary f = Ok flat /\
            Z.of_nat (length flat) =
              UCF101._serialized_sequence_length self
              * (UCF101._data_img_size self).1.1
              * (UCF101._data_img_size self).1.2
              * (UCF101._data_img_size self).2)
    (UCF101._file_name_list self) ->
  0 <= (UCF101._data_img_size self).1.1 ->
  0 <= (UCF101._data_img_size self).1.2 ->
  0 <= (UCF101._data_img_size self).2 ->
  dim0 (UCF101.input_shape self) + dim0 (UCF101.target_shape self)
    <= UCF101._serialized_sequence_length self ->
  (forall crop_h crop_w, UCF101._crop_size self = Some (crop_h, crop_w) ->
     crop_h <= (UCF101._data_img_size self).1.1 /\
     crop_w <= (UCF101._data_img_size self).1.2) ->
  exists inputs targets self' g',
    UCF101.get_batch read_as_binary self batch_size g
      = Ok ((inputs, targets, self'), g') /\
    array_of unit_interval batch_size (UCF101.input_shape self) inputs /\
    array_of unit_interval batch_size (UCF101.target_shape self) targets.
Proof.
  intros N Hcons Hbytes Hlen Hbs Hidx Hfiles Hh Hw Hc Htotal Hfit.
  destruct (ucf_get_batch_ok read_as_binary self batch_size g Hcons Hbytes
              Hlen Hbs Hidx Hfiles Hh Hw Hc Htotal Hfit)
    as ([[inputs targets] self'] & g' & Hrun).
  exists inputs, targets, self', g'. split; [exact Hrun|].
  destruct (ucf_get_batch_contract _ _ _ _ _ _ _ _ Hcons Hbytes Hrun)
    as (raw_i & raw_t & -> & -> & Hi & Ht).
  split; apply div_batch_array; assumption.
Qed.

Lemma ucf_get_batch_returns_witness :
  exists inputs targets self' g',
    UCF101.get_batch ucf_sample_file ucf_sample 2 sample_rng
      = Ok ((inputs, targets, self'), g') /\
    array_of unit_interval 2 (UCF101.input_shape ucf_sample) inputs /\
    array_of unit_interval 2 (UCF101.target_shape ucf_sample) targets.
Proof.
  apply (ucf_get_batch_returns ucf_sample_file ucf_sample 2 sample_rng).
  - exists 2, 1. cbn. repeat split; lia.
  - exact ucf_sample_file_stored.
  - reflexivity.
  - cbn. lia.
  - cbn. repeat constructor; lia.
  - cbn. repeat constructor; eexists; (split; [reflexivity|reflexivity]).
  - cbn. lia.
  - cbn. lia.
  - cbn. lia.
  - cbn. lia.
  - intros crop_h crop_w [= <- <-]. cbn. lia.
Defined.

(** ** A well-formed Ms. Pac-Man dataset serves every batch *)

Lemma np_random_choice_ok (a size : Z) (g : rng) :
  0 < a -> 0 <= size ->
  exists seq_indices g', np_random_choice a size g = Ok (seq_indices, g').
Proof.
  intros Ha Hsize. unfold np_random_choice.
  destruct (Z.leb_spec a 0); [lia|]. destruct (Z.ltb_spec size 0); [lia|].
  apply forM_M_ok. apply Forall_forall. intros i _ gi.
  eexists _, _. reflexivity.
Qed.

Lemma np_empty_ok (b : Z) (s : shape) :
  0 <= b -> (let '(t, h, w, c) := s in 0 <= t /\ 0 <= h /\ 0 <= w /\ 0 <= c) ->
  exists arr, np_empty b s = Ok arr.
Proof.
  destruct s as [[[t h] w] c]. intros Hb (Ht & Hh & Hw & Hc).
  unfold np_empty.
  destruct (Z.ltb_spec b 0); [lia|]. destruct (Z.ltb_spec t 0); [lia|].
  destruct (Z.ltb_spec h 0); [lia|]. destruct (Z.ltb_spec w 0); [lia|].
  destruct (Z.ltb_spec c 0); [lia|]. eexists. reflexivity.
Qed.

Section PacmanServes.
Variable image_read : string -> result image.
Variable path_join : string -> string -> string.
Variable self : MsPacman.Dataset.
Hypothesis Hin : 0 <= MsPacman._input_seq_length self.
Hypothesis Htg : 0 <= MsPacman._target_seq_length self.
Hypothesis Hfit : crop_fits self.
Hypothesis Hcatalog :
  Forall (episode_stored image_read path_join self) (MsPacman._data self).

Lemma sample_item_ok (seq_indices : list Z) (batch : Z) (row : list image)
    (g : rng) :
  Forall (fun i => 0 <= i < Z.of_nat (length (MsPacman._data self)))
    seq_indices ->
  0 <= batch < Z.of_nat (length seq_indices) ->
  exists r g',
    MsPacman.sample_item image_read path_join self seq_indices
      (MsPacman._input_seq_length self + MsPacman._target_seq_length self)
      batch row g = Ok (r, g').
Proof.
  intros Hidx Hbatch. unfold MsPacman.sample_item.
  destruct (py_index_ok seq_indices batch Hbatch) as (seq_index & Hsi).
  rewrite (bind_M_ok _ _ _ _ _ (lift_ok _ _ g Hsi)).
  assert (Hseq_index := py_index_Forall _ _ _ _ Hidx Hsi).
  destruct (py_index_ok (MsPacman._data self) seq_index Hseq_index)
    as (current_seq & Hcs).
  rewrite (bind_M_ok _ _ _ _ _ (lift_ok _ _ g Hcs)).
  destruct (py_index_Forall _ _ _ _ Hcatalog Hcs)
    as (Hcount & Hlong & Hfiles).
  set (total := MsPacman._input_seq_length self
                + MsPacman._target_seq_length self) in *.
  rewrite (bind_M_ok _ _ _ _ _
             (randint_ok 0 (current_seq.1.2 - total) g ltac:(lia))).
  set (start_idx := 0 + _ mod _).
  assert (Hstart : 0 <= start_idx <= current_seq.1.2 - total).
  { unfold start_idx.
    pose proof (Z.mod_pos_bound (py_random g 0%nat)
                  (current_seq.1.2 - total - 0 + 1) ltac:(lia)).
    lia. }
  set (g1 := Rng _ _).
  assert (Hflip : exists do_flip g2,
    (if MsPacman._random_flip self
     then r ← random; mret (negb (Qle_bool r (1 # 2)))
     else mret false) g1 = Ok (do_flip, g2)).
  { destruct (MsPacman._random_flip self); eexists _, _; reflexivity. }
  destruct Hflip as (do_flip & g2 & Hflip).
  rewrite (bind_M_ok _ _ _ _ _ Hflip).
  assert (Hreadable : forall fidx, 0 <= fidx < current_seq.1.2 ->
    exists filename frame,
      py_index current_seq.2 fidx = Ok filename /\
      image_read (path_join current_seq.1.1 filename) = Ok frame).
  { intros fidx Hfidx.
    destruct (py_index_ok current_seq.2 fidx ltac:(lia)) as (fn & Hfn).
    destruct (py_index_Forall _ _ _ _ Hfiles Hfn) as (frame & Hframe).
    eauto. }
  destruct (forM_result_ok (fun fidx =>
              filename ← py_index current_seq.2 fidx;
              image_read (path_join current_seq.1.1 filename))
              (xrange start_idx
                 (start_idx + MsPacman._input_seq_length self)))
    as (input_frames & Hframes).
  { apply Forall_forall. intros fidx Hfidx.
    apply list_elem_of_In, elem_of_xrange in Hfidx.
    destruct (Hreadable fidx ltac:(lia)) as (fn & frame & Hfn & Hframe).
    exists frame. rewrite (bind_result_ok _ _ _ Hfn). exact Hframe. }
  rewrite (bind_M_ok _ _ _ _ _ (lift_ok _ _ g2 Hframes)).
  apply retry_loop_total.
  - exact Hfit.
  - unfold inputs_decoded.
    apply (forM_result_rows _ (fun _ => True)) in Hframes as [Hlen _];
      [|auto].
    rewrite Hlen, length_xrange. lia.
  - unfold targets_readable. apply Forall_forall. intros fidx Hfidx.
    apply list_elem_of_In, elem_of_xrange in Hfidx.
    apply Hreadable. lia.
Qed.

Lemma batch_loop_ok (seq_indices : list Z) (batches : list Z) :
  Forall (fun i => 0 <= i < Z.of_nat (length (MsPacman._data self)))
    seq_indices ->
  Forall (fun batch => 0 <= batch < Z.of_nat (length seq_indices)) batches ->
  forall batch_inputs batch_targets traces g,
  exists r g',
    MsPacman.batch_loop image_read path_join self seq_indices
      (MsPacman._input_seq_length self + MsPacman._target_seq_length self)
      batches batch_inputs batch_targets traces g = Ok (r, g').
Proof.
  intros Hidx Hb.
  induction Hb as [|batch batches Hbatch _ IH];
    intros batch_inputs batch_targets traces g.
  - eexists _, _. reflexivity.
  - cbn [MsPacman.batch_loop].
    destruct (sample_item_ok seq_indices batch
                (batch_inputs !!! Z.to_nat batch) g Hidx Hbatch)
      as ([[trace row] targets] & g1 & Hitem).
    rewrite (bind_M_ok _ _ _ _ _ Hitem). cbn beta iota. apply IH.
Qed.
End PacmanServes.

Lemma pacman_get_batch_ok image_read path_join
    (self : MsPacman.Dataset) (batch_size : Z) (g : rng) :
  pacman_consistent self -> frames_stored image_read ->
  0 <= batch_size ->
  MsPacman._true_dataset_size self
    = Z.of_nat (length (MsPacman._data self)) ->
  MsPacman._data self <> [] ->
  0 <= MsPacman._input_seq_length self ->
  0 <= MsPacman._target_seq_length self ->
  crop_fits self ->
  (forall crop_h crop_w, MsPacman._crop_size self = Some (crop_h, crop_w) ->
     0 <= crop_h /\ 0 <= crop_w) ->
  Forall (episode_stored image_read path_join self) (MsPacman._data self) ->
  exists inputs targets g',
    MsPacman.get_batch image_read path_join self batch_size g
      = Ok ((inputs, targets, self), g').
Proof.
  intros Hcons Hstored Hbs Hsize Hne Hin Htg Hfit Hcrop Hcatalog.
  unfold MsPacman.get_batch, MsPacman.get_batch_traced.
  destruct (np_random_choice_ok (MsPacman._true_dataset_size self)
              batch_size g) as (seq_indices & g1 & Hchoice);
    [destruct (MsPacman._data self); [congruence|cbn in Hsize; lia]
    |exact Hbs|].
  rewrite bind_M_eq.
  rewrite (bind_M_ok _ _ _ _ _ Hchoice).
  apply np_random_choice_draws in Hchoice as [Hlen Hdraws].
  assert (Hidx : Forall (fun i =>
            0 <= i < Z.of_nat (length (MsPacman._data self))) seq_indices).
  { apply Forall_lookup_2. intros k x Hk.
    destruct (Hdraws k x Hk) as [_ Hx]. lia. }
  destruct Hcons as [Hishape Htshape].
  assert (Hshapes :
    match MsPacman._crop_size self with
    | Some (crop_h, crop_w) =>
        (dim0 (MsPacman.input_shape self), crop_h, crop_w,
         dim3 (MsPacman.input_shape self),
         (dim0 (MsPacman.target_shape self), crop_h, crop_w,
          dim3 (MsPacman.target_shape self)))
    | None => (MsPacman.input_shape self, MsPacman.target_shape self)
    end = (MsPacman.input_shape self, MsPacman.target_shape self)).
  { rewrite Hishape, Htshape. unfold pacman_frame_dims.
    destruct (MsPacman._crop_size self) as [[ch cw]|]; reflexivity. }
  rewrite Hshapes. clear Hshapes.
  assert (Hdims : 0 <= (pacman_frame_dims self).1 /\
                  0 <= (pacman_frame_dims self).2).
  { unfold pacman_frame_dims.
    destruct (MsPacman._crop_size self) as [[ch cw]|] eqn:E.
    - exact (Hcrop ch cw eq_refl).
    - cbn. unfold MsPacman.FRAME_HEIGHT, MsPacman.FRAME_WIDTH. lia. }
  destruct (np_empty_ok batch_size (MsPacman.input_shape self) Hbs)
    as (batch_inputs & Hbi).
  { rewrite Hishape. unfold MsPacman.FRAME_CHANNELS. lia. }
  destruct (np_empty_ok batch_size (MsPacman.target_shape self) Hbs)
    as (batch_targets & Hbt).
  { rewrite Htshape. unfold MsPacman.FRAME_CHANNELS. lia. }
  rewrite (bind_M_ok _ _ _ _ _ (lift_ok _ _ g1 Hbi)).
  rewrite (bind_M_ok _ _ _ _ _ (lift_ok _ _ g1 Hbt)).
  destruct (batch_loop_ok image_read path_join self Hin Htg Hfit Hcatalog
              seq_indices (xrange 0 batch_size) Hidx) with
    (batch_inputs := batch_inputs) (batch_targets := batch_targets)
    (traces := @nil (list MsPacman.Attempt)) (g := g1)
    as ([[bi bt] traces] & g2 & Hloop).
  { apply Forall_forall. intros batch Hbatch.
    apply list_elem_of_In, elem_of_xrange in Hbatch. lia. }
  rewrite (bind_M_ok _ _ _ _ _ Hloop). cbn beta iota.
  eexists _, _, _. reflexivity.
Qed.

(** X9: a well-formed Ms. Pac-Man dataset serves every batch size from
    [0] on: when the catalog is not empty, every episode has at least as
    many frames as a window of inputs and targets, every frame of the
    catalog decodes to a [210 x 160 x 3] image and the crop fits,
    [get_batch] returns, with arrays of shape [[batch_size] + input_shape]
    and [[batch_size] + target_shape] and entries in [0, 1], and leaves
    the dataset as it found it. *)
Theorem pacman_get_batch_returns image_read path_join
    (self : MsPacman.Dataset) (batch_size : Z) (g : rng) :
  pacman_consistent self -> frames_stored image_read ->
  0 <= batch_size ->
  MsPacman._true_dataset_size self
    = Z.of_nat (length (MsPacman._data self)) ->
  MsPacman._data self <> [] ->
  0 <= MsPacman._input_seq_length self ->
  0 <= MsPacman._target_seq_length self ->
  crop_fits self ->
  (forall crop_h crop_w, MsPacman._crop_size self = Some (crop_h, crop_w) ->
     0 <= crop_h /\ 0 <= crop_w) ->
  Forall (episode_stored image_read path_join self) (MsPacman._data self) ->
  exists inputs targets g',
    MsPacman.get_batch image_read path_join self batch_size g
      = Ok ((inputs, targets, self), g') /\
    array_of unit_interval batch_size (MsPacman.input_shape self) inputs /\
    array_of unit_interval batch_size (MsPacman.target_shape self) targets.
Proof.
  intros Hcons Hstored Hbs Hsize Hne Hin Htg Hfit Hcrop Hcatalog.
  destruct (pacman_get_batch_ok image_read path_join self batch_size g Hcons
              Hstored Hbs Hsize Hne Hin Htg Hfit Hcrop Hcatalog)
    as (inputs & targets & g' & Hrun).
  exists inputs, targets, g'. split; [exact Hrun|].
  destruct (pacman_get_batch_contract _ _ _ _ _ _ _ _ _ Hcons Hstored Hrun)
    as (raw_i & raw_t & -> & -> & Hi & Ht).
  split; apply div_batch_array; assumption.
Qed.

Lemma pacman_get_batch_returns_witness :
  exists inputs targets g',
    MsPacman.get_batch pacman_sample_read pacman_sample_join pacman_sample 2
      sample_rng = Ok ((inputs, targets, pacman_sample), g') /\
    array_of unit_interval 2 (MsPacman.input_shape pacman_sample) inputs /\
    array_of unit_interval 2 (MsPacman.target_shape pacman_sample) targets.
Proof.
  apply (pacman_get_batch_returns pacman_sample_read pacman_sample_join
           pacman_sample 2 sample_rng).
  - split; reflexivity.
  - exact pacman_sample_read_stored.
  - lia.
  - reflexivity.
  - discriminate.
  - cbn. lia.
  - cbn. lia.
  - cbn. unfold MsPacman.FRAME_HEIGHT, MsPacman.FRAME_WIDTH. lia.
  - intros crop_h crop_w [= <- <-]. lia.
  - cbn. repeat constructor; cbn; try lia; eexists; reflexivity.
Defined.

(** ** What [get_batch] of Ms. Pac-Man refuses *)

Lemma bind_M_raise {A B} (m : M A) (f : A -> M B) g e :
  m g = Raise e -> (m ≫= f) g = Raise e.
Proof. intros H. rewrite bind_M_eq, H. reflexivity. Qed.

Lemma np_empty_raises (b : Z) (s : shape) (e : exn) :
  np_empty b s = Raise e -> e = ValueError.
Proof.
  destruct s as [[[t h] w] c]. unfold np_empty.
  destruct (_ || _); [|discriminate]. intros [= <-]. reflexivity.
Qed.

(** X10: [get_batch] of a Ms. Pac-Man dataset raises [ValueError] for a
    negative batch size, for a positive batch size on an empty catalog,
    and for a positive batch size when every episode of the catalog has
    fewer frames than a window of inputs and targets: no partial batch is
    returned. *)
Theorem pacman_get_batch_rejects image_read path_join
    (self : MsPacman.Dataset) (batch_size : Z) (g : rng) :
  (batch_size < 0 ->
   MsPacman.get_batch image_read path_join self batch_size g
     = Raise ValueError) /\
  (MsPacman._true_dataset_size self <= 0 ->
   MsPacman.get_batch image_read path_join self batch_size g
     = Raise ValueError) /\
  (0 < batch_size ->
   MsPacman._true_dataset_size self
     = Z.of_nat (length (MsPacman._data self)) ->
   Forall (fun seq : string * Z * list string =>
             seq.1.2 < MsPacman._input_seq_length self
                       + MsPacman._target_seq_length self)
     (MsPacman._data self) ->
   MsPacman.get_batch image_read path_join self batch_size g
     = Raise ValueError).
Proof.
  split; [|split].
  - intros Hneg. unfold MsPacman.get_batch, MsPacman.get_batch_traced.
    apply bind_M_raise, bind_M_raise. unfold np_random_choice.
    destruct (_ <=? 0); [reflexivity|].
    destruct (Z.ltb_spec batch_size 0); [reflexivity|lia].
  - intros Hempty. unfold MsPacman.get_batch, MsPacman.get_batch_traced.
    apply bind_M_raise, bind_M_raise. unfold np_random_choice.
    destruct (Z.leb_spec (MsPacman._true_dataset_size self) 0);
      [reflexivity|lia].
  - intros Hbs Hsize Hshort.
    destruct (Z_le_gt_dec (MsPacman._true_dataset_size self) 0) as [Hle|Hgt].
    { unfold MsPacman.get_batch, MsPacman.get_batch_traced.
      apply bind_M_raise, bind_M_raise. unfold np_random_choice.
      destruct (Z.leb_spec (MsPacman._true_dataset_size self) 0);
        [reflexivity|lia]. }
    unfold MsPacman.get_batch, MsPacman.get_batch_traced.
    apply bind_M_raise.
    destruct (np_random_choice_ok (MsPacman._true_dataset_size self)
                batch_size g) as (seq_indices & g1 & Hchoice); [lia|lia|].
    rewrite (bind_M_ok _ _ _ _ _ Hchoice).
    apply np_random_choice_draws in Hchoice as [Hlen Hdraws].
    destruct (match MsPacman._crop_size self with
              | Some (crop_h, crop_w) => _
              | None => _
              end) as [input_batch_shape target_batch_shape].
    destruct (np_empty batch_size input_batch_shape) as [batch_inputs|e]
      eqn:Hbi.
    2:{ apply np_empty_raises in Hbi as ->. reflexivity. }
    rewrite (bind_M_ok _ _ _ _ _ (lift_ok _ _ g1 eq_refl)).
    destruct (np_empty batch_size target_batch_shape) as [batch_targets|e]
      eqn:Hbt.
    2:{ apply np_empty_raises in Hbt as ->. reflexivity. }
    rewrite (bind_M_ok _ _ _ _ _ (lift_ok _ _ g1 eq_refl)).
    apply bind_M_raise.
    unfold xrange. rewrite seqZ_cons by lia. cbn [MsPacman.batch_loop].
    apply bind_M_raise. unfold MsPacman.sample_item.
    destruct (py_index_ok seq_indices 0 ltac:(lia)) as (seq_index & Hsi).
    rewrite (bind_M_ok _ _ _ _ _ (lift_ok _ _ g1 Hsi)).
    assert (Hidx : Forall (fun i =>
              0 <= i < Z.of_nat (length (MsPacman._data self))) seq_indices).
    { apply Forall_lookup_2. intros k x Hk.
      destruct (Hdraws k x Hk) as [_ Hx]. lia. }
    destruct (py_index_ok (MsPacman._data self) seq_index
                (py_index_Forall _ _ _ _ Hidx Hsi)) as (current_seq & Hcs).
    rewrite (bind_M_ok _ _ _ _ _ (lift_ok _ _ g1 Hcs)).
    apply bind_M_raise. unfold randint.
    pose proof (py_index_Forall _ _ _ _ Hshort Hcs) as Hlt. cbn beta in Hlt.
    destruct (Z.ltb_spec (current_seq.1.2
                - (MsPacman._input_seq_length self
                   + MsPacman._target_seq_length self)) 0); [reflexivity|lia].
Qed.

Lemma pacman_get_batch_rejects_witness :
  MsPacman.get_batch pacman_sample_read pacman_sample_join
    (MsPacman.__init__ [("d0", ["a"; "bb"])]%string 2 1 None 1 false false)
    1 sample_rng = Raise ValueError.
Proof.
  apply (pacman_get_batch_rejects pacman_sample_read pacman_sample_join
           (MsPacman.__init__ [("d0", ["a"; "bb"])]%string 2 1 None 1
              false false) 1 sample_rng).
  - lia.
  - reflexivity.
  - cbn. repeat constructor.
Defined.

(** ** The training and the validation episodes of Ms. Pac-Man *)

Lemma py_slice_app {A} (a b c : Z) (l : list A) :
  0 <= a <= b -> b <= c ->
  py_slice a b l ++ py_slice b c l = py_slice a c l.
Proof.
  intros Hab Hbc. unfold py_slice, clip_bound.
  destruct (Z.ltb_spec a 0); [lia|]. destruct (Z.ltb_spec b 0); [lia|].
  destruct (Z.ltb_spec c 0); [lia|].
  set (n := Z.of_nat (length l)).
  replace (Z.to_nat (Z.min b n))
    with (Z.to_nat (Z.min a n) + Z.to_nat (Z.min b n - Z.min a n))%nat
    by lia.
  rewrite <- drop_drop, take_take_drop. f_equal. lia.
Qed.

Lemma py_slice_prefix {A} (b : Z) (l : list A) :
  0 <= b -> py_slice 0 b l = take (Z.to_nat b) l.
Proof.
  intros Hb. unfold py_slice, clip_bound.
  destruct (Z.ltb_spec b 0); [lia|]. cbn [Z.ltb Z.compare].
  rewrite (Z.min_l 0) by lia. cbn [Z.to_nat drop]. rewrite Z.sub_0_r.
  destruct (Z.le_ge_cases b (Z.of_nat (length l))).
  - rewrite Z.min_l by lia. reflexivity.
  - rewrite Z.min_r by lia.
    rewrite !take_ge by (rewrite ?length_drop; lia). reflexivity.
Qed.

Lemma py_slice_fmap {A B} (f : A -> B) (a b : Z) (l : list A) :
  f <$> py_slice a b l = py_slice a b (f <$> l).
Proof.
  unfold py_slice. rewrite fmap_take, fmap_drop, length_fmap. reflexivity.
Qed.

Lemma length_py_slice {A} (a b : Z) (l : list A) :
  0 <= a <= b ->
  Z.of_nat (length (py_slice a b l)) =
  Z.min b (Z.of_nat (length l)) - Z.min a (Z.of_nat (length l)).
Proof.
  intros Hab. unfold py_slice, clip_bound.
  destruct (Z.ltb_spec a 0); [lia|]. destruct (Z.ltb_spec b 0); [lia|].
  rewrite length_take, length_drop. lia.
Qed.

Lemma pacman_init_episodes folders input_seq_length target_seq_length
    crop_size repetitions_per_epoche skip_less_movement random_flip :
  (fun seq : string * Z * list string => seq.1.1) <$>
    MsPacman._data (MsPacman.__init__ folders input_seq_length
      target_seq_length crop_size repetitions_per_epoche skip_less_movement
      random_flip)
  = fst <$> folders.
Proof.
  unfold MsPacman.__init__. destruct crop_size as [[ch cw]|]; cbn;
    rewrite <- list_fmap_compose; apply list_fmap_ext;
    intros _ [nfp filenames] _; reflexivity.
Qed.

Lemma pacman_init_size folders input_seq_length target_seq_length
    crop_size repetitions_per_epoche skip_less_movement random_flip :
  MsPacman._true_dataset_size (MsPacman.__init__ folders input_seq_length
      target_seq_length crop_size repetitions_per_epoche skip_less_movement
      random_flip)
  = Z.of_nat (length folders).
Proof.
  unfold MsPacman.__init__. destruct crop_size as [[ch cw]|]; cbn;
    rewrite length_fmap; reflexivity.
Qed.

(** X12: the training and the validation dataset of Ms. Pac-Man, both cut
    from the sorted folders of the training directory, never share an
    episode: their episodes are the first 466 folders and the folders
    after them up to the 517th, in order; a directory of at most 466
    folders leaves the validation dataset empty. *)
Theorem pacman_train_valid_split (archive_found : bool)
    (get_subdirpaths : string -> list (string * list string))
    in1 tg1 crop1 reps1 skip1 flip1 in2 tg2 crop2 reps2 skip2 flip2
    (train valid : MsPacman.Dataset) :
  MsPacmanSplits.MsPacmanTrainDataset archive_found get_subdirpaths in1 tg1 crop1
    reps1 skip1 flip1 = Ok train ->
  MsPacmanSplits.MsPacmanValidDataset archive_found get_subdirpaths in2 tg2 crop2
    reps2 skip2 flip2 = Ok valid ->
  let folders := get_subdirpaths MsPacmanSplits.SUBDIR_TRAIN in
  let episodes (d : MsPacman.Dataset) :=
    (fun seq : string * Z * list string => seq.1.1) <$> MsPacman._data d in
  episodes train = take 466 (fst <$> folders) /\
  episodes train ++ episodes valid = take 517 (fst <$> folders) /\
  MsPacman._true_dataset_size train
    = Z.min 466 (Z.of_nat (length folders)) /\
  MsPacman._true_dataset_size valid
    = Z.max 0 (Z.min 517 (Z.of_nat (length folders)) - 466) /\
  (NoDup (fst <$> folders) ->
   forall p, p ∈ episodes train -> p ∉ episodes valid).
Proof.
  intros Htrain Hvalid folders episodes.
  unfold MsPacmanSplits.MsPacmanTrainDataset,
    MsPacmanSplits.MsPacmanValidDataset,
    MsPacmanSplits.MsPacmanBaseDataset in Htrain, Hvalid.
  destruct archive_found; [|discriminate].
  cbn [negb fst snd] in Htrain, Hvalid. fold folders in Htrain, Hvalid.
  injection Htrain as <-. injection Hvalid as <-.
  unfold episodes. rewrite !pacman_init_episodes, !pacman_init_size.
  rewrite !py_slice_fmap.
  assert (Happ : py_slice 0 (465 + 1) (fst <$> folders)
                 ++ py_slice 466 (516 + 1) (fst <$> folders)
                 = take 517 (fst <$> folders)).
  { change (465 + 1) with 466. rewrite py_slice_app by lia.
    apply (py_slice_prefix 517). lia. }
  split; [apply (py_slice_prefix 466); lia|].
  split; [exact Happ|].
  split; [rewrite length_py_slice by lia; lia|].
  split; [rewrite length_py_slice by lia; lia|].
  intros Hnd p Hp Hp'.
  assert (Hnd' : NoDup (take 517 (fst <$> folders))).
  { eapply submseteq_NoDup; [apply submseteq_take|exact Hnd]. }
  rewrite <- Happ in Hnd'.
  apply list.NoDup_app in Hnd' as (_ & Hdisj & _).
  exact (Hdisj p Hp Hp').
Qed.

Lemma pacman_train_valid_split_witness :
  exists train valid,
    MsPacmanSplits.MsPacmanTrainDataset true
      (fun _ => [("0001", ["a.png"; "b.png"])]%string) 1 1 None 1 false false
      = Ok train /\
    MsPacmanSplits.MsPacmanValidDataset true
      (fun _ => [("0001", ["a.png"; "b.png"])]%string) 1 1 None 1 false false
      = Ok valid /\
    MsPacman._true_dataset_size train = 1 /\
    MsPacman._true_dataset_size valid = 0.
Proof.
  eexists _, _. split; [reflexivity|]. split; [reflexivity|].
  destruct (pacman_train_valid_split true
              (fun _ => [("0001", ["a.png"; "b.png"])]%string)
              1 1 None 1 false false 1 1 None 1 false false _ _
              eq_refl eq_refl) as (_ & _ & Ht & Hv & _).
  split; [exact Ht|exact Hv].
Defined.

(** ** The evaluation split of UCF-101 *)

Lemma py_index_head {A} (l : list A) :
  py_index l 0 = match l with [] => Raise IndexError | x :: _ => Ok x end.
Proof.
  unfold py_index. destruct l as [|x l]; [reflexivity|].
  cbn [Z.ltb Z.compare orb].
  destruct (Z.leb_spec (Z.of_nat (length (x :: l))) 0) as [H|_];
    [cbn in H; lia|].
  reflexivity.
Qed.

Lemma read_eval_loop_alternate (lines files : list string) :
  Forall2 (fun line file =>
             py_index (UCF101Splits.py_split line) 0 = Ok file) lines files ->
  forall i valid test,
  UCF101Splits.read_eval_loop
    (zip (seqZ i (Z.of_nat (length lines))) lines) valid test
  = Ok (valid ++ (alternate i files).1, test ++ (alternate i files).2).
Proof.
  induction 1 as [|line file lines files Hline _ IH]; intros i valid test.
  - cbn. rewrite !app_nil_r. reflexivity.
  - cbn [length]. rewrite seqZ_cons by lia.
    replace (Z.pred (Z.of_nat (S (length lines))))
      with (Z.of_nat (length lines)) by lia.
    replace (Z.succ i) with (i + 1) by lia.
    cbn [zip_with UCF101Splits.read_eval_loop alternate].
    destruct (alternate (i + 1) files) as [v t] eqn:E.
    destruct (i mod 3 =? 0); rewrite (bind_result_ok _ _ _ Hline);
      rewrite IH, E; cbn [fst snd]; rewrite <- app_assoc; reflexivity.
Qed.

Lemma read_eval_loop_blank (lines : list string) :
  Exists (fun line => UCF101Splits.py_split line = []) lines ->
  forall i valid test,
  UCF101Splits.read_eval_loop
    (zip (seqZ i (Z.of_nat (length lines))) lines) valid test
  = Raise IndexError.
Proof.
  induction lines as [|line lines IH]; intros Hblank i valid test.
  - inversion Hblank.
  - cbn [length]. rewrite seqZ_cons by lia.
    replace (Z.pred (Z.of_nat (S (length lines))))
      with (Z.of_nat (length lines)) by lia.
    cbn [zip_with UCF101Splits.read_eval_loop].
    rewrite py_index_head.
    destruct (UCF101Splits.py_split line) as [|file words] eqn:E.
    + destruct (i mod 3 =? 0); reflexivity.
    + apply Exists_cons in Hblank as [Hb|Hb]; [congruence|].
      destruct (i mod 3 =? 0); cbn; apply IH; exact Hb.
Qed.

Lemma alternate_length (files : list string) (i : Z) :
  Z.of_nat (length (alternate i files).1)
    = (i + Z.of_nat (length files) + 2) / 3 - (i + 2) / 3 /\
  (length (alternate i files).1 + length (alternate i files).2
   = length files)%nat.
Proof.
  revert i. induction files as [|file files IH]; intros i.
  - cbn [alternate fst snd length]. change (Z.of_nat 0) with 0.
    split; [|reflexivity]. rewrite Z.add_0_r. lia.
  - cbn [alternate]. destruct (IH (i + 1)) as [IH1 IH2].
    destruct (alternate (i + 1) files) as [v t]. cbn [fst snd] in *.
    destruct (Z.eqb_spec (i mod 3) 0) as [H0|H0]; cbn [fst snd length].
    + split; [|lia]. rewrite Nat2Z.inj_succ, IH1.
      rewrite !Nat2Z.inj_succ. Z.div_mod_to_equations. lia.
    + split; [|lia]. rewrite IH1.
      rewrite !Nat2Z.inj_succ. Z.div_mod_to_equations. lia.
Qed.

Lemma alternate_lookup (files : list string) (i : Z) (k : nat) file :
  files !! k = Some file ->
  let c := (i + Z.of_nat k + 2) / 3 - (i + 2) / 3 in
  0 <= c <= Z.of_nat k /\
  if (i + Z.of_nat k) mod 3 =? 0
  then (alternate i files).1 !! Z.to_nat c = Some file
  else (alternate i files).2 !! Z.to_nat (Z.of_nat k - c) = Some file.
Proof.
  revert i k. induction files as [|file0 files IH]; intros i k Hk;
    [discriminate|].
  cbn zeta. split; [Z.div_mod_to_equations; lia|].
  cbn [alternate]. destruct k as [|k].
  - injection Hk as ->. replace (i + Z.of_nat 0) with i by lia.
    replace ((i + 2) / 3 - (i + 2) / 3) with 0 by lia.
    destruct (alternate (i + 1) files) as [v t].
    destruct (i mod 3 =? 0); reflexivity.
  - cbn in Hk. destruct (IH (i + 1) k Hk) as [Hc IH'].
    replace (i + 1 + Z.of_nat k) with (i + Z.of_nat (S k)) in * by lia.
    destruct (alternate (i + 1) files) as [v t]. cbn [fst snd] in *.
    destruct (Z.eqb_spec (i mod 3) 0) as [H0|H0]; cbn [fst snd].
    + replace ((i + Z.of_nat (S k) + 2) / 3 - (i + 2) / 3)
        with (((i + Z.of_nat (S k) + 2) / 3 - (i + 1 + 2) / 3) + 1)
        by (Z.div_mod_to_equations; lia).
      destruct (_ mod 3 =? 0).
      * rewrite Z2Nat.inj_add by lia. rewrite Nat.add_1_r. exact IH'.
      * replace (Z.of_nat (S k)
                 - ((i + Z.of_nat (S k) + 2) / 3 - (i + 1 + 2) / 3 + 1))
          with (Z.of_nat k
                - ((i + Z.of_nat (S k) + 2) / 3 - (i + 1 + 2) / 3))
          by lia.
        exact IH'.
    + replace ((i + Z.of_nat (S k) + 2) / 3 - (i + 2) / 3)
        with ((i + Z.of_nat (S k) + 2) / 3 - (i + 1 + 2) / 3)
        by (Z.div_mod_to_equations; lia).
      destruct (_ mod 3 =? 0).
      * exact IH'.
      * replace (Z.of_nat (S k)
                 - ((i + Z.of_nat (S k) + 2) / 3 - (i + 1 + 2) / 3))
          with (Z.of_nat k
                - ((i + Z.of_nat (S k) + 2) / 3 - (i + 1 + 2) / 3) + 1)
          by lia.
        rewrite Z2Nat.inj_add by lia. rewrite Nat.add_1_r. exact IH'.
Qed.

(** X13: [_read_eval_splits] alternates through the lines of the test
    list: the first token of line [k] (counted from [0]) is the entry
    [k / 3] of the validation files when [k] is a multiple of three, and
    the entry [k - k / 3 - 1] of the test files otherwise; so a third of
    the lines (rounded up) are validation files, the others are test
    files, and no line is in both.  A line without a token (empty, or
    white space only) makes the call raise [IndexError]. *)
Theorem ucf_read_eval_splits (path_join : string -> string -> string)
    (read_lines : string -> result (list string)) (dir_path : string)
    (lines : list string) :
  read_lines (path_join dir_path UCF101Splits.UCF101_TESTLIST) = Ok lines ->
  (Forall (fun line => UCF101Splits.py_split line <> []) lines ->
   exists valid test,
     UCF101Splits._read_eval_splits path_join read_lines dir_path
       = Ok (valid, test) /\
     length valid = ((length lines + 2) / 3)%nat /\
     (length valid + length test = length lines)%nat /\
     forall (k : nat) line, lines !! k = Some line ->
       exists file,
         UCF101Splits.py_split line !! 0%nat = Some file /\
         if Nat.eqb (k mod 3) 0
         then valid !! (k / 3)%nat = Some file
         else test !! (k - k / 3 - 1)%nat = Some file) /\
  (Exists (fun line => UCF101Splits.py_split line = []) lines ->
   UCF101Splits._read_eval_splits path_join read_lines dir_path
     = Raise IndexError).
Proof.
  intros Hread. unfold UCF101Splits._read_eval_splits.
  rewrite (bind_result_ok _ _ _ Hread). unfold xrange.
  rewrite Z.sub_0_r. split.
  - intros Hwords.
    assert (Hfiles : exists files,
      Forall2 (fun line file =>
                 py_index (UCF101Splits.py_split line) 0 = Ok file)
        lines files).
    { clear Hread. induction Hwords as [|line lines Hline _ (files & IH)].
      - exists []. constructor.
      - destruct (UCF101Splits.py_split line) as [|file words] eqn:E;
          [congruence|].
        exists (file :: files). constructor; [|exact IH].
        rewrite py_index_head, E. reflexivity. }
    destruct Hfiles as (files & Hfiles).
    rewrite (read_eval_loop_alternate lines files Hfiles 0 [] []).
    cbn [app].
    assert (Hlen : length files = length lines)
      by (symmetry; eapply Forall2_length; exact Hfiles).
    destruct (alternate_length files 0) as [Hv Hvt].
    exists (alternate 0 files).1, (alternate 0 files).2.
    split; [destruct (alternate 0 files); reflexivity|].
    split; [|split; [lia|]].
    + apply Nat2Z.inj. rewrite Hv, Nat2Z.inj_div, Nat2Z.inj_add, Hlen.
      change (Z.of_nat 2) with 2. change (Z.of_nat 3) with 3.
      Z.div_mod_to_equations. lia.
    + intros k line Hk.
      destruct (Forall2_lookup_l _ _ _ _ _ Hfiles Hk) as (file & Hfile & Hline).
      exists file. split.
      { rewrite py_index_head in Hline.
        destruct (UCF101Splits.py_split line); [discriminate|].
        injection Hline as ->. reflexivity. }
      destruct (alternate_lookup files 0 k file Hfile) as [Hc Hlookup].
      cbn zeta in Hc, Hlookup. rewrite Z.add_0_l in Hlookup.
      assert (Hmod : Z.of_nat (k mod 3) = Z.of_nat k mod 3)
        by (rewrite Nat2Z.inj_mod; reflexivity).
      assert (Hdiv : Z.of_nat (k / 3) = Z.of_nat k / 3)
        by (rewrite Nat2Z.inj_div; reflexivity).
      destruct (Z.eqb_spec (Z.of_nat k mod 3) 0) as [H0|H0].
      * replace (Nat.eqb (k mod 3) 0) with true
          by (symmetry; apply Nat.eqb_eq; lia).
        replace (k / 3)%nat
          with (Z.to_nat ((0 + Z.of_nat k + 2) / 3 - (0 + 2) / 3));
          [exact Hlookup|].
        apply Nat2Z.inj. rewrite Z2Nat.id by lia.
        clear Hlookup Hmod. generalize dependent (k / 3)%nat. intros q Hq.
        Z.div_mod_to_equations. lia.
      * replace (Nat.eqb (k mod 3) 0) with false
          by (symmetry; apply Nat.eqb_neq; lia).
        replace (k - k / 3 - 1)%nat
          with (Z.to_nat (Z.of_nat k
                  - ((0 + Z.of_nat k + 2) / 3 - (0 + 2) / 3)));
          [exact Hlookup|].
        apply Nat2Z.inj. rewrite Z2Nat.id by lia.
        clear Hlookup Hmod. generalize dependent (k / 3)%nat. intros q Hq.
        Z.div_mod_to_equations. lia.
  - intros Hblank. apply read_eval_loop_blank. exact Hblank.
Qed.

Lemma ucf_read_eval_splits_witness :
  UCF101Splits._read_eval_splits pacman_sample_join
    (fun _ => Ok ["a.avi 1"; "b.avi 1"; "c.avi 2"; "d.avi 2"]%string)
    "splits" = Ok (["a.avi"; "d.avi"], ["b.avi"; "c.avi"])%string.
Proof.
  destruct (ucf_read_eval_splits pacman_sample_join
              (fun _ => Ok ["a.avi 1"; "b.avi 1"; "c.avi 2"; "d.avi 2"]%string)
              "splits" _ eq_refl) as [Hsplit _].
  destruct Hsplit as (valid & test & Hrun & _).
  - repeat constructor; discriminate.
  - rewrite Hrun. vm_compute in Hrun. injection Hrun as <- <-. reflexivity.
Defined.

(** ** What an item of a UCF-101 batch is made of *)

Lemma ucf_crop_loop_inv (self : UCF101.Dataset) (crop_h crop_w
    inputs_length : Z) (current : list image) (retries : list Z) :
  forall crop_ g c g',
  UCF101.crop_loop self crop_h crop_w inputs_length current retries crop_ g
    = Ok (c, g') ->
  (exists offset_y offset_x,
     0 <= offset_y <= (UCF101._data_img_size self).1.1 - crop_h /\
     0 <= offset_x <= (UCF101._data_img_size self).1.2 - crop_w /\
     c = crop crop_h crop_w offset_y offset_x <$> current) \/
  crop_ = Some c.
Proof.
  induction retries as [|retry retries IH]; intros crop_ g c g' Hrun.
  - cbn in Hrun. destruct crop_ as [c0|]; [|discriminate].
    apply ret_M_inv in Hrun as [-> _]. right. reflexivity.
  - cbn [UCF101.crop_loop] in Hrun.
    apply bind_M_inv in Hrun as (ox & g1 & Hx & Hrun).
    apply bind_M_inv in Hrun as (oy & g2 & Hy & Hrun).
    apply randint_inv in Hx as (Hx & _). apply randint_inv in Hy as (Hy & _).
    left.
    assert (Hdone : forall g3,
      mret (M:=M) (crop crop_h crop_w oy ox <$> current) g3 = Ok (c, g') ->
      exists offset_y offset_x,
        0 <= offset_y <= (UCF101._data_img_size self).1.1 - crop_h /\
        0 <= offset_x <= (UCF101._data_img_size self).1.2 - crop_w /\
        c = crop crop_h crop_w offset_y offset_x <$> current).
    { intros g3 H. apply ret_M_inv in H as [-> _].
      exists oy, ox. split; [lia|]. split; [lia|reflexivity]. }
    destruct (UCF101._skip_less_movement self); [|eapply Hdone; exact Hrun].
    destruct (negb _); [|eapply Hdone; exact Hrun].
    apply IH in Hrun as [Hrun|[= <-]]; [exact Hrun|].
    exists oy, ox. split; [lia|]. split; [lia|reflexivity].
Qed.

Lemma length_chunks {A} (k size : nat) (l : list A) :
  length (chunks k size l) = k.
Proof.
  revert l. induction k as [|k IH]; intros l; cbn; [reflexivity|].
  rewrite IH. reflexivity.
Qed.

Lemma np_reshape_length (flat : list Z) (t h w c : Z)
    (current : list image) :
  np_reshape flat (t, h, w, c) = Ok current ->
  Z.of_nat (length current) = t.
Proof.
  unfold np_reshape. destruct (Z.ltb_spec t 0); [discriminate|].
  destruct (_ || _); [discriminate|]. destruct (negb _); [discriminate|].
  intros [= <-]. rewrite length_fmap, length_chunks. lia.
Qed.

(** X14: an item [get_batch] of a UCF-101 evaluation dataset loads is one
    window of consecutive frames of one serialized sequence: its inputs
    followed by its targets are the [inputs_length + targets_length]
    frames from a drawn start on, all cut by one crop window that lies
    inside the stored image, and all flipped or none, as the parity rule
    says for the virtual row of the item. *)
Theorem ucf_item_window read_as_binary (self : UCF101.Dataset) (i : Z)
    (f : string) (g : rng) seq_input seq_target g' :
  let inputs_length := dim0 (UCF101.input_shape self) in
  let targets_length := dim0 (UCF101.target_shape self) in
  let total_length := inputs_length + targets_length in
  0 <= inputs_length -> 0 <= targets_length ->
  UCF101.load_item read_as_binary self i f g
    = Ok ((seq_input, seq_target), g') ->
  exists flat current start_t offset_y offset_x,
    read_as_binary f = Ok flat /\
    np_reshape flat
      (UCF101._serialized_sequence_length self,
       (UCF101._data_img_size self).1.1, (UCF101._data_img_size self).1.2,
       (UCF101._data_img_size self).2) = Ok current /\
    0 <= start_t <= UCF101._serialized_sequence_length self - total_length /\
    (forall crop_h crop_w,
       UCF101._crop_size self = Some (crop_h, crop_w) ->
       0 <= offset_y <= (UCF101._data_img_size self).1.1 - crop_h /\
       0 <= offset_x <= (UCF101._data_img_size self).1.2 - crop_w) /\
    let window := py_slice start_t (start_t + total_length) current in
    let cropped :=
      match UCF101._crop_size self with
      | None => window
      | Some (crop_h, crop_w) =>
          crop crop_h crop_w offset_y offset_x <$> window
      end in
    let flipped :=
      if UCF101._double_with_flipped self
         && UCF101.flip_decision (UCF101.real_dataset_size self)
              (UCF101._row self + i)
      then flip_lr <$> cropped else cropped in
    seq_input ++ seq_target = flipped /\
    Z.of_nat (length seq_input) = inputs_length /\
    Z.of_nat (length seq_target) = targets_length.
Proof.
  intros inputs_length targets_length total_length Hin Htg Hrun.
  unfold UCF101.load_item in Hrun.
  fold inputs_length targets_length total_length in Hrun.
  apply bind_M_inv in Hrun as (flat & g1 & Hflat & Hrun).
  apply lift_inv in Hflat as [Hflat ->].
  destruct (UCF101._data_img_size self) as [[h w] c] eqn:Esize.
  apply bind_M_inv in Hrun as (current & g2 & Hcur & Hrun).
  apply lift_inv in Hcur as [Hcur ->].
  apply bind_M_inv in Hrun as (start_t & g3 & Hstart & Hrun).
  apply randint_inv in Hstart as (Hstart & _).
  apply bind_M_inv in Hrun as (cropped & g4 & Hcrop & Hrun).
  apply ret_M_inv in Hrun as [[= -> ->] _].
  set (window := py_slice start_t (start_t + total_length) current) in *.
  assert (Hcropped : exists offset_y offset_x,
    (forall crop_h crop_w,
       UCF101._crop_size self = Some (crop_h, crop_w) ->
       0 <= offset_y <= h - crop_h /\ 0 <= offset_x <= w - crop_w) /\
    cropped = match UCF101._crop_size self with
              | None => window
              | Some (crop_h, crop_w) =>
                  crop crop_h crop_w offset_y offset_x <$> window
              end).
  { destruct (UCF101._crop_size self) as [[crop_h crop_w]|].
    - apply ucf_crop_loop_inv in Hcrop as [Hc|Hc]; [|discriminate].
      rewrite Esize in Hc. cbn [fst snd] in Hc.
      destruct Hc as (oy & ox & Hy & Hx & ->).
      exists oy, ox. split; [|reflexivity].
      intros ? ? [= <- <-]. split; assumption.
    - apply ret_M_inv in Hcrop as [-> _].
      exists 0, 0. split; [discriminate|reflexivity]. }
  destruct Hcropped as (offset_y & offset_x & Hoff & Hcropped).
  exists flat, current, start_t, offset_y, offset_x.
  split; [exact Hflat|]. split; [exact Hcur|]. split; [lia|].
  split; [exact Hoff|]. cbn zeta. cbn [fst snd]. fold window.
  rewrite <- Hcropped.
  set (flipped := if UCF101._double_with_flipped self then _ else _).
  assert (Hsame : (if UCF101._double_with_flipped self
                      && UCF101.flip_decision (UCF101.real_dataset_size self)
                           (UCF101._row self + i)
                   then flip_lr <$> cropped else cropped) = flipped).
  { unfold flipped. destruct (UCF101._double_with_flipped self);
      reflexivity. }
  rewrite Hsame.
  assert (Hlen : Z.of_nat (length flipped) = total_length).
  { assert (Hw : Z.of_nat (length window) = total_length).
    { unfold window. rewrite length_py_slice by lia.
      apply np_reshape_length in Hcur. lia. }
    assert (Hc : length cropped = length window).
    { rewrite Hcropped. destruct (UCF101._crop_size self) as [[? ?]|];
        [apply length_fmap|reflexivity]. }
    unfold flipped. destruct (UCF101._double_with_flipped self); [|lia].
    destruct (UCF101.flip_decision _ _); [rewrite length_fmap|]; lia. }
  split; [|split].
  - rewrite py_slice_app by lia.
    rewrite py_slice_prefix by lia. apply take_ge. lia.
  - rewrite length_py_slice by lia. lia.
  - rewrite length_py_slice by lia. lia.
Qed.

Lemma ucf_item_window_witness :
  exists seq_input seq_target g',
    UCF101.load_item ucf_sample_file ucf_sample 0 "f0" sample_rng
      = Ok ((seq_input, seq_target), g') /\
    Z.of_nat (length seq_input) = 2 /\ Z.of_nat (length seq_target) = 1.
Proof.
  destruct (UCF101.load_item ucf_sample_file ucf_sample 0 "f0" sample_rng)
    as [[[seq_input seq_target] g']|e] eqn:Hrun;
    [|vm_compute in Hrun; discriminate].
  exists seq_input, seq_target, g'. split; [reflexivity|].
  apply ucf_item_window in Hrun
    as (_ & _ & _ & _ & _ & _ & _ & _ & _ & _ & Hi & Ht);
    [|cbn; lia|cbn; lia].
  split; [exact Hi|exact Ht].
Defined.

(** ** What an item of a Ms. Pac-Man batch is made of *)

Lemma py_index_lookup {A} (l : list A) (i : Z) (x : A) :
  0 <= i -> py_index l i = Ok x -> l !! Z.to_nat i = Some x.
Proof.
  intros Hi. unfold py_index. destruct (Z.ltb_spec i 0); [lia|].
  destruct (_ || _); [discriminate|].
  destruct (l !! Z.to_nat i); [|discriminate]. intros [= ->]. reflexivity.
Qed.

(** X15: an item [get_batch] of a Ms. Pac-Man dataset samples is one
    window of consecutive frames of one episode of the catalog: output
    frame [j] of its inputs followed by its targets is frame
    [start_idx + j] of the episode, cut by the crop window of the accepted
    pass and flipped with its flag, the same for all frames; the crop
    window lies inside the frame, a crop that shows the HUD is not
    flipped, and nothing is flipped without [random_flip]. *)
Theorem pacman_item_window image_read path_join (self : MsPacman.Dataset)
    (seq_indices : list Z) (batch : Z) (row : list image) (g : rng)
    trace row' targets g' :
  0 <= MsPacman._input_seq_length self ->
  0 <= MsPacman._target_seq_length self ->
  let total_seq_len :=
    MsPacman._input_seq_length self + MsPacman._target_seq_length self in
  MsPacman.sample_item image_read path_join self seq_indices total_seq_len
    batch row g = Ok (trace, row', targets, g') ->
  exists seq_index current_seq start_idx offset_y offset_x do_flip t,
    targets = Some t /\
    py_index seq_indices batch = Ok seq_index /\
    py_index (MsPacman._data self) seq_index = Ok current_seq /\
    0 <= start_idx <= current_seq.1.2 - total_seq_len /\
    (forall crop_h crop_w,
       MsPacman._crop_size self = Some (crop_h, crop_w) ->
       0 <= offset_y <= MsPacman.FRAME_HEIGHT - crop_h /\
       0 <= offset_x <= MsPacman.FRAME_WIDTH - crop_w /\
       (offset_y + crop_h > MsPacman.HUD_Y -> do_flip = false)) /\
    (MsPacman._random_flip self = false -> do_flip = false) /\
    Forall2 (fun fidx out => exists filename frame,
               py_index current_seq.2 fidx = Ok filename /\
               image_read (path_join current_seq.1.1 filename) = Ok frame /\
               out = MsPacman.transform self offset_y offset_x do_flip frame)
      (xrange start_idx (start_idx + total_seq_len)) (row' ++ t).
Proof.
  intros Hin Htg total_seq_len Hrun. unfold MsPacman.sample_item in Hrun.
  apply bind_M_inv in Hrun as (seq_index & g1 & Hsi & Hrun).
  apply lift_inv in Hsi as [Hsi ->].
  apply bind_M_inv in Hrun as (current_seq & g2 & Hcs & Hrun).
  apply lift_inv in Hcs as [Hcs ->].
  apply bind_M_inv in Hrun as (start_idx & g3 & Hstart & Hrun).
  apply randint_inv in Hstart as (Hstart & _).
  apply bind_M_inv in Hrun as (do_flip0 & g4 & Hflip & Hrun).
  apply bind_M_inv in Hrun as (input_frames & g5 & Hframes & Hrun).
  apply lift_inv in Hframes as [Hframes ->].
  assert (Hb := Hrun). apply retry_loop_breaks in Hb.
  destruct Hb as (_ & _ & t & init & a & -> & Htrace).
  apply retry_loop_spec in Hrun as (new & Hnew_eq & Hnew & _ & Hsome).
  cbn in Hnew_eq. subst new.
  destruct (Hsome t eq_refl) as (init' & a' & Heq & -> & Ht).
  assert (Ha' : trace !! length init' = Some a').
  { rewrite Heq. rewrite lookup_app_r by lia.
    rewrite Nat.sub_diag. reflexivity. }
  destruct (Hnew _ _ Ha') as (_ & Hok & _ & Hflag & _).
  destruct Hok as (Hwritten & _ & _ & Hhud & Hvalid).
  exists seq_index, current_seq, start_idx, (MsPacman.att_offset_y a'),
    (MsPacman.att_offset_x a'), (MsPacman.att_do_flip a'), t.
  split; [reflexivity|]. split; [exact Hsi|]. split; [exact Hcs|].
  split; [lia|]. split; [|split].
  - intros crop_h crop_w Hcrop.
    destruct (Hvalid crop_h crop_w Hcrop) as [Hy Hx].
    split; [exact Hy|]. split; [exact Hx|].
    exact (Hhud crop_h crop_w Hcrop).
  - intros Hnoflip. rewrite Hnoflip in Hflip.
    apply ret_M_inv in Hflip as [-> _]. rewrite Hflag. reflexivity.
  - rewrite (xrange_split start_idx
               (start_idx + MsPacman._input_seq_length self)) by lia.
    apply Forall2_app.
    + apply forM_result_inv in Hframes. apply forM_result_inv in Hwritten.
      assert (Hlen1 := @Forall2_length _ _ _ _ _ Hframes).
      assert (Hlen2 := @Forall2_length _ _ _ _ _ Hwritten).
      rewrite length_xrange in Hlen1, Hlen2.
      apply Forall2_same_length_lookup_2;
        [rewrite length_xrange; lia|].
      intros k fidx out Hfidx Hout.
      assert (Hk : (k < length input_frames)%nat).
      { apply lookup_lt_Some in Hout. lia. }
      destruct (lookup_lt_is_Some_2 input_frames k Hk) as (frame & Hframe).
      assert (Hread := @Forall2_lookup_lr _ _ _ _ _ _ _ _ Hframes Hfidx Hframe).
      apply bind_result_inv in Hread as (filename & Hfn & Hread).
      assert (Hi : xrange 0 (MsPacman._input_seq_length self) !! k
                   = Some (Z.of_nat k)).
      { unfold xrange. apply lookup_seqZ. lia. }
      assert (Hwr := @Forall2_lookup_lr _ _ _ _ _ _ _ _ Hwritten Hi Hout).
      apply bind_result_inv in Hwr as (frame' & Hframe' & Hwr).
      apply py_index_lookup in Hframe'; [|lia].
      rewrite Nat2Z.id, Hframe in Hframe'. injection Hframe' as <-.
      injection Hwr as <-. exists filename, frame.
      split; [exact Hfn|]. split; [exact Hread|reflexivity].
    + unfold MsPacman.process_targets in Ht.
      apply forM_result_inv in Ht.
      eapply Forall2_impl; [|exact Ht].
      intros fidx out Hout. cbn beta in Hout.
      apply bind_result_inv in Hout as (filename & Hfn & Hout).
      apply bind_result_inv in Hout as (frame & Hframe & Hout).
      injection Hout as <-. exists filename, frame.
      split; [exact Hfn|]. split; [exact Hframe|reflexivity].
Qed.

Lemma pacman_item_window_witness :
  exists trace row' t g',
    MsPacman.sample_item pacman_sample_read pacman_sample_join
      pacman_sample_ungated [0] 3 0 [] sample_rng
      = Ok (trace, row', Some t, g') /\
    length (row' ++ t) = 3%nat.
Proof.
  destruct (MsPacman.sample_item pacman_sample_read pacman_sample_join
              pacman_sample_ungated [0] 3 0 [] sample_rng)
    as [[[[trace row'] targets] g']|e] eqn:Hrun;
    [|vm_compute in Hrun; discriminate].
  apply (pacman_item_window pacman_sample_read pacman_sample_join
           pacman_sample_ungated [0] 0 [] sample_rng trace row' targets g')
    in Hrun as Hwin; [|cbn; lia|cbn; lia].
  destruct Hwin as (seq_index & current_seq & start_idx & offset_y & offset_x
                      & do_flip & t & -> & _ & _ & _ & _ & _ & Hall).
  exists trace, row', t, g'. split; [reflexivity|].
  apply Forall2_length in Hall. rewrite <- Hall, length_xrange.
  cbn. lia.
Defined.

(** ** The constructors establish what [get_batch] relies on *)

(** X16: a UCF-101 evaluation dataset as [__init__] builds it serves its
    first batch: when the constructor returns (the crop, if any, is
    strictly smaller than the scaled image), the preprocessed files are as
    many as the dataset size says, each holds a serialized sequence of the
    scaled image size, and the window of inputs and targets is not longer
    than a serialized sequence, [get_batch] returns for every batch size
    strictly between [0] and the dataset size, with arrays of the shapes
    the constructor computed and entries in [0, 1]. *)
Theorem ucf_init_serves read_as_binary (dataset_size : Z)
    (seq_files : list string) (input_seq_length target_seq_length : Z)
    (image_scale_factor : Q) (gray_scale : bool)
    (serialized_sequence_length : Z) (double_with_flipped : bool)
    (crop_size : option (Z * Z)) (repetitions_per_epoche : Z)
    (skip_less_movement : bool) (self : UCF101.Dataset) (batch_size : Z)
    (g : rng) :
  UCF101.__init__ dataset_size seq_files input_seq_length target_seq_length
    image_scale_factor gray_scale serialized_sequence_length
    double_with_flipped crop_size repetitions_per_epoche skip_less_movement
    = Ok self ->
  dataset_size = Z.of_nat (length seq_files) ->
  0 <= input_seq_length -> 0 <= target_seq_length ->
  input_seq_length + target_seq_length <= serialized_sequence_length ->
  (0 <= image_scale_factor)%Q ->
  (forall crop_h crop_w, crop_size = Some (crop_h, crop_w) ->
     0 <= crop_h /\ 0 <= crop_w) ->
  bytes_stored read_as_binary ->
  Forall (fun f => exists flat,
            read_as_binary f = Ok flat /\
            Z.of_nat (length flat) =
              serialized_sequence_length
              * UCF101.int (inject_Z UCF101.FRAME_HEIGHT * image_scale_factor)
              * UCF101.int (inject_Z UCF101.FRAME_WIDTH * image_scale_factor)
              * (if gray_scale then 1 else UCF101.FRAME_CHANNELS))
    seq_files ->
  0 < batch_size < dataset_size ->
  exists inputs targets self' g',
    UCF101.get_batch read_as_binary self batch_size g
      = Ok ((inputs, targets, self'), g') /\
    array_of unit_interval batch_size (UCF101.input_shape self) inputs /\
    array_of unit_interval batch_size (UCF101.target_shape self) targets.
Proof.
  intros Hinit Hsize Hin Htg Htotal Hscale Hcrop Hbytes Hfiles Hbs.
  assert (Hcons : ucf_consistent self).
  { eapply ucf_init_consistent;
      [exact Hin|exact Htg|exact Hscale|exact Hcrop|exact Hinit]. }
  assert (Hh : 0 <= UCF101.int (inject_Z UCF101.FRAME_HEIGHT
                                 * image_scale_factor)).
  { apply int_nonneg. apply Qmult_le_0_compat; [discriminate|exact Hscale]. }
  assert (Hw : 0 <= UCF101.int (inject_Z UCF101.FRAME_WIDTH
                                 * image_scale_factor)).
  { apply int_nonneg. apply Qmult_le_0_compat; [discriminate|exact Hscale]. }
  assert (Hc : 0 <= (if gray_scale then 1 else UCF101.FRAME_CHANNELS))
    by (destruct gray_scale; unfold UCF101.FRAME_CHANNELS; lia).
  assert (Hok : exists r g',
            UCF101.get_batch read_as_binary self batch_size g = Ok (r, g')).
  { unfold UCF101.__init__ in Hinit.
    destruct (negb _) eqn:Hfits; [discriminate|].
    apply negb_false_iff in Hfits.
    assert (Hfit : forall crop_h crop_w, crop_size = Some (crop_h, crop_w) ->
      crop_h <= UCF101.int (inject_Z UCF101.FRAME_HEIGHT * image_scale_factor)
      /\ crop_w <= UCF101.int (inject_Z UCF101.FRAME_WIDTH
                                * image_scale_factor)).
    { intros crop_h crop_w ->. cbn [fst snd] in Hfits.
      apply andb_true_iff in Hfits as [H1 H2].
      apply Z.gtb_lt in H1. apply Z.gtb_lt in H2. lia. }
    cbn [fst snd] in Hinit.
    destruct crop_size as [[ch cw]|]; injection Hinit as <-;
      (apply ucf_get_batch_ok;
       cbn [UCF101._indices UCF101.real_dataset_size UCF101._file_name_list
            UCF101._serialized_sequence_length UCF101._data_img_size
            UCF101.input_shape UCF101.target_shape UCF101._crop_size
            dim0 fst snd];
       [exact Hcons
       |exact Hbytes
       |rewrite length_xrange; lia
       |exact Hbs
       |apply Forall_forall; intros i Hi;
        apply list_elem_of_In, elem_of_xrange in Hi; lia
       |exact Hfiles
       |exact Hh|exact Hw|exact Hc
       |lia
       |]).
    - intros crop_h crop_w [= <- <-]. exact (Hfit ch cw eq_refl).
    - intros crop_h crop_w [=]. }
  destruct Hok as ([[inputs targets] self'] & g' & Hrun).
  exists inputs, targets, self', g'. split; [exact Hrun|].
  destruct (ucf_get_batch_contract _ _ _ _ _ _ _ _ Hcons Hbytes Hrun)
    as (raw_i & raw_t & -> & -> & Hi & Ht).
  split; apply div_batch_array; assumption.
Qed.

Lemma ucf_init_serves_witness :
  exists self inputs targets self' g',
    UCF101.__init__ 3 ["f0"; "f1"; "f2"]%string 2 1 (1 # 120) true 4 true
      (Some (1, 1)) 1 true = Ok self /\
    UCF101.get_batch (fun _ => Ok (replicate 16 7)) self 2 sample_rng
      = Ok ((inputs, targets, self'), g').
Proof.
  destruct (ucf_init_serves (fun _ => Ok (replicate 16 7)) 3
              ["f0"; "f1"; "f2"]%string 2 1 (1 # 120) true 4 true
              (Some (1, 1)) 1 true _ 2 sample_rng eq_refl)
    as (inputs & targets & self' & g' & Hrun & _).
  - reflexivity.
  - lia.
  - lia.
  - lia.
  - discriminate.
  - intros crop_h crop_w [= <- <-]. lia.
  - intros f flat [= <-].
    repeat (constructor; [unfold uint8; lia|]). constructor.
  - repeat constructor; eexists; (split; [reflexivity|reflexivity]).
  - lia.
  - eexists _, inputs, targets, self', g'. split; [reflexivity|exact Hrun].
Defined.

(** X17: a Ms. Pac-Man dataset as [__init__] builds it serves every
    batch: when there is at least one folder, every folder holds at least
    [input_seq_length + target_seq_length] frames that all decode to
    [210 x 160 x 3] images, and the crop, if any, fits the frame,
    [get_batch] returns for every batch size from [0] on, with arrays of
    the shapes the constructor computed and entries in [0, 1], and the
    dataset stays as the constructor left it. *)
Theorem pacman_init_serves image_read path_join
    (folders : list (string * list string))
    (input_seq_length target_seq_length : Z) (crop_size : option (Z * Z))
    (repetitions_per_epoche : Z) (skip_less_movement random_flip : bool)
    (batch_size : Z) (g : rng) :
  frames_stored image_read -> folders <> [] ->
  0 <= input_seq_length -> 0 <= target_seq_length ->
  (forall crop_h crop_w, crop_size = Some (crop_h, crop_w) ->
     0 <= crop_h <= MsPacman.FRAME_HEIGHT /\
     0 <= crop_w <= MsPacman.FRAME_WIDTH) ->
  Forall (fun folder : string * list string =>
            input_seq_length + target_seq_length
              <= Z.of_nat (length folder.2) /\
            Forall (fun filename => exists frame,
                      image_read (path_join folder.1 filename) = Ok frame)
              folder.2) folders ->
  0 <= batch_size ->
  let self := MsPacman.__init__ folders input_seq_length target_seq_length
                crop_size repetitions_per_epoche skip_less_movement
                random_flip in
  exists inputs targets g',
    MsPacman.get_batch image_read path_join self batch_size g
      = Ok ((inputs, targets, self), g') /\
    array_of unit_interval batch_size (MsPacman.input_shape self) inputs /\
    array_of unit_interval batch_size (MsPacman.target_shape self) targets.
Proof.
  intros Hstored Hne Hin Htg Hcrop Hfolders Hbs self.
  assert (Hcons : pacman_consistent self) by apply pacman_init_consistent.
  assert (Hfields :
    MsPacman._data self =
      (fun '(nfp, filenames) =>
         (nfp, Z.of_nat (length filenames), filenames)) <$> folders /\
    MsPacman._input_seq_length self = input_seq_length /\
    MsPacman._target_seq_length self = target_seq_length /\
    MsPacman._crop_size self = crop_size).
  { unfold self, MsPacman.__init__.
    destruct crop_size as [[ch cw]|]; repeat split. }
  destruct Hfields as (Hdata & Hinl & Htgl & Hcs).
  destruct (pacman_get_batch_ok image_read path_join self batch_size g)
    as (inputs & targets & g' & Hrun).
  - exact Hcons.
  - exact Hstored.
  - exact Hbs.
  - rewrite Hdata, length_fmap. unfold self.
    rewrite pacman_init_size. reflexivity.
  - rewrite Hdata. destruct folders; [congruence|discriminate].
  - rewrite Hinl. exact Hin.
  - rewrite Htgl. exact Htg.
  - unfold crop_fits. rewrite Hcs.
    destruct crop_size as [[ch cw]|]; [|exact I].
    destruct (Hcrop ch cw eq_refl). lia.
  - rewrite Hcs. intros crop_h crop_w E.
    destruct (Hcrop crop_h crop_w E). lia.
  - rewrite Hdata. apply Forall_fmap.
    eapply Forall_impl; [|exact Hfolders].
    intros [nfp filenames] [Hlong Hfiles]. unfold episode_stored.
    rewrite Hinl, Htgl. cbn [fst snd] in *.
    split; [reflexivity|]. split; [exact Hlong|exact Hfiles].
  - exists inputs, targets, g'. split; [exact Hrun|].
    destruct (pacman_get_batch_contract _ _ _ _ _ _ _ _ _ Hcons Hstored Hrun)
      as (raw_i & raw_t & -> & -> & Hi & Ht).
    split; apply div_batch_array; assumption.
Qed.

Lemma pacman_init_serves_witness :
  exists inputs targets g',
    MsPacman.get_batch pacman_sample_read pacman_sample_join
      (MsPacman.__init__ [("d0", ["a"; "bb"; "ccc"])]%string 2 1 None 3
         true true) 2 sample_rng
    = Ok ((inputs, targets,
           MsPacman.__init__ [("d0", ["a"; "bb"; "ccc"])]%string 2 1 None 3
             true true), g').
Proof.
  destruct (pacman_init_serves pacman_sample_read pacman_sample_join
              [("d0", ["a"; "bb"; "ccc"])]%string 2 1 None 3 true true 2
              sample_rng) as (inputs & targets & g' & Hrun & _).
  - exact pacman_sample_read_stored.
  - discriminate.
  - lia.
  - lia.
  - discriminate.
  - repeat constructor; cbn; try lia; eexists; reflexivity.
  - lia.
  - exists inputs, targets, g'. exact Hrun.
Defined.
